(** * 2015 flight delays and cancellations dashboard

    A shallow embedding of the enrichment and aggregation code of the three
    dashboard pages ([pages/overview.py], [pages/delay_analysis.py],
    [pages/cancelled_flights.py]) together with the parts of Python, pandas
    and numpy that this code calls, followed by the properties of the
    specification stated over that embedding.

    Conventions.  A pandas missing value (NaN / None) is [None]; a column of
    the frame is a field of the row record; a callback returns the table it
    hands to plotly, the drawing itself is outside the model.  Floating-point
    means and rates are exact rationals. *)

From Stdlib Require Import ZArith QArith Lia String Ascii DecimalString.
From stdpp Require Import base option list gmap strings sorting.

Local Open Scope Z_scope.
Local Open Scope string_scope.

(** ** Python: exceptions, [str], [str.zfill], slicing, [int] *)

Module Py.

Inductive exn : Set := ValueError | KeyError | IndexError.

Inductive Result (A : Type) : Type :=
| Ok (a : A)
| Raise (e : exn).
Arguments Ok {A} a.
Arguments Raise {A} e.

#[global] Instance Result_ret : MRet Result := fun A a => Ok a.

#[global] Instance Result_bind : MBind Result := fun A B k m =>
  match m with
  | Ok a => k a
  | Raise e => Raise e
  end.

(** [str(n)] for a Python int: decimal digits, ["-"] in front of a negative
    number, ["0"] for zero. *)
Definition str (n : Z) : string := NilZero.string_of_int (Z.to_int n).

Fixpoint zeros (n : nat) : string :=
  match n with
  | O => EmptyString
  | S n' => String "0" (zeros n')
  end.

Definition is_sign (c : ascii) : bool :=
  (Ascii.eqb c "-" || Ascii.eqb c "+")%bool.

(** [s.zfill(width)]: pads with zeros on the left up to [width]; a leading
    sign stays in front of the padding. *)
Definition zfill (width : nat) (s : string) : string :=
  let len := String.length s in
  if (width <=? len)%nat then s
  else
    let fill := (width - len)%nat in
    match s with
    | String c rest =>
        if is_sign c then String c (zeros fill ++ rest) else zeros fill ++ s
    | EmptyString => zeros fill
    end.

(** [s[:k]] *)
Definition slice_to (k : nat) (s : string) : string := String.substring 0 k s.

Definition digit_of (c : ascii) : option Z :=
  let n := Z.of_N (N_of_ascii c) in
  if (Z.leb 48 n && Z.leb n 57)%bool then Some (n - 48) else None.

Fixpoint digits_value (acc : Z) (s : string) : option Z :=
  match s with
  | EmptyString => Some acc
  | String c s' =>
      match digit_of c with
      | Some d => digits_value (10 * acc + d) s'
      | None => None
      end
  end.

Definition unsigned_value (s : string) : option Z :=
  match s with
  | EmptyString => None
  | _ => digits_value 0 s
  end.

(** [int(s)] on a string: an optional sign followed by at least one decimal
    digit; any other string raises [ValueError].  (Python also accepts
    surrounding white space and underscores between digits; [str], [zfill]
    and slicing never produce them.) *)
Definition int (s : string) : Result Z :=
  let parsed :=
    match s with
    | String c rest =>
        if Ascii.eqb c "-" then Z.opp <$> unsigned_value rest
        else if Ascii.eqb c "+" then unsigned_value rest
        else unsigned_value s
    | EmptyString => None
    end in
  match parsed with
  | Some v => Ok v
  | None => Raise ValueError
  end.

(** [dict(zip(keys, values))]: a later pair overrides an earlier one with the
    same key. *)
Definition dict_of_zip {V} (kvs : list (string * V)) : gmap string V :=
  foldl (fun m kv => <[kv.1 := kv.2]> m) ∅ kvs.

(** The truth value of [airline] in [if airline:], for a value that is
    [None] or a string: only a string that is not empty is true. *)
Definition truthy (s : option string) : bool :=
  match s with
  | Some s' => negb (String.eqb s' EmptyString)
  | None => false
  end.

End Py.

(** The lambda of [flights['SCHEDULED_DEPARTURE'].apply(...)], used for
    [SCHED_HOUR] in [delay_analysis.py] and for [HOUR] in
    [cancelled_flights.py]:
    [lambda x: int(str(int(x)).zfill(4)[:2])].  The cell [x] is an integer,
    on which [int(x)] is the identity. *)
Definition sched_hour_lambda (x : Z) : Py.Result Z :=
  Py.int (Py.slice_to 2 (Py.zfill 4 (Py.str x))).


(** ** numpy: the random generator behind [DataFrame.sample] *)

(** The Mersenne-Twister generator of numpy is not part of the repository; it
    is taken as an interface: [seed s] is [np.random.RandomState(s)],
    [permutation rs n] is [rs.permutation(n)] together with the state the
    generator is left in. *)
Class NumpyRandom : Type := {
  RandomState : Type;
  seed : Z -> RandomState;
  permutation : RandomState -> nat -> list nat * RandomState
}.

(** What numpy documents of [permutation]: the result is a rearrangement of
    [range(n)]. *)
Class LawfulRandom `{NumpyRandom} : Prop :=
  permutation_range : forall (rs : RandomState) (n : nat),
    (permutation rs n).1 ≡ₚ seq 0 n.

(** ** numpy: the sort behind [DataFrame.sort_values] *)

(** [sort_values] is called without a [kind], so the column is sorted with
    numpy's [argsort(kind='quicksort')].  That sort is not stable, and which
    of two equal keys it puts first depends on the numpy build and on the
    length of the column; it is taken as an interface.  [argsort K le keys]
    are the positions of [keys] in an order in which the keys increase. *)
Class NumpySort : Type := {
  argsort : forall K : Type, (K -> K -> bool) -> list K -> list nat
}.

(** What numpy documents of [argsort]: the result is a rearrangement of the
    positions of the keys, and the keys taken at these positions increase.
    The second law is for keys whose order is total and transitive, as the
    order of integers and of floats that are not NaN is. *)
Class LawfulSort `{NumpySort} : Prop := {
  argsort_range : forall K (le : K -> K -> bool) (keys : list K),
    argsort K le keys ≡ₚ seq 0 (length keys);
  argsort_sorted : forall K (le : K -> K -> bool) (keys : list K),
    (forall a b, le a b = true \/ le b a = true) ->
    (forall a b c, le a b = true -> le b c = true -> le a c = true) ->
    StronglySorted (fun a b => le a b = true)
      (omap (fun i => keys !! i) (argsort K le keys))
}.

(** ** pandas: the Series and DataFrame operations the pages call *)

Module Pandas.
Import Py.

(** [series.map(d)] with a dict: a missing cell and a key that is not in the
    dict both give a missing cell; so does a missing value stored in [d]. *)
Definition Series_map {V} (d : gmap string (option V)) (x : option string)
  : option V :=
  code ← x; v ← d !! code; v.

(** [a + b] on two string columns, cell by cell. *)
Definition str_add (a b : option string) : option string :=
  x ← a; y ← b; Some (x ++ y).

(** [pd.unique]: the distinct values in order of first appearance. *)
Fixpoint unique {K} `{EqDecision K} (l : list K) : list K :=
  match l with
  | [] => []
  | x :: l' => x :: filter (fun y => y ≠ x) (unique l')
  end.

Definition count_of {K} `{EqDecision K} (k : K) (l : list K) : nat :=
  length (filter (fun y => y = k) l).

(** Stable sort by insertion: among rows that compare equal the one that
    came first stays first. *)
Fixpoint insert_by {A} (R : relation A) `{forall x y, Decision (R x y)}
  (x : A) (l : list A) : list A :=
  match l with
  | [] => [x]
  | y :: l' => if decide (R x y) then x :: l else y :: insert_by R x l'
  end.

Definition sort_by {A} (R : relation A) `{forall x y, Decision (R x y)}
  (l : list A) : list A :=
  foldr (insert_by R) [] l.

(** Sort order of group keys and of sorted columns. *)
Class KeyLe (K : Type) := key_le : K -> K -> bool.
#[global] Instance string_KeyLe : KeyLe string := String.leb.
#[global] Instance Z_KeyLe : KeyLe Z := Z.leb.
#[global] Instance nat_KeyLe : KeyLe nat := Nat.leb.
#[global] Instance Q_KeyLe : KeyLe Q := Qle_bool.
#[global] Instance prod_KeyLe {A B} `{EqDecision A} `{KeyLe A} `{KeyLe B}
  : KeyLe (A * B) := fun a b =>
  if decide (a.1 = b.1) then key_le a.2 b.2 else key_le a.1 b.1.

Definition key_le_rel {K} `{KeyLe K} : relation K :=
  fun a b => Is_true (key_le a b).
#[global] Instance key_le_rel_dec {K} `{KeyLe K} (a b : K)
  : Decision (key_le_rel a b) := Is_true_dec _.

Definition sort_keys {K} `{KeyLe K} (l : list K) : list K :=
  sort_by key_le_rel l.

(** Larger count first. *)
Definition count_ge {K} : relation (K * nat) :=
  fun a b => (b.2 <= a.2)%nat.
#[global] Instance count_ge_dec {K} (a b : K * nat)
  : Decision (count_ge a b) := Nat.le_dec _ _.

(** [series.value_counts()]: missing cells are dropped, one row per distinct
    value, largest count first; values with the same count are kept in
    order of first appearance. *)
Definition value_counts {K} `{EqDecision K} (col : list (option K))
  : list (K * nat) :=
  let vals := omap id col in
  sort_by count_ge
    (fmap (fun k => (k, count_of k vals)) (unique vals)).

(** [df.groupby(key)]: rows with a missing key are dropped, only keys that
    occur form a group, groups come in key order. *)
Definition groupby {K A} `{EqDecision K} `{KeyLe K}
  (key : A -> option K) (rows : list A) : list (K * list A) :=
  fmap (fun k => (k, filter (fun r => key r = Some k) rows))
      (sort_keys (unique (omap key rows))).

Definition sum_Z (l : list Z) : Z := foldr Z.add 0 l.

(** True division of two integer cells; [None] is the non-finite result of a
    division by zero. *)
Definition truediv (a b : Z) : option Q :=
  if decide (b = 0) then None else Some (inject_Z a / inject_Z b)%Q.

(** [.mean()] of a numeric column: missing cells are skipped; [None] (NaN)
    when nothing is left. *)
Definition mean (col : list (option Z)) : option Q :=
  let vals := omap id col in
  truediv (sum_Z vals) (Z.of_nat (length vals)).

(** [x <= c] on a float cell: a comparison with NaN is false. *)
Definition cell_le (x : option Z) (c : Z) : bool :=
  match x with
  | Some v => bool_decide (v <= c)
  | None => false
  end.

(** [series.between(lo, hi)], both ends included. *)
Definition between (x : option Z) (lo hi : Z) : bool :=
  match x with
  | Some v => bool_decide (lo <= v) && bool_decide (v <= hi)
  | None => false
  end.

(** The rows of a frame at the positions [locs], which [argsort] gives in
    range. *)
Definition iloc {A} (rows : list A) (locs : list nat) : list A :=
  omap (fun i => rows !! i) locs.

Section SortValues.
Context `{NumpySort}.

(** [frame.sort_values(col, ascending=ascending)] with the defaults
    [kind='quicksort'] and [na_position='last'], as pandas' [nargsort] does
    it: the rows with a missing cell go last, in the order of the frame; the
    other rows are put in the order [argsort] gives for their cells; for a
    descending sort the column is reversed before [argsort] and the result
    after it. *)
Definition sort_values {A K} `{KeyLe K} (col : A -> option K)
  (ascending : bool) (rows : list A) : list A :=
  let non_nans := omap (fun r => k ← col r; Some (k, r)) rows in
  let nans := filter (fun r => col r = None) rows in
  let by_argsort (l : list (K * A)) := iloc l (argsort K key_le l.*1) in
  let sorted := if ascending then by_argsort non_nans
                else reverse (by_argsort (reverse non_nans)) in
  (sorted.*2 ++ nans)%list.

End SortValues.

(** The order of two cells of a sorted column, the first above the second:
    increasing or decreasing, a missing cell after every other. *)
Definition cell_order {K} `{KeyLe K} (ascending : bool) (a b : option K)
  : Prop :=
  match a, b with
  | Some x, Some y => if ascending then key_le_rel x y else key_le_rel y x
  | None, Some _ => False
  | _, None => True
  end.

(** [np.searchsorted(bins, x, side='left')] for increasing [bins]. *)
Definition searchsorted_left (bins : list Z) (x : Z) : nat :=
  length (filter (fun b => b < x) bins).

(** [pd.cut(x, bins=bins, labels=labels)] with the defaults [right=True],
    [include_lowest=False]: bin [i] is the interval
    [(bins[i], bins[i+1]]]; a value outside every bin is missing.  The cell
    of the categorical result is the code [i] of the bin; [category] gives
    its label. *)
Definition cut (bins : list Z) (x : option Z) : option nat :=
  v ← x;
  let ids := searchsorted_left bins v in
  if decide (ids = 0%nat \/ ids = length bins) then None
  else Some (ids - 1)%nat.

(** The label of a category code. *)
Definition category (labels : list string) (code : nat) : string :=
  default "" (labels !! code).

(** [frame.take(locs)] *)
Definition take_locs {A} (rows : list A) (locs : list nat) : Result (list A) :=
  mapM (fun i => match rows !! i with
                 | Some r => Ok r
                 | None => Raise IndexError
                 end) locs.

Section Sample.
Context `{NumpyRandom}.

(** [rs.choice(pop, size=size, replace=False)] *)
Definition choice (rs : RandomState) (pop size : nat)
  : Result (list nat) * RandomState :=
  if decide (pop < size)%nat then (Raise ValueError, rs)
  else let '(p, rs') := permutation rs pop in (Ok (take size p), rs').

(** [frame.sample(n, random_state=random_state)].  The second component is
    the process-wide generator [np.random]: it is used, and advanced, only
    when no [random_state] is given; with a seed a fresh generator is made
    for the call. *)
Definition sample {A} (rows : list A) (n : nat) (random_state : option Z)
  (np_random : RandomState) : Result (list A) * RandomState :=
  match random_state with
  | Some s =>
      let '(locs, _) := choice (seed s) (length rows) n in
      (locs ≫= take_locs rows, np_random)
  | None =>
      let '(locs, np_random') := choice np_random (length rows) n in
      (locs ≫= take_locs rows, np_random')
  end.

End Sample.

End Pandas.


(** ** The three tables *)

Module Airlines.
Record row : Type := {
  IATA_CODE : string;
  AIRLINE : option string
}.
End Airlines.

Module Airports.
Record row : Type := {
  IATA_CODE : string;
  CITY : option string;
  LATITUDE : option Q;
  LONGITUDE : option Q
}.
End Airports.

Module Flights.

(** The columns of [flights.csv] that the modelled callbacks read.  The two
    airport columns may miss a value ([show_map] drops such rows);
    [DEPARTURE_DELAY] is a float column of whole minutes, missing when no
    delay was recorded; the other columns hold integers. *)
Record source : Type := {
  AIRLINE : string;
  ORIGIN_AIRPORT : option string;
  DESTINATION_AIRPORT : option string;
  SCHEDULED_DEPARTURE : Z;
  DEPARTURE_DELAY : option Z;
  DISTANCE : Z;
  DAY_OF_WEEK : Z;
  MONTH : Z;
  CANCELLED : Z
}.

(** A row of the frame [flights]: the source columns and the columns a page
    adds.  A column that a page has not assigned holds no value. *)
Record row : Type := {
  src :> source;
  AIRLINE_NAME : option string;
  ORIGIN_CITY : option string;
  DEST_CITY : option string;
  ROUTE : option string;
  DAY_NAME : option string;
  MONTH_NAME : option string;
  SCHED_HOUR : option Z;
  ON_TIME : option string;
  HOUR : option Z
}.

(** [pd.read_csv('data/flights.csv')] *)
Definition read_csv (csv : list source) : list row :=
  fmap (fun s => {| src := s; AIRLINE_NAME := None; ORIGIN_CITY := None;
                   DEST_CITY := None; ROUTE := None; DAY_NAME := None;
                   MONTH_NAME := None; SCHED_HOUR := None; ON_TIME := None;
                   HOUR := None |}) csv.

Definition set_AIRLINE_NAME (v : option string) (r : row) : row :=
  {| src := src r;
     AIRLINE_NAME := v;
     ORIGIN_CITY := ORIGIN_CITY r;
     DEST_CITY := DEST_CITY r;
     ROUTE := ROUTE r;
     DAY_NAME := DAY_NAME r;
     MONTH_NAME := MONTH_NAME r;
     SCHED_HOUR := SCHED_HOUR r;
     ON_TIME := ON_TIME r;
     HOUR := HOUR r |}.

Definition set_ORIGIN_CITY (v : option string) (r : row) : row :=
  {| src := src r;
     AIRLINE_NAME := AIRLINE_NAME r;
     ORIGIN_CITY := v;
     DEST_CITY := DEST_CITY r;
     ROUTE := ROUTE r;
     DAY_NAME := DAY_NAME r;
     MONTH_NAME := MONTH_NAME r;
     SCHED_HOUR := SCHED_HOUR r;
     ON_TIME := ON_TIME r;
     HOUR := HOUR r |}.

Definition set_DEST_CITY (v : option string) (r : row) : row :=
  {| src := src r;
     AIRLINE_NAME := AIRLINE_NAME r;
     ORIGIN_CITY := ORIGIN_CITY r;
     DEST_CITY := v;
     ROUTE := ROUTE r;
     DAY_NAME := DAY_NAME r;
     MONTH_NAME := MONTH_NAME r;
     SCHED_HOUR := SCHED_HOUR r;
     ON_TIME := ON_TIME r;
     HOUR := HOUR r |}.

Definition set_ROUTE (v : option string) (r : row) : row :=
  {| src := src r;
     AIRLINE_NAME := AIRLINE_NAME r;
     ORIGIN_CITY := ORIGIN_CITY r;
     DEST_CITY := DEST_CITY r;
     ROUTE := v;
     DAY_NAME := DAY_NAME r;
     MONTH_NAME := MONTH_NAME r;
     SCHED_HOUR := SCHED_HOUR r;
     ON_TIME := ON_TIME r;
     HOUR := HOUR r |}.

Definition set_DAY_NAME (v : option string) (r : row) : row :=
  {| src := src r;
     AIRLINE_NAME := AIRLINE_NAME r;
     ORIGIN_CITY := ORIGIN_CITY r;
     DEST_CITY := DEST_CITY r;
     ROUTE := ROUTE r;
     DAY_NAME := v;
     MONTH_NAME := MONTH_NAME r;
     SCHED_HOUR := SCHED_HOUR r;
     ON_TIME := ON_TIME r;
     HOUR := HOUR r |}.

Definition set_MONTH_NAME (v : option string) (r : row) : row :=
  {| src := src r;
     AIRLINE_NAME := AIRLINE_NAME r;
     ORIGIN_CITY := ORIGIN_CITY r;
     DEST_CITY := DEST_CITY r;
     ROUTE := ROUTE r;
     DAY_NAME := DAY_NAME r;
     MONTH_NAME := v;
     SCHED_HOUR := SCHED_HOUR r;
     ON_TIME := ON_TIME r;
     HOUR := HOUR r |}.

Definition set_SCHED_HOUR (v : option Z) (r : row) : row :=
  {| src := src r;
     AIRLINE_NAME := AIRLINE_NAME r;
     ORIGIN_CITY := ORIGIN_CITY r;
     DEST_CITY := DEST_CITY r;
     ROUTE := ROUTE r;
     DAY_NAME := DAY_NAME r;
     MONTH_NAME := MONTH_NAME r;
     SCHED_HOUR := v;
     ON_TIME := ON_TIME r;
     HOUR := HOUR r |}.

Definition set_ON_TIME (v : option string) (r : row) : row :=
  {| src := src r;
     AIRLINE_NAME := AIRLINE_NAME r;
     ORIGIN_CITY := ORIGIN_CITY r;
     DEST_CITY := DEST_CITY r;
     ROUTE := ROUTE r;
     DAY_NAME := DAY_NAME r;
     MONTH_NAME := MONTH_NAME r;
     SCHED_HOUR := SCHED_HOUR r;
     ON_TIME := v;
     HOUR := HOUR r |}.

Definition set_HOUR (v : option Z) (r : row) : row :=
  {| src := src r;
     AIRLINE_NAME := AIRLINE_NAME r;
     ORIGIN_CITY := ORIGIN_CITY r;
     DEST_CITY := DEST_CITY r;
     ROUTE := ROUTE r;
     DAY_NAME := DAY_NAME r;
     MONTH_NAME := MONTH_NAME r;
     SCHED_HOUR := SCHED_HOUR r;
     ON_TIME := ON_TIME r;
     HOUR := v |}.

(** [flights[col] = flights[...].map(...)]: the column is computed row by row
    and stored with the setter [set] of that column. *)
Definition assign {T} (set : option T -> row -> row) (f : row -> option T)
  (df : list row) : list row :=
  fmap (fun r => set (f r) r) df.

(** [flights[col] = flights[...].apply(f)] with an [f] that may raise. *)
Definition assign_apply {T} (set : option T -> row -> row)
  (f : row -> Py.Result T) (df : list row) : Py.Result (list row) :=
  mapM (fun r => v ← f r; mret (set (Some v) r)) df.

(** [flights if airline is None else flights[flights['AIRLINE'] == airline]] *)
Definition select_airline (airline : option string) (flights : list row)
  : list row :=
  match airline with
  | None => flights
  | Some a => filter (fun r : row => AIRLINE r = a) flights
  end.

End Flights.

Import Flights.

(** The frame [flights] with the further columns of [flights.csv] that
    [cancel_reason_pie], [cancelled_tail_bar] and [delay_cause_bar] read. *)
Module Details.
Record row : Type := {
  flight : Flights.row;
  TAIL_NUMBER : option string;
  CANCELLATION_REASON : option string;
  AIR_SYSTEM_DELAY : option Z;
  SECURITY_DELAY : option Z;
  AIRLINE_DELAY : option Z;
  LATE_AIRCRAFT_DELAY : option Z;
  WEATHER_DELAY : option Z
}.
End Details.

Coercion Details.flight : Details.row >-> Flights.row.

Definition arrow : string := " → ".

(** The dict literals mapped over [DAY_OF_WEEK] and [MONTH]. *)
Definition day_dict : gmap Z string :=
  {[ 1 := "Mon"; 2 := "Tue"; 3 := "Wed"; 4 := "Thu"; 5 := "Fri";
     6 := "Sat"; 7 := "Sun" ]}.

Definition month_dict : gmap Z string :=
  {[ 1 := "Jan"; 2 := "Feb"; 3 := "Mar"; 4 := "Apr"; 5 := "May";
     6 := "Jun"; 7 := "Jul"; 8 := "Aug"; 9 := "Sep"; 10 := "Oct";
     11 := "Nov"; 12 := "Dec" ]}.

(** ** Reference lookups, built the same way by the pages that use them *)

Section Lookups.
Variables (airlines : list Airlines.row) (airports : list Airports.row).

(** [dict(zip(airlines['IATA_CODE'], airlines['AIRLINE']))] *)
Definition airline_map : gmap string (option string) :=
  Py.dict_of_zip
    (fmap (fun a => (Airlines.IATA_CODE a, Airlines.AIRLINE a)) airlines).

(** [airports.set_index('IATA_CODE')[['LATITUDE', 'LONGITUDE']].dropna()]:
    the airports that have both coordinates, labelled by their code. *)
Definition airport_coords : list (string * (Q * Q)) :=
  omap (fun a =>
          lat ← Airports.LATITUDE a; lon ← Airports.LONGITUDE a;
          Some (Airports.IATA_CODE a, (lat, lon))) airports.

(** [dict(zip(airports['IATA_CODE'], airports['CITY']))] *)
Definition city_map : gmap string (option string) :=
  Py.dict_of_zip
    (fmap (fun a => (Airports.IATA_CODE a, Airports.CITY a)) airports).

(** [code in airport_coords.index] *)
Definition isin_coords (code : string) : Prop := code ∈ airport_coords.*1.

#[global] Instance isin_coords_dec code : Decision (isin_coords code).
Proof. unfold isin_coords. apply _. Defined.

(** [airport_coords.loc[code]]: the coordinate rows labelled [code];
    [KeyError] when there is none. *)
Definition loc (code : string) : Py.Result (list (Q * Q)) :=
  match filter (fun p : string * (Q * Q) => p.1 = code) airport_coords with
  | [] => Py.Raise Py.KeyError
  | rows => Py.Ok rows.*2
  end.

End Lookups.

(** One arc of a map: its hover text and the coordinate rows of its ends. *)
Record arc : Type := {
  arc_text : string;
  arc_origin : list (Q * Q);
  arc_dest : list (Q * Q)
}.

(** What a fmap callback hands to plotly: the arcs in drawing order and the
    airport markers. *)
Record map_figure : Type := {
  arcs : list arc;
  airport_points : list (string * list (Q * Q))
}.

Section MapFigure.
Variable airports : list Airports.row.

(** The loop over [sample.iterrows()] and the marker trace that follows it,
    the same in [show_map] and [cancel_map]. *)
Definition draw_map (sample : list (string * string)) : Py.Result map_figure :=
  traces ← mapM (fun row : string * string =>
                   origin ← loc airports row.1;
                   dest ← loc airports row.2;
                   mret {| arc_text := row.1 ++ arrow ++ row.2;
                           arc_origin := origin; arc_dest := dest |}) sample;
  let airports_used :=
    Pandas.unique (concat (fmap (fun row : string * string => [row.1; row.2])
                               sample)) in
  points ← mapM (fun code => rows ← loc airports code; mret (code, rows))
                airports_used;
  mret {| arcs := traces; airport_points := points |}.

End MapFigure.

(** ** [pages/overview.py] *)

Module Overview.
Import Flights.

Section Page.
Context `{NumpyRandom}.
Variables (airlines : list Airlines.row) (airports : list Airports.row).

(** Lines 21-29: the columns the page adds to [flights]. *)
Definition enrichment (flights : list row) : list row :=
  let flights := assign set_AIRLINE_NAME
    (fun r => Pandas.Series_map (airline_map airlines) (Some (AIRLINE r)))
    flights in
  let flights := assign set_ORIGIN_CITY
    (fun r => Pandas.Series_map (city_map airports) (ORIGIN_AIRPORT r))
    flights in
  let flights := assign set_DEST_CITY
    (fun r => Pandas.Series_map (city_map airports) (DESTINATION_AIRPORT r))
    flights in
  let flights := assign set_ROUTE
    (fun r => Pandas.str_add (Pandas.str_add (ORIGIN_CITY r) (Some arrow))
                             (DEST_CITY r))
    flights in
  let flights := assign set_DAY_NAME (fun r => day_dict !! DAY_OF_WEEK r)
    flights in
  let flights := assign set_MONTH_NAME (fun r => month_dict !! MONTH r)
    flights in
  flights.

(** The module-level frame the callbacks read. *)
Variable flights : list row.

Definition route_bar (airline : option string) : list (string * nat) :=
  let df := select_airline airline flights in
  take 20 (Pandas.value_counts (fmap ROUTE df)).

(** Lines 111-117 of [show_map]: the two code columns of the selected
    flights, without the rows that miss a code ([dropna]) and without the
    rows with an airport that has no coordinates. *)
Definition show_map_rows (selected_airline : option string)
  : list (string * string) :=
  let df := select_airline selected_airline flights in
  let sample :=
    omap (fun r : row =>
            o ← ORIGIN_AIRPORT r; d ← DESTINATION_AIRPORT r; Some (o, d))
         df in
  filter (fun od : string * string =>
            isin_coords airports od.1 /\ isin_coords airports od.2)
         sample.

(** Line 118: [.sample(min(300, len(df)), random_state=42)], where [df] is
    the frame of line 111. *)
Definition show_map_sample (selected_airline : option string)
  (np_random : RandomState)
  : Py.Result (list (string * string)) * RandomState :=
  let df := select_airline selected_airline flights in
  Pandas.sample (show_map_rows selected_airline)
    (Nat.min 300 (length df)) (Some 42) np_random.

Definition show_map (selected_airline : option string)
  (np_random : RandomState) : Py.Result map_figure * RandomState :=
  let '(sample, np_random') := show_map_sample selected_airline np_random in
  (sample ≫= draw_map airports, np_random').

Definition day_order : list string :=
  ["Mon"; "Tue"; "Wed"; "Thu"; "Fri"; "Sat"; "Sun"].

Definition month_order : list string :=
  ["Jan"; "Feb"; "Mar"; "Apr"; "May"; "Jun"; "Jul"; "Aug"; "Sep"; "Oct";
   "Nov"; "Dec"].

(** [counts.reindex(order)]: one row per label of [order], without a count
    where [counts] has none. *)
Definition reindex (order : list string) (counts : list (string * nat))
  : list (string * option nat) :=
  fmap (fun label => (label, (list_to_map counts : gmap string nat) !! label))
      order.

Definition busiest_day (airline : option string)
  : list (string * option nat) :=
  let df := select_airline airline flights in
  reindex day_order (Pandas.value_counts (fmap DAY_NAME df)).

Definition monthly_trend (airline : option string)
  : list (string * option nat) :=
  let df := select_airline airline flights in
  reindex month_order (Pandas.value_counts (fmap MONTH_NAME df)).

Definition origin_treemap (airline : option string) : list (string * nat) :=
  let df := select_airline airline flights in
  take 20 (Pandas.value_counts (fmap ORIGIN_CITY df)).

Definition dest_treemap (airline : option string) : list (string * nat) :=
  let df := select_airline airline flights in
  take 20 (Pandas.value_counts (fmap DEST_CITY df)).

(** A bar of [airline_share]: the columns [Airline], [Flights] and, when an
    airline is selected, [Highlight]. *)
Record share_bar : Type := {
  share_airline : string;
  share_flights : nat;
  share_highlight : option string
}.

(** [airline_map.get(airline)] compared with a name of the [Airline] column:
    a code that is not in the dict gives [None], a missing name NaN, and a
    string is equal to neither. *)
Definition is_selected_name (airline : string) (x : string) : Prop :=
  airline_map airlines !! airline = Some (Some x).

#[global] Instance is_selected_name_dec airline x
  : Decision (is_selected_name airline x).
Proof. unfold is_selected_name. apply _. Defined.

Definition airline_share (airline : option string) : list share_bar :=
  let counts := Pandas.value_counts (fmap AIRLINE_NAME flights) in
  if Py.truthy airline then
    fmap (fun c : string * nat =>
            {| share_airline := c.1; share_flights := c.2;
               share_highlight :=
                 Some (if decide (is_selected_name (default "" airline) c.1)
                       then "Selected" else "Other") |}) counts
  else
    fmap (fun c : string * nat =>
            {| share_airline := c.1; share_flights := c.2;
               share_highlight := None |}) counts.

(** A bar of [airport_bar]: the columns [Airport Code], [Flights], [City] and
    [Label]. *)
Record airport_count : Type := {
  airport_code : string;
  airport_flights : nat;
  airport_city : option string;
  airport_label : string
}.

(** Lines 225-228: [f"{City} ({code})" if pd.notnull(City) else code] *)
Definition airport_label_of (city : option string) (code : string) : string :=
  match city with
  | Some c => c ++ " (" ++ code ++ ")"
  | None => code
  end.

Definition airport_bar (airline : option string) : list airport_count :=
  let df := select_airline airline flights in
  let all_airports := (fmap (fun r : row => ORIGIN_AIRPORT r) df
                       ++ fmap (fun r : row => DESTINATION_AIRPORT r) df)%list
  in
  let airport_counts := take 10 (Pandas.value_counts all_airports) in
  fmap (fun c : string * nat =>
          let city := Pandas.Series_map (city_map airports) (Some c.1) in
          {| airport_code := c.1; airport_flights := c.2;
             airport_city := city;
             airport_label := airport_label_of city c.1 |}) airport_counts.

End Page.
End Overview.

(** ** [pages/delay_analysis.py] *)

Module DelayAnalysis.
Import Flights.

(** Line 20: [lambda x: 'On Time' if x <= 0 else 'Delayed'] *)
Definition on_time_lambda (x : option Z) : string :=
  if Pandas.cell_le x 0 then "On Time" else "Delayed".

(** Lines 27-28: the values of the hour slider,
    [dcc.Slider(min=0, max=23, step=1, ...)]. *)
Definition hour_slider : list Z := seqZ 0 24.

(** A departure delay for which [x <= 0] does not hold: a positive delay or
    a missing one. *)
Definition not_on_time (x : option Z) : Prop :=
  match x with
  | Some v => 0 < v
  | None => True
  end.

#[global] Instance not_on_time_dec x : Decision (not_on_time x).
Proof. destruct x; simpl; apply _. Defined.

Definition bins : list Z := [0; 500; 1000; 1500; 2000; 2500; 3000].

Definition labels : list string :=
  ["<500"; "500-999"; "1000-1499"; "1500-1999"; "2000-2499"; "2500+"].

Section Page.
Context `{NumpyRandom} `{NumpySort}.
Variable airlines : list Airlines.row.

(** Lines 14-20: the columns the page adds to [flights]. *)
Definition enrichment (flights : list row) : Py.Result (list row) :=
  let flights := assign set_AIRLINE_NAME
    (fun r => Pandas.Series_map (airline_map airlines) (Some (AIRLINE r)))
    flights in
  flights ← assign_apply set_SCHED_HOUR
    (fun r => sched_hour_lambda (SCHEDULED_DEPARTURE r)) flights;
  let flights := assign set_ON_TIME
    (fun r => Some (on_time_lambda (DEPARTURE_DELAY r))) flights in
  mret flights.

(** The module-level frame the callbacks read. *)
Variable flights : list row.

Definition update_boxplot (hour : Z) : list (string * list (option Z)) :=
  let df := filter (fun r : row => SCHED_HOUR r = Some hour /\ CANCELLED r = 0)
                   flights in
  fmap (fun airline =>
         (airline,
          fmap (fun r : row => DEPARTURE_DELAY r)
              (filter (fun r : row => AIRLINE_NAME r = Some airline) df)))
      (Pandas.unique (omap AIRLINE_NAME df)).

Definition airline_hour (r : row) : option (string * Z) :=
  name ← AIRLINE_NAME r; h ← SCHED_HOUR r; Some (name, h).

Definition delay_trend_animation : list ((string * Z) * option Q) :=
  let df := filter (fun r : row => CANCELLED r = 0) flights in
  fmap (fun g => (g.1, Pandas.mean (fmap (fun r : row => DEPARTURE_DELAY r) g.2)))
      (Pandas.groupby airline_hour df).

Definition delay_violin (hour : Z) (np_random : RandomState)
  : Py.Result (list row) * RandomState :=
  let df := filter (fun r : row =>
                      SCHED_HOUR r = Some hour /\
                      Is_true (Pandas.between (DEPARTURE_DELAY r) (-10) 180))
                   flights in
  Pandas.sample df (Nat.min 1000 (length df)) None np_random.

Definition delay_heatmap : list ((string * Z) * option Q) :=
  let df := filter (fun r : row => CANCELLED r = 0) flights in
  fmap (fun g => (g.1, Pandas.mean (fmap (fun r : row => DEPARTURE_DELAY r) g.2)))
      (Pandas.groupby airline_hour df).

(** Lines 89-93 of [delay_by_distance_range]. *)
Definition distance_frame (hour : Z) : list row :=
  filter (fun r : row =>
            CANCELLED r = 0 /\ SCHED_HOUR r = Some hour /\ DISTANCE r < 3000)
         flights.

(** Line 96: the cell of [DISTANCE_BIN] for a row, as a category code. *)
Definition DISTANCE_BIN (r : row) : option nat :=
  Pandas.cut bins (Some (DISTANCE r)).

Definition delay_by_distance_range (hour : Z) : list (string * option Q) :=
  let df := distance_frame hour in
  fmap (fun g => (Pandas.category labels g.1,
                 Pandas.mean (fmap (fun r : row => DEPARTURE_DELAY r) g.2)))
      (Pandas.groupby DISTANCE_BIN df).

Definition avg_delay : list (string * option Q) :=
  let df := filter (fun r : row => CANCELLED r = 0) flights in
  let data := fmap (fun g => (g.1, Pandas.mean (fmap (fun r : row => DEPARTURE_DELAY r) g.2)))
                  (Pandas.groupby AIRLINE_NAME df) in
  Pandas.sort_values (fun b : string * option Q => b.2) false data.

Definition on_time_vs_delayed (hour : Z) : list (string * nat) :=
  let df := filter (fun r : row => CANCELLED r = 0 /\ SCHED_HOUR r = Some hour)
                   flights in
  Pandas.value_counts (fmap ON_TIME df).

End Page.

(** Line 121: the cause columns, by name. *)
Definition cause_cols : list (string * (Details.row -> option Z)) :=
  [("AIR_SYSTEM_DELAY", Details.AIR_SYSTEM_DELAY);
   ("SECURITY_DELAY", Details.SECURITY_DELAY);
   ("AIRLINE_DELAY", Details.AIRLINE_DELAY);
   ("LATE_AIRCRAFT_DELAY", Details.LATE_AIRCRAFT_DELAY);
   ("WEATHER_DELAY", Details.WEATHER_DELAY)].

(** A row that [flights[['AIRLINE_NAME'] + cause_cols].dropna()] keeps. *)
Definition all_causes_recorded (r : Details.row) : Prop :=
  is_Some (AIRLINE_NAME r) /\
  Forall (fun c : string * (Details.row -> option Z) => is_Some (c.2 r))
         cause_cols.

#[global] Instance all_causes_recorded_dec r
  : Decision (all_causes_recorded r).
Proof. unfold all_causes_recorded. apply _. Defined.

(** A row of the melted frame: [AIRLINE_NAME], [Cause], [Minutes]. *)
Record melted_row : Type := {
  melted_airline : option string;
  melted_cause : string;
  melted_minutes : option Z
}.

Definition airline_cause (m : melted_row) : option (string * string) :=
  name ← melted_airline m; Some (name, melted_cause m).

Section CauseBars.
(** The module-level frame, with its cause columns. *)
Variable flights : list Details.row.

(** [df.melt(id_vars='AIRLINE_NAME', value_vars=cause_cols, ...)]: the rows of
    [df] once per cause column, column after column. *)
Definition melt (df : list Details.row) : list melted_row :=
  c ← cause_cols;
  fmap (fun r : Details.row =>
          {| melted_airline := AIRLINE_NAME r; melted_cause := c.1;
             melted_minutes := c.2 r |}) df.

Definition delay_cause_bar : list ((string * string) * option Q) :=
  let df := filter all_causes_recorded flights in
  let melted := melt df in
  fmap (fun g => (g.1, Pandas.mean (fmap melted_minutes g.2)))
       (Pandas.groupby airline_cause melted).

End CauseBars.
End DelayAnalysis.

(** ** [pages/cancelled_flights.py] *)

Module CancelledFlights.
Import Flights.

(** A row of a rate table: the group key, [cancelled], [total], [rate]. *)
Record rate_row (K : Type) : Type := {
  rate_key : K;
  cancelled : Z;
  total : Z;
  rate : option Q
}.
Arguments rate_key {K} _.
Arguments cancelled {K} _.
Arguments total {K} _.
Arguments rate {K} _.

(** [groupby(key).agg(cancelled=('CANCELLED', 'sum'),
    total=('CANCELLED', 'count'))] followed by
    [df['rate'] = 100 * df['cancelled'] / df['total']]. *)
Definition rate_table {K} `{EqDecision K} `{Pandas.KeyLe K}
  (key : row -> option K) (flights : list row) : list (rate_row K) :=
  fmap (fun g : K * list row =>
         let cancelled := Pandas.sum_Z (fmap (fun r : row => CANCELLED r) g.2) in
         let total := Z.of_nat (length g.2) in
         {| rate_key := g.1; cancelled := cancelled; total := total;
            rate := Pandas.truediv (100 * cancelled) total |})
      (Pandas.groupby key flights).

Section Page.
Context `{NumpyRandom} `{NumpySort}.
Variables (airlines : list Airlines.row) (airports : list Airports.row).

(** Lines 18-23: the columns the page adds to [flights]. *)
Definition enrichment (flights : list row) : Py.Result (list row) :=
  let flights := assign set_AIRLINE_NAME
    (fun r => Pandas.Series_map (airline_map airlines) (Some (AIRLINE r)))
    flights in
  let flights := assign set_ORIGIN_CITY
    (fun r => Pandas.Series_map (city_map airports) (ORIGIN_AIRPORT r))
    flights in
  let flights := assign set_DEST_CITY
    (fun r => Pandas.Series_map (city_map airports) (DESTINATION_AIRPORT r))
    flights in
  let flights := assign set_ROUTE
    (fun r => Pandas.str_add (Pandas.str_add (ORIGIN_CITY r) (Some arrow))
                             (DEST_CITY r))
    flights in
  let flights := assign set_DAY_NAME (fun r => day_dict !! DAY_OF_WEEK r)
    flights in
  assign_apply set_HOUR
    (fun r => sched_hour_lambda (SCHEDULED_DEPARTURE r)) flights.

(** The module-level frame the callbacks read. *)
Variable flights : list row.

Definition cancelled_bar : list (string * nat) :=
  let cancelled := filter (fun r : row => CANCELLED r = 1) flights in
  let data := fmap (fun g => (g.1, length g.2))
                  (Pandas.groupby AIRLINE_NAME cancelled) in
  Pandas.sort_values (fun b : string * nat => Some b.2) true data.

Definition cancel_day_bar : list (rate_row string) :=
  rate_table DAY_NAME flights.

Definition airline_day (r : row) : option (string * string) :=
  name ← AIRLINE_NAME r; day ← DAY_NAME r; Some (name, day).

Definition cancel_heat : list (rate_row (string * string)) :=
  rate_table airline_day flights.

(** [series.isin(airport_coords.index)] on a cell that may be missing. *)
Definition cell_isin (code : option string) : Prop :=
  match code with
  | Some c => isin_coords airports c
  | None => False
  end.

#[global] Instance cell_isin_dec code : Decision (cell_isin code).
Proof. destruct code; simpl; apply _. Defined.

(** Lines 108-111 of [cancel_map]: the cancelled flights with both airports
    in the coordinate lookup. *)
Definition cancel_map_rows : list row :=
  let df := filter (fun r : row => CANCELLED r = 1) flights in
  filter (fun r : row =>
            cell_isin (ORIGIN_AIRPORT r) /\ cell_isin (DESTINATION_AIRPORT r))
         df.

(** Line 112: [.sample(min(300, len(df)), random_state=42)]; the right-hand
    side is evaluated before [df] is assigned again, so [len(df)] counts the
    cancelled flights of line 108. *)
Definition cancel_map_sample (np_random : RandomState)
  : Py.Result (list row) * RandomState :=
  let df := filter (fun r : row => CANCELLED r = 1) flights in
  Pandas.sample cancel_map_rows (Nat.min 300 (length df)) (Some 42) np_random.

(** The two code cells the loop reads from a sampled row. *)
Definition endpoints (r : row) : option (string * string) :=
  o ← ORIGIN_AIRPORT r; d ← DESTINATION_AIRPORT r; Some (o, d).

Definition cancel_map (np_random : RandomState)
  : Py.Result map_figure * RandomState :=
  let '(df, np_random') := cancel_map_sample np_random in
  (df ≫= (fun df => draw_map airports (omap endpoints df)), np_random').

Definition cancel_route_bar : list (string * nat) :=
  let df := filter (fun r : row => CANCELLED r = 1) flights in
  take 15 (Pandas.value_counts (fmap ROUTE df)).

Definition cancel_rate_bar : list (rate_row string) :=
  let df := rate_table ROUTE flights in
  take 15 (Pandas.sort_values rate false df).

Definition hour_airline (r : row) : option (Z * string) :=
  h ← HOUR r; name ← AIRLINE_NAME r; Some (h, name).

(** [series.max()]: NaN on an empty column. *)
Definition max_count (col : list nat) : option Z :=
  match col with
  | [] => None
  | c :: col' => Some (Z.of_nat (foldr Nat.max c col'))
  end.

(** The grouped table and the upper end of [range_y]. *)
Definition cancel_animated_bar : list ((Z * string) * nat) * option Z :=
  let df := filter (fun r : row => CANCELLED r = 1) flights in
  let grouped := fmap (fun g => (g.1, length g.2))
                     (Pandas.groupby hour_airline df) in
  (grouped, (fun m => m + 10) <$> max_count grouped.*2).

(** Line 68: the dict mapped over the values of [CANCELLED]. *)
Definition cancelled_names : gmap Z string :=
  {[ 1 := "Cancelled"; 0 := "Completed" ]}.

(** The columns [Cancelled] and [Count]. *)
Definition cancelled_pie : list (option string * nat) :=
  let pie_data :=
    Pandas.value_counts (fmap (fun r : row => Some (CANCELLED r)) flights) in
  fmap (fun c : Z * nat => (cancelled_names !! c.1, c.2)) pie_data.

(** The columns [Airport], [Cancelled] and [City]. *)
Definition cancel_airport_bar : list (string * nat * option string) :=
  let df := take 10 (Pandas.value_counts
                       (fmap (fun r : row => ORIGIN_AIRPORT r)
                             (filter (fun r : row => CANCELLED r = 1) flights)))
  in
  fmap (fun c : string * nat =>
          (c.1, c.2, Pandas.Series_map (city_map airports) (Some c.1))) df.

End Page.

(** Line 92: the dict mapped over the cancellation reasons. *)
Definition reason_map : gmap string string :=
  {[ "A" := "Airline"; "B" := "Weather"; "C" := "NAS"; "D" := "Security" ]}.

Section DetailCharts.
(** The module-level frame, with its further columns. *)
Variable flights : list Details.row.

(** The columns [Reason] and [Count]. *)
Definition cancel_reason_pie : list (option string * nat) :=
  let pie :=
    Pandas.value_counts
      (fmap Details.CANCELLATION_REASON
            (filter (fun r : Details.row => CANCELLED r = 1) flights)) in
  fmap (fun c : string * nat => (reason_map !! c.1, c.2)) pie.

Definition cancelled_tail_bar : list (string * nat) :=
  take 10 (Pandas.value_counts
             (fmap Details.TAIL_NUMBER
                   (filter (fun r : Details.row => CANCELLED r = 1) flights))).

End DetailCharts.
End CancelledFlights.

(** A stand-in generator to run the model on examples: every permutation it
    returns is the identity. *)
Definition identity_random : NumpyRandom :=
  {| RandomState := unit;
     seed := fun _ => tt;
     permutation := fun rs n => (seq 0 n, rs) |}.

(** A second stand-in, whose permutations put the positions in reverse
    order and whose state counts the calls. *)
Definition reversing_random : NumpyRandom :=
  {| RandomState := nat;
     seed := fun s => Z.to_nat s;
     permutation := fun rs n => (reverse (seq 0 n), S rs) |}.

(** The order of two keys that are paired with their positions. *)
Definition on_key {K} (le : K -> K -> bool) : relation (K * nat) :=
  fun a b => Is_true (le a.1 b.1).
#[global] Instance on_key_dec {K} (le : K -> K -> bool) (a b : K * nat)
  : Decision (on_key le a b) := Is_true_dec _.

(** A stand-in for numpy's sort: an insertion sort of the keys paired with
    their positions, which leaves equal keys in the order of the column. *)
Definition stable_argsort : NumpySort :=
  {| argsort := fun K le keys =>
       (Pandas.sort_by (on_key le) (zip keys (seq 0 (length keys)))).*2 |}.

(** A second stand-in, which puts equal keys in the reverse order of the
    column. *)
Definition reversing_argsort : NumpySort :=
  {| argsort := fun K le keys =>
       (Pandas.sort_by (on_key le)
          (reverse (zip keys (seq 0 (length keys))))).*2 |}.

(** The hour the lambda computes, as a total function (it never raises, see
    [sched_hour_lambda_total]). *)
Definition hour_of (x : Z) : Z :=
  match sched_hour_lambda x with
  | Py.Ok h => h
  | Py.Raise _ => 0
  end.

(** The enrichment of one row, page by page: what the column assignments of
    [enrichment] do to a single row of the frame (see [overview_enrichment],
    [delay_enrichment], [cancelled_enrichment]). *)
Section Rows.
Import Flights.
Variables (airlines : list Airlines.row) (airports : list Airports.row).

Definition overview_row (r : row) : row :=
  let r := set_AIRLINE_NAME
    (Pandas.Series_map (airline_map airlines) (Some (AIRLINE r))) r in
  let r := set_ORIGIN_CITY
    (Pandas.Series_map (city_map airports) (ORIGIN_AIRPORT r)) r in
  let r := set_DEST_CITY
    (Pandas.Series_map (city_map airports) (DESTINATION_AIRPORT r)) r in
  let r := set_ROUTE
    (Pandas.str_add (Pandas.str_add (ORIGIN_CITY r) (Some arrow))
                    (DEST_CITY r)) r in
  let r := set_DAY_NAME (day_dict !! DAY_OF_WEEK r) r in
  set_MONTH_NAME (month_dict !! MONTH r) r.

Definition delay_row (r : row) : row :=
  let r := set_AIRLINE_NAME
    (Pandas.Series_map (airline_map airlines) (Some (AIRLINE r))) r in
  let r := set_SCHED_HOUR (Some (hour_of (SCHEDULED_DEPARTURE r))) r in
  set_ON_TIME (Some (DelayAnalysis.on_time_lambda (DEPARTURE_DELAY r))) r.

Definition cancelled_row (r : row) : row :=
  let r := set_AIRLINE_NAME
    (Pandas.Series_map (airline_map airlines) (Some (AIRLINE r))) r in
  let r := set_ORIGIN_CITY
    (Pandas.Series_map (city_map airports) (ORIGIN_AIRPORT r)) r in
  let r := set_DEST_CITY
    (Pandas.Series_map (city_map airports) (DESTINATION_AIRPORT r)) r in
  let r := set_ROUTE
    (Pandas.str_add (Pandas.str_add (ORIGIN_CITY r) (Some arrow))
                    (DEST_CITY r)) r in
  let r := set_DAY_NAME (day_dict !! DAY_OF_WEEK r) r in
  set_HOUR (Some (hour_of (SCHEDULED_DEPARTURE r))) r.

End Rows.

(** ** Predicates used in the statements *)

Definition is_digit (c : ascii) : bool :=
  bool_decide (is_Some (Py.digit_of c)).

Fixpoint all_digits (s : string) : bool :=
  match s with
  | EmptyString => true
  | String c s' => is_digit c && all_digits s'
  end.

(** The strings [int] accepts after the slice: two digits, or a minus sign
    and a digit. *)
Definition hour_prefix (s : string) : Prop :=
  exists c1 c2 rest, s = String c1 (String c2 rest) /\
    is_digit c2 = true /\ (is_digit c1 = true \/ c1 = "-"%char).

(** The city and route cells of a row with the columns [ORIGIN_CITY],
    [DEST_CITY] and [ROUTE] assigned as both pages assign them. *)
Definition cities_assigned (airports : list Airports.row) (r : row) : Prop :=
  ORIGIN_CITY r = Pandas.Series_map (city_map airports) (ORIGIN_AIRPORT r) /\
  DEST_CITY r
  = Pandas.Series_map (city_map airports) (DESTINATION_AIRPORT r) /\
  ROUTE r = Pandas.str_add (Pandas.str_add (ORIGIN_CITY r) (Some arrow))
                           (DEST_CITY r).

(** The cancelled flag is 0 or 1. *)
Definition cancelled_flag (r : row) : Prop :=
  CANCELLED r = 0 \/ CANCELLED r = 1.

#[global] Instance cancelled_flag_dec r : Decision (cancelled_flag r).
Proof. unfold cancelled_flag. apply _. Defined.

(** A row of a rate table is sound for the frame it was computed from: its
    key is the key of some flight; [cancelled] is the sum of the cancelled
    flags of the flights with that key, [total] their number, at least one,
    and [rate] the quotient [100 * cancelled / total], a number between 0
    and 100. *)
Definition rate_row_ok {K} `{EqDecision K} (key : row -> option K)
  (flights : list row) (g : CancelledFlights.rate_row K) : Prop :=
  let rows := filter (fun r : row => key r = Some (CancelledFlights.rate_key g))
                     flights in
  (exists r, r ∈ flights /\ key r = Some (CancelledFlights.rate_key g)) /\
  CancelledFlights.cancelled g
  = Pandas.sum_Z ((fun r : row => CANCELLED r) <$> rows) /\
  CancelledFlights.total g = Z.of_nat (length rows) /\
  CancelledFlights.rate g
  = Pandas.truediv (100 * CancelledFlights.cancelled g)
                   (CancelledFlights.total g) /\
  0 < CancelledFlights.total g /\
  0 <= CancelledFlights.cancelled g <= CancelledFlights.total g /\
  exists q, CancelledFlights.rate g = Some q /\ (0 <= q)%Q /\ (q <= 100)%Q /\
    (q * inject_Z (CancelledFlights.total g)
     == 100 * inject_Z (CancelledFlights.cancelled g))%Q.

(** An airport cell that names no airport of the reference table: the cell
    is missing or its code is not in [airports['IATA_CODE']]. *)
Definition unknown_airport (airports : list Airports.row)
  (code : option string) : Prop :=
  match code with
  | Some c => c ∉ Airports.IATA_CODE <$> airports
  | None => True
  end.

#[global] Instance unknown_airport_dec airports code
  : Decision (unknown_airport airports code).
Proof. destruct code; simpl; apply _. Defined.

(** Both ends of the flight name an airport of the reference table. *)
Definition known_route (airports : list Airports.row) (r : row) : Prop :=
  ~ unknown_airport airports (ORIGIN_AIRPORT r) /\
  ~ unknown_airport airports (DESTINATION_AIRPORT r).

(** [bars] is a top-[n] count of the cells [cell] of [rows]: at most [n]
    bars with distinct labels, as many as there are distinct values when
    these are fewer than [n]; each bar holds the number of rows with its
    label, which is not zero; the bars come with the largest count first;
    and no value that is left out occurs more often than a value that is
    shown. *)
Definition top_counts {A} (n : nat) (cell : A -> option string)
  (rows : list A) (bars : list (string * nat)) : Prop :=
  (length bars <= n)%nat /\
  NoDup bars.*1 /\
  (forall k c, (k, c) ∈ bars ->
     c = length (filter (fun r => cell r = Some k) rows) /\ (0 < c)%nat) /\
  (forall i j a b, (i < j)%nat -> bars !! i = Some a -> bars !! j = Some b ->
     (b.2 <= a.2)%nat) /\
  (forall k c k', (k, c) ∈ bars -> k' ∉ bars.*1 ->
     (length (filter (fun r => cell r = Some k') rows) <= c)%nat) /\
  ((length bars < n)%nat ->
   forall r k, r ∈ rows -> cell r = Some k -> k ∈ bars.*1).

(** The cell of a reindexed count: missing when nothing was counted. *)
Definition counted (n : nat) : option nat :=
  if decide (n = 0%nat) then None else Some n.

(** The day and month numbers with their names, as the dict literals of the
    enrichment give them. *)
Definition day_table : list (Z * string) :=
  [(1, "Mon"); (2, "Tue"); (3, "Wed"); (4, "Thu"); (5, "Fri"); (6, "Sat");
   (7, "Sun")].

Definition month_table : list (Z * string) :=
  [(1, "Jan"); (2, "Feb"); (3, "Mar"); (4, "Apr"); (5, "May"); (6, "Jun");
   (7, "Jul"); (8, "Aug"); (9, "Sep"); (10, "Oct"); (11, "Nov"); (12, "Dec")].

(** The part of the melted frame that comes from one cause column. *)
Definition melt_col (df : list Details.row)
  (c : string * (Details.row -> option Z))
  : list DelayAnalysis.melted_row :=
  (fun r : Details.row =>
     {| DelayAnalysis.melted_airline := AIRLINE_NAME r;
        DelayAnalysis.melted_cause := c.1;
        DelayAnalysis.melted_minutes := c.2 r |}) <$> df.

(** The dict literals of the two pies, as lists. *)
Definition cancelled_table : list (Z * string) :=
  [(1, "Cancelled"); (0, "Completed")].

Definition reason_table : list (string * string) :=
  [("A", "Airline"); ("B", "Weather"); ("C", "NAS"); ("D", "Security")].

(** A row of a rate table holds the counts of its key in the frame: the
    flights with the key, those of them that are cancelled, and a rate that
    is 100 times their quotient, 0 when none is cancelled and 100 when all
    are. *)
Definition rate_row_counts {K} `{EqDecision K} (key : row -> option K)
  (flights : list row) (g : CancelledFlights.rate_row K) : Prop :=
  CancelledFlights.cancelled g
  = Z.of_nat (length (filter (fun r : row =>
                                CANCELLED r = 1 /\
                                key r = Some (CancelledFlights.rate_key g))
                             flights)) /\
  CancelledFlights.total g
  = Z.of_nat (length (filter (fun r : row =>
                                key r = Some (CancelledFlights.rate_key g))
                             flights)) /\
  exists q, CancelledFlights.rate g = Some q /\
    (q * inject_Z (CancelledFlights.total g)
     == 100 * inject_Z (CancelledFlights.cancelled g))%Q /\
    ((q == 0)%Q <-> CancelledFlights.cancelled g = 0) /\
    ((q == 100)%Q <->
     CancelledFlights.cancelled g = CancelledFlights.total g).

(** A rate table of the frame: one row for each key met in the frame, each
    holding the counts of its key. *)
Definition rate_table_counts {K} `{EqDecision K} (key : row -> option K)
  (flights : list row) (table : list (CancelledFlights.rate_row K)) : Prop :=
  NoDup (CancelledFlights.rate_key <$> table) /\
  (forall (r : row) k, r ∈ flights -> key r = Some k ->
     k ∈ CancelledFlights.rate_key <$> table) /\
  (forall g, g ∈ table -> rate_row_counts key flights g).

(** ** Example data *)

Definition JFK : Airports.row :=
  {| Airports.IATA_CODE := "JFK"; Airports.CITY := Some "New York";
     Airports.LATITUDE := Some (4064 # 100)%Q;
     Airports.LONGITUDE := Some (-7378 # 100)%Q |}.

Definition LAX : Airports.row :=
  {| Airports.IATA_CODE := "LAX"; Airports.CITY := Some "Los Angeles";
     Airports.LATITUDE := Some (3394 # 100)%Q;
     Airports.LONGITUDE := Some (-11841 # 100)%Q |}.

Definition example_airports : list Airports.row := [JFK; LAX].

Definition example_airlines : list Airlines.row :=
  [{| Airlines.IATA_CODE := "AA";
      Airlines.AIRLINE := Some "American Airlines Inc." |}].

(** A flight of airline AA on a Monday in January. *)
Definition flight (origin dest : string) (departure : Z) (delay : option Z)
  (distance cancelled : Z) : source :=
  {| AIRLINE := "AA"; ORIGIN_AIRPORT := Some origin;
     DESTINATION_AIRPORT := Some dest; SCHEDULED_DEPARTURE := departure;
     DEPARTURE_DELAY := delay; DISTANCE := distance; DAY_OF_WEEK := 1;
     MONTH := 1; CANCELLED := cancelled |}.

(** One flight from New York to Los Angeles and one from an airport that is
    not in [example_airports]; both cancelled. *)
Definition two_flights : list source :=
  [flight "JFK" "LAX" 900 None 2475 1; flight "XXX" "JFK" 1000 None 300 1].

(** A single flight from an airport that is not in [example_airports]. *)
Definition unknown_origin_flight : list source :=
  [flight "XXX" "JFK" 1000 None 300 1].

(** Five flights at noon, none cancelled, with the distances of the
    bucketing example of the specification and delays 10, 20, 30, 40, 50. *)
Definition distance_example : list source :=
  [flight "JFK" "LAX" 1200 (Some 10) 499 0;
   flight "JFK" "LAX" 1200 (Some 20) 500 0;
   flight "JFK" "LAX" 1200 (Some 30) 2999 0;
   flight "JFK" "LAX" 1200 (Some 40) 3000 0;
   flight "JFK" "LAX" 1200 (Some 50) (-5) 0].

(** Flights of one morning: on time, late, without a recorded delay, and one
    leaving at 2400. *)
Definition morning_flights : list source :=
  [flight "JFK" "LAX" 555 (Some (-3)) 2475 0;
   flight "LAX" "JFK" 555 (Some 12) 2475 0;
   flight "JFK" "LAX" 530 None 2475 0;
   flight "JFK" "LAX" 2400 (Some 5) 2475 0;
   flight "LAX" "JFK" 610 None 2475 1].

(** Four flights of four airlines, Line0 to Line3, with the delays 10, 10,
    20 and 20 and all with the same cancelled flag: the airlines are tied
    two by two in the mean delay, and all four in the number of flights. *)
Definition tied_flights (cancelled : Z) : list row :=
  zip_with (fun name r => set_AIRLINE_NAME (Some name) r)
    ["Line0"; "Line1"; "Line2"; "Line3"]
    (read_csv [flight "JFK" "LAX" 900 (Some 10) 2475 cancelled;
               flight "JFK" "LAX" 900 (Some 10) 2475 cancelled;
               flight "JFK" "LAX" 900 (Some 20) 2475 cancelled;
               flight "JFK" "LAX" 900 (Some 20) 2475 cancelled]).

(** * Properties *)

(** ** Python strings *)

Section PyFacts.
Import Py.

Lemma all_digits_app s1 s2 :
  all_digits s1 = true -> all_digits s2 = true -> all_digits (s1 ++ s2) = true.
Proof.
  induction s1 as [|c s1 IH]; simpl; [done|].
  intros [Hc Hs]%andb_true_iff H2. rewrite Hc. simpl. auto.
Qed.

Lemma all_digits_zeros n : all_digits (zeros n) = true.
Proof. induction n; simpl; auto. Qed.

Lemma all_digits_uint d : all_digits (NilEmpty.string_of_uint d) = true.
Proof. induction d; simpl; auto. Qed.

Lemma string_of_uint_nonempty d :
  d <> Decimal.Nil -> NilEmpty.string_of_uint d <> EmptyString.
Proof. destruct d; simpl; congruence. Qed.

Lemma digits_value_total s : forall acc,
  all_digits s = true -> is_Some (digits_value acc s).
Proof.
  induction s as [|c s IH]; simpl; intros acc Hs; [eauto|].
  apply andb_true_iff in Hs as [Hc Hs].
  unfold is_digit in Hc. apply bool_decide_eq_true in Hc as [d Hd].
  rewrite Hd. auto.
Qed.

Lemma digit_not_sign c : is_digit c = true -> is_sign c = false.
Proof.
  unfold is_digit, is_sign. intros Hc.
  destruct (Ascii.eqb_spec c "-") as [->|]; [done|].
  destruct (Ascii.eqb_spec c "+") as [->|]; done.
Qed.

Lemma int_hour_prefix s :
  hour_prefix s -> exists h, int (slice_to 2 s) = Ok h.
Proof.
  intros (c1 & c2 & rest & -> & H2 & H1).
  assert (Hsl : slice_to 2 (String c1 (String c2 rest))
                = String c1 (String c2 EmptyString)).
  { unfold slice_to. simpl. by destruct rest. }
  rewrite Hsl. unfold int.
  destruct H1 as [H1| ->].
  - pose proof (digit_not_sign _ H1) as Hns. unfold is_sign in Hns.
    apply orb_false_iff in Hns as [-> ->].
    destruct (digits_value_total (String c1 (String c2 EmptyString)) 0)
      as [v Hv].
    { simpl. by rewrite H1, H2. }
    unfold unsigned_value. rewrite Hv. eauto.
  - simpl.
    destruct (digits_value_total (String c2 EmptyString) 0) as [v Hv].
    { simpl. by rewrite H2. }
    simpl in Hv. rewrite Hv. simpl. eauto.
Qed.

Lemma digits_zfill_prefix s :
  all_digits s = true -> s <> EmptyString -> hour_prefix (zfill 4 s).
Proof.
  intros Hs Hne. unfold zfill.
  destruct s as [|c1 s]; [done|]. simpl in Hs.
  apply andb_true_iff in Hs as [H1 Hs].
  destruct (4 <=? String.length (String c1 s))%nat eqn:Hlen.
  - apply Nat.leb_le in Hlen. simpl in Hlen.
    destruct s as [|c2 s]; [simpl in Hlen; lia|].
    simpl in Hs. apply andb_true_iff in Hs as [H2 _].
    exists c1, c2, s. auto.
  - apply Nat.leb_gt in Hlen. simpl in Hlen.
    rewrite (digit_not_sign _ H1).
    destruct s as [|c2 [|c3 s]]; simpl.
    + exists "0"%char, "0"%char, (String "0" (String c1 EmptyString)). auto.
    + simpl in Hs. exists "0"%char, "0"%char, (String c1 (String c2 EmptyString)).
      auto.
    + simpl in Hlen. assert (s = EmptyString) as ->.
      { destruct s; [done|]. simpl in Hlen. lia. }
      simpl. exists "0"%char, c1, (String c2 (String c3 EmptyString)). auto.
Qed.

Lemma minus_zfill_prefix s :
  all_digits s = true -> s <> EmptyString ->
  hour_prefix (zfill 4 (String "-" s)).
Proof.
  intros Hs Hne. unfold zfill.
  destruct s as [|c1 s]; [done|]. simpl in Hs.
  apply andb_true_iff in Hs as [H1 Hs].
  destruct (4 <=? String.length (String "-" (String c1 s)))%nat eqn:Hlen.
  - exists "-"%char, c1, s. auto.
  - apply Nat.leb_gt in Hlen. simpl in Hlen. simpl.
    destruct s as [|c2 s]; simpl.
    + exists "-"%char, "0"%char, (String "0" (String c1 EmptyString)). auto.
    + assert (s = EmptyString) as ->.
      { destruct s; [done|]. simpl in Hlen. lia. }
      simpl. exists "-"%char, "0"%char, (String c1 (String c2 EmptyString)). auto.
Qed.

Lemma nilzero_digits d :
  all_digits (NilZero.string_of_uint d) = true /\
  NilZero.string_of_uint d <> EmptyString.
Proof.
  destruct d; simpl; (split; [|done]); try reflexivity;
    apply (all_digits_uint d).
Qed.

Lemma str_cases x :
  (all_digits (str x) = true /\ str x <> EmptyString) \/
  (exists s, str x = String "-" s /\ all_digits s = true /\ s <> EmptyString).
Proof.
  unfold str. destruct x as [|p|p]; simpl.
  - left. done.
  - left. apply nilzero_digits.
  - right. eexists. split; [reflexivity|]. apply nilzero_digits.
Qed.

(** The lambda returns an hour for every integer: [int] never raises on
    the two characters it is given. *)
Lemma sched_hour_lambda_total x : sched_hour_lambda x = Ok (hour_of x).
Proof.
  assert (exists h, sched_hour_lambda x = Ok h) as [h Hh].
  { unfold sched_hour_lambda. apply int_hour_prefix.
    destruct (str_cases x) as [[Hd Hne]|(s & -> & Hd & Hne)].
    - by apply digits_zfill_prefix.
    - by apply minus_zfill_prefix. }
  unfold hour_of. by rewrite Hh.
Qed.

End PyFacts.

(** ** pandas operations *)

Section PandasFacts.
Import Py Pandas.

Lemma insert_by_Permutation {A} (R : relation A) `{forall x y, Decision (R x y)}
  x (l : list A) : insert_by R x l ≡ₚ x :: l.
Proof.
  induction l as [|y l IH]; simpl; [done|].
  case_decide; [done|]. rewrite IH. apply Permutation_swap.
Qed.

Lemma sort_by_Permutation {A} (R : relation A) `{forall x y, Decision (R x y)}
  (l : list A) : sort_by R l ≡ₚ l.
Proof.
  induction l as [|x l IH]; simpl; [done|].
  unfold sort_by in *. simpl. by rewrite insert_by_Permutation, IH.
Qed.

Lemma elem_of_sort_by {A} (R : relation A) `{forall x y, Decision (R x y)}
  (l : list A) x : x ∈ sort_by R l <-> x ∈ l.
Proof. by rewrite sort_by_Permutation. Qed.

Lemma sort_by_nil {A} (R : relation A) `{forall x y, Decision (R x y)} :
  sort_by R [] = [].
Proof. reflexivity. Qed.

Lemma elem_of_unique {K} `{EqDecision K} (l : list K) x :
  x ∈ unique l <-> x ∈ l.
Proof.
  induction l as [|y l IH]; simpl; [done|].
  rewrite !elem_of_cons, list_elem_of_filter, IH.
  destruct (decide (x = y)) as [->|Hne]; [split; auto|].
  split; [intros [?|[_ ?]]; auto|intros [?|?]; auto].
Qed.

Lemma count_of_pos {K} `{EqDecision K} (l : list K) k :
  (0 < count_of k l)%nat <-> k ∈ l.
Proof.
  unfold count_of. split.
  - intros Hlen. destruct (filter (fun y => y = k) l) as [|y l'] eqn:Hf;
      [simpl in Hlen; lia|].
    assert (y ∈ filter (fun y => y = k) l) as Hy by (rewrite Hf; left).
    apply list_elem_of_filter in Hy as [-> ?]. done.
  - intros Hk.
    assert (k ∈ filter (fun y => y = k) l) as Hin
      by (by apply list_elem_of_filter).
    destruct (filter (fun y => y = k) l); [by apply elem_of_nil in Hin|].
    simpl. lia.
Qed.

(** A value has a row in [value_counts] exactly when it occurs, and the row
    holds the number of its occurrences. *)
Lemma elem_of_value_counts {K} `{EqDecision K} (col : list (option K)) k n :
  (k, n) ∈ value_counts col <->
  n = count_of k (omap id col) /\ (0 < n)%nat.
Proof.
  unfold value_counts. rewrite elem_of_sort_by, list_elem_of_fmap.
  split.
  - intros (k' & Heq & Hk). inversion Heq; subst. split; [done|].
    apply count_of_pos. exact (proj1 (elem_of_unique _ _) Hk).
  - intros [-> Hpos]. exists k. split; [done|].
    apply (proj2 (elem_of_unique _ _)). exact (proj1 (count_of_pos _ _) Hpos).
Qed.

Lemma value_counts_ext {K} `{EqDecision K} (col1 col2 : list (option K)) :
  omap id col1 = omap id col2 -> value_counts col1 = value_counts col2.
Proof. unfold value_counts. by intros ->. Qed.

Lemma value_counts_nil {K} `{EqDecision K} :
  value_counts (@nil (option K)) = [].
Proof. reflexivity. Qed.

(** The groups of [groupby]: one per key that occurs, holding the rows with
    that key. *)
Lemma elem_of_groupby {K A} `{EqDecision K} `{KeyLe K}
  (key : A -> option K) (rows : list A) g :
  g ∈ groupby key rows <->
  g.2 = filter (fun r => key r = Some g.1) rows /\
  exists r, r ∈ rows /\ key r = Some g.1.
Proof.
  unfold groupby, sort_keys. rewrite list_elem_of_fmap.
  setoid_rewrite elem_of_sort_by. setoid_rewrite elem_of_unique.
  setoid_rewrite list_elem_of_omap.
  split.
  - intros (k & -> & r & Hr & Hk). simpl. eauto.
  - intros [Hg (r & Hr & Hk)]. exists g.1. destruct g as [k rows'].
    simpl in *. subst. eauto.
Qed.

Lemma groupby_nil {K A} `{EqDecision K} `{KeyLe K} (key : A -> option K) :
  groupby key [] = [].
Proof. reflexivity. Qed.

(** Filtering twice with a stronger first test. *)
Lemma filter_filter_impl {A} (P Q : A -> Prop) `{forall r, Decision (P r)}
  `{forall r, Decision (Q r)} (rows : list A) :
  (forall r, r ∈ rows -> P r -> Q r) ->
  filter P (filter Q rows) = filter P rows.
Proof.
  intros HPQ. induction rows as [|r rows IH]; [done|].
  assert (IH' : filter P (filter Q rows) = filter P rows).
  { apply IH. intros r' Hr'. apply HPQ. by right. }
  clear IH. rewrite (filter_cons Q). case_decide as Hq.
  - rewrite !filter_cons. case_decide; by rewrite IH'.
  - rewrite filter_cons. case_decide as Hp; [|done].
    destruct Hq. apply HPQ; [left|done].
Qed.

Lemma omap_filter {A B} (f : A -> option B) (P : A -> Prop)
  `{forall r, Decision (P r)} (rows : list A) :
  (forall r, r ∈ rows -> ~ P r -> f r = None) ->
  omap f (filter P rows) = omap f rows.
Proof.
  intros HP. induction rows as [|r rows IH]; [done|].
  assert (IH' : omap f (filter P rows) = omap f rows).
  { apply IH. intros r' Hr'. apply HP. by right. }
  clear IH. rewrite filter_cons. case_decide as Hr; csimpl.
  - by rewrite IH'.
  - rewrite (HP r); [done|left|done].
Qed.

Lemma omap_id_fmap {A B} (f : A -> option B) (rows : list A) :
  omap id (f <$> rows) = omap f rows.
Proof.
  induction rows as [|r rows IH]; [done|]. csimpl. rewrite IH. done.
Qed.

(** Rows whose key is missing play no part in [groupby]. *)
Lemma groupby_filter {K A} `{EqDecision K} `{KeyLe K}
  (key : A -> option K) (P : A -> Prop) `{forall r, Decision (P r)}
  (rows : list A) :
  (forall r, r ∈ rows -> ~ P r -> key r = None) ->
  groupby key (filter P rows) = groupby key rows.
Proof.
  intros HP. unfold groupby. rewrite omap_filter by done.
  apply list_fmap_ext. intros _ k _. f_equal.
  apply filter_filter_impl. intros r Hr Hk.
  destruct (decide (P r)) as [|Hn]; [done|].
  rewrite (HP r Hr Hn) in Hk. done.
Qed.

(** Missing cells play no part in [value_counts]. *)
Lemma value_counts_filter {A K} `{EqDecision K} (f : A -> option K)
  (P : A -> Prop) `{forall r, Decision (P r)} (rows : list A) :
  (forall r, r ∈ rows -> ~ P r -> f r = None) ->
  value_counts (f <$> filter P rows) = value_counts (f <$> rows).
Proof.
  intros HP. apply value_counts_ext. rewrite !omap_id_fmap.
  by apply omap_filter.
Qed.

Lemma mapM_Ok {A B} (f : A -> Result B) (g : A -> B) (l : list A) :
  (forall x, x ∈ l -> f x = Ok (g x)) -> mapM f l = Ok (fmap g l).
Proof.
  induction l as [|x l IH]; intros Hf; [done|].
  simpl. rewrite (Hf x); [|left]. simpl.
  unfold mbind, Result_bind, mret, Result_ret in *.
  rewrite IH; [done|]. intros y Hy. apply Hf. by right.
Qed.

Lemma mapM_Ok_inv {A B} (f : A -> Result B) (l : list A) (l' : list B) :
  mapM f l = Ok l' -> Forall2 (fun x y => f x = Ok y) l l'.
Proof.
  revert l'. induction l as [|x l IH]; intros l' Hm.
  - inversion Hm. constructor.
  - simpl in Hm. unfold mbind, Result_bind, mret, Result_ret in Hm.
    destruct (f x) as [y|] eqn:Hy; [|done].
    fold (@mapM Result _ _ A B f) in Hm.
    destruct (mapM f l) as [ys|] eqn:Hys; [|done].
    inversion Hm; subst. constructor; auto.
Qed.

(** Every row of [take_locs] is a row of the frame. *)
Lemma take_locs_subset {A} (rows : list A) locs out :
  take_locs rows locs = Ok out -> forall r, r ∈ out -> r ∈ rows.
Proof.
  intros Hm%mapM_Ok_inv r Hr.
  apply (list_elem_of_lookup_1 out) in Hr as [i Hi].
  destruct (Forall2_lookup_r _ _ _ _ _ Hm Hi) as (j & Hj & Hrow).
  destruct (rows !! j) as [r'|] eqn:Hr'; [|done].
  inversion Hrow; subst. by eapply list_elem_of_lookup_2.
Qed.

End PandasFacts.

(** ** [sort_values]: what holds of every sort *)

Section SortedRows.
Import Pandas.
Context `{NumpySort}.

Lemma elem_of_iloc {A} (l : list A) (locs : list nat) x :
  x ∈ iloc l locs -> x ∈ l.
Proof.
  unfold iloc. intros (i & _ & Hi)%list_elem_of_omap.
  by eapply list_elem_of_lookup_2.
Qed.

Lemma elem_of_non_nans {A K} (col : A -> option K) (rows : list A) k r :
  (k, r) ∈ omap (fun r => k ← col r; Some (k, r)) rows <->
  r ∈ rows /\ col r = Some k.
Proof.
  rewrite list_elem_of_omap. split.
  - intros (r' & Hr' & Hk). destruct (col r') as [k'|] eqn:Hcol; [|done].
    simpl in Hk. by simplify_eq.
  - intros [Hr Hk]. exists r. split; [done|]. by rewrite Hk.
Qed.

(** The rows of a sorted frame are rows of the frame, whatever the sort
    does. *)
Lemma elem_of_sort_values_1 {A K} `{KeyLe K} (col : A -> option K)
  (ascending : bool) (rows : list A) r :
  r ∈ sort_values col ascending rows -> r ∈ rows.
Proof.
  unfold sort_values. rewrite elem_of_app.
  intros [Hr|Hr]; [|by apply list_elem_of_filter in Hr as [_ ?]].
  apply list_elem_of_fmap in Hr as ([k r'] & -> & Hr). simpl.
  destruct ascending.
  - apply elem_of_iloc in Hr. by apply elem_of_non_nans in Hr as [? _].
  - rewrite elem_of_reverse in Hr. apply elem_of_iloc in Hr.
    rewrite elem_of_reverse in Hr. by apply elem_of_non_nans in Hr as [? _].
Qed.

End SortedRows.

(** ** [sort_values] with a sort that keeps numpy's laws *)

Section SortValuesFacts.
Import Pandas.

Lemma omap_lookup_S {A} (r : A) (rows : list A) (l : list nat) :
  omap (fun i => (r :: rows) !! i) (S <$> l) = omap (fun i => rows !! i) l.
Proof. induction l as [|i l IH]; [done|]. csimpl. by rewrite IH. Qed.

Lemma omap_lookup_seq {A} (rows : list A) :
  omap (fun i => rows !! i) (seq 0 (length rows)) = rows.
Proof.
  induction rows as [|r rows IH]; [done|].
  change (seq 0 (length (r :: rows))) with (0%nat :: seq 1 (length rows)).
  rewrite <- fmap_S_seq. csimpl. by rewrite omap_lookup_S, IH.
Qed.

Lemma StronglySorted_impl {A} (R R' : relation A) (l : list A) :
  (forall x y, R x y -> R' x y) -> StronglySorted R l -> StronglySorted R' l.
Proof.
  intros Himpl Hl. induction Hl as [|x l Hl IH Hx]; constructor; [done|].
  eapply Forall_impl; [exact Hx|]. auto.
Qed.

Lemma StronglySorted_reverse {A} (R : relation A) (l : list A) :
  StronglySorted R l -> StronglySorted (flip R) (reverse l).
Proof.
  induction 1 as [|x l Hl IH Hx]; [constructor|].
  rewrite reverse_cons. apply StronglySorted_app_2; [|done|].
  - intros x1 x2 Hx1 Hx2. rewrite elem_of_reverse in Hx1.
    apply list_elem_of_singleton in Hx2 as ->.
    rewrite Forall_forall in Hx. by apply Hx.
  - repeat constructor.
Qed.

Lemma StronglySorted_all {A} (R : relation A) (l : list A) :
  (forall x y, x ∈ l -> y ∈ l -> R x y) -> StronglySorted R l.
Proof.
  induction l as [|x l IH]; intros Hall; constructor.
  - apply IH. intros a b Ha Hb. apply Hall; by right.
  - apply Forall_forall. intros y Hy. apply Hall; [left|by right].
Qed.

Lemma fmap_iloc {A B} (f : A -> B) (l : list A) (locs : list nat) :
  f <$> iloc l locs = iloc (f <$> l) locs.
Proof.
  unfold iloc. induction locs as [|i locs IH]; [done|]. csimpl.
  rewrite list_lookup_fmap. destruct (l !! i); csimpl; by rewrite IH.
Qed.

Lemma iloc_Permutation {A} (l : list A) (locs : list nat) :
  locs ≡ₚ seq 0 (length l) -> iloc l locs ≡ₚ l.
Proof. intros Hp. unfold iloc. by rewrite Hp, omap_lookup_seq. Qed.

(** The rows with a cell and the rows without one make up the frame. *)
Lemma non_nans_partition {A K} (col : A -> option K) (rows : list A) :
  ((omap (fun r => k ← col r; Some (k, r)) rows).*2
   ++ filter (fun r => col r = None) rows)%list ≡ₚ rows.
Proof.
  induction rows as [|r rows IH]; [done|]. rewrite filter_cons. csimpl.
  case_decide as Hnone.
  - rewrite Hnone. csimpl. by rewrite <- Permutation_middle, IH.
  - destruct (col r) as [k|]; [|done]. csimpl. by rewrite IH.
Qed.

(** Rows in the order of their cells. *)
Lemma sorted_cells {A K} `{KeyLe K} (col : A -> option K) (ascending : bool)
  (l : list (K * A)) :
  (forall kr, kr ∈ l -> col kr.2 = Some kr.1) ->
  StronglySorted (fun x y => if ascending then key_le_rel x y
                             else key_le_rel y x) l.*1 ->
  StronglySorted (fun a b => cell_order ascending (col a) (col b)) l.*2.
Proof.
  induction l as [|[k r] l IH]; intros Hcol Hl; [constructor|].
  csimpl in *. apply StronglySorted_cons in Hl as [Hk Hl].
  constructor.
  - apply IH; [|done]. intros kr Hkr. apply Hcol. by right.
  - rewrite Forall_fmap in Hk. rewrite Forall_fmap.
    apply Forall_forall. intros [k' r'] Hin.
    rewrite Forall_forall in Hk. specialize (Hk _ Hin). simpl in *.
    assert (Hr : col r = Some k) by (apply (Hcol (k, r)); left).
    assert (Hr' : col r' = Some k') by (apply (Hcol (k', r')); by right).
    rewrite Hr, Hr'. done.
Qed.

Section Lawful.
Context `{NumpySort} `{!LawfulSort}.

(** A sorted frame holds the rows of the frame, each as often. *)
Lemma sort_values_Permutation {A K} `{KeyLe K} (col : A -> option K)
  (ascending : bool) (rows : list A) :
  sort_values col ascending rows ≡ₚ rows.
Proof.
  unfold sort_values.
  set (nn := omap (fun r => k ← col r; Some (k, r)) rows).
  assert (Hperm : forall l : list (K * A),
            iloc l (argsort K key_le l.*1) ≡ₚ l).
  { intros l. apply iloc_Permutation.
    rewrite <- (length_fmap fst l). apply argsort_range. }
  rewrite <- (non_nans_partition col rows) at 2. fold nn.
  destruct ascending.
  - by rewrite Hperm.
  - by rewrite reverse_Permutation, Hperm, reverse_Permutation.
Qed.

Lemma elem_of_sort_values {A K} `{KeyLe K} (col : A -> option K)
  (ascending : bool) (rows : list A) r :
  r ∈ sort_values col ascending rows <-> r ∈ rows.
Proof. by rewrite sort_values_Permutation. Qed.

Lemma length_sort_values {A K} `{KeyLe K} (col : A -> option K)
  (ascending : bool) (rows : list A) :
  length (sort_values col ascending rows) = length rows.
Proof. apply Permutation_length, sort_values_Permutation. Qed.

(** A sorted frame is in the order of its column, the missing cells last,
    when the order of the keys is total and transitive. *)
Lemma sort_values_sorted {A K} `{KeyLe K} (col : A -> option K)
  (ascending : bool) (rows : list A) :
  (forall a b : K, key_le a b = true \/ key_le b a = true) ->
  (forall a b c : K, key_le a b = true -> key_le b c = true ->
                     key_le a c = true) ->
  StronglySorted (fun a b => cell_order ascending (col a) (col b))
    (sort_values col ascending rows).
Proof.
  intros Htotal Htrans. unfold sort_values.
  set (nn := omap (fun r => k ← col r; Some (k, r)) rows).
  assert (Hlaw : forall l : list (K * A),
            StronglySorted key_le_rel (iloc l (argsort K key_le l.*1)).*1).
  { intros l. rewrite fmap_iloc.
    eapply StronglySorted_impl; [|by apply argsort_sorted].
    intros x y Hxy. unfold key_le_rel. by rewrite Hxy. }
  assert (Hcells : forall l : list (K * A),
            (forall kr, kr ∈ l -> col kr.2 = Some kr.1) ->
            forall kr, kr ∈ iloc l (argsort K key_le l.*1) ->
                       col kr.2 = Some kr.1).
  { intros l Hl kr Hkr. apply elem_of_iloc in Hkr. by apply Hl. }
  assert (Hnn : forall kr, kr ∈ nn -> col kr.2 = Some kr.1).
  { intros [k r] Hkr. by apply elem_of_non_nans in Hkr as [_ ?]. }
  apply StronglySorted_app_2.
  - intros a b _ [Hb _]%list_elem_of_filter. rewrite Hb.
    by destruct (col a).
  - destruct ascending.
    + apply sorted_cells; [by apply Hcells|apply Hlaw].
    + apply sorted_cells.
      * intros kr Hkr. rewrite elem_of_reverse in Hkr.
        apply Hcells in Hkr; [done|].
        intros kr' Hkr'. rewrite elem_of_reverse in Hkr'. by apply Hnn.
      * rewrite fmap_reverse.
        apply (StronglySorted_reverse key_le_rel), Hlaw.
  - apply StronglySorted_all.
    intros a b _ [Hb _]%list_elem_of_filter. rewrite Hb. by destruct (col a).
Qed.

End Lawful.

Lemma nat_key_le_total (a b : nat) : key_le a b = true \/ key_le b a = true.
Proof. unfold key_le, nat_KeyLe. rewrite !Nat.leb_le. lia. Qed.

Lemma nat_key_le_trans (a b c : nat) :
  key_le a b = true -> key_le b c = true -> key_le a c = true.
Proof. unfold key_le, nat_KeyLe. rewrite !Nat.leb_le. lia. Qed.

Lemma Q_key_le_total (a b : Q) : key_le a b = true \/ key_le b a = true.
Proof.
  unfold key_le, Q_KeyLe. rewrite !Qle_bool_iff.
  destruct (Qlt_le_dec a b) as [Hlt|Hle]; [left|by right].
  by apply Qlt_le_weak.
Qed.

Lemma Q_key_le_trans (a b c : Q) :
  key_le a b = true -> key_le b c = true -> key_le a c = true.
Proof. unfold key_le, Q_KeyLe. rewrite !Qle_bool_iff. apply Qle_trans. Qed.

End SortValuesFacts.

(** ** Enrichment *)

Section EnrichmentFacts.
Import Py Flights.
Variables (airlines : list Airlines.row) (airports : list Airports.row).

Lemma assign_apply_Ok {T} (set : option T -> row -> row)
  (f : row -> Result T) (g : row -> T) (df : list row) :
  (forall r, f r = Ok (g r)) ->
  assign_apply set f df = Ok ((fun r => set (Some (g r)) r) <$> df).
Proof.
  intros Hf. unfold assign_apply. apply mapM_Ok. intros r _.
  by rewrite Hf.
Qed.

Lemma overview_enrichment (df : list row) :
  Overview.enrichment airlines airports df
  = overview_row airlines airports <$> df.
Proof.
  unfold Overview.enrichment, assign. rewrite <- !list_fmap_compose.
  by apply list_fmap_ext.
Qed.

Lemma delay_enrichment (df : list row) :
  DelayAnalysis.enrichment airlines df = Ok (delay_row airlines <$> df).
Proof.
  unfold DelayAnalysis.enrichment.
  rewrite (assign_apply_Ok _ _ (fun r : row => hour_of (SCHEDULED_DEPARTURE r)))
    by (intros; apply sched_hour_lambda_total).
  unfold assign. simpl. rewrite <- !list_fmap_compose.
  f_equal; by apply list_fmap_ext.
Qed.

Lemma cancelled_enrichment (df : list row) :
  CancelledFlights.enrichment airlines airports df
  = Ok (cancelled_row airlines airports <$> df).
Proof.
  unfold CancelledFlights.enrichment.
  rewrite (assign_apply_Ok _ _ (fun r : row => hour_of (SCHEDULED_DEPARTURE r)))
    by (intros; apply sched_hour_lambda_total).
  unfold assign. rewrite <- !list_fmap_compose.
  f_equal; by apply list_fmap_ext.
Qed.

Lemma overview_row_idem r :
  overview_row airlines airports (overview_row airlines airports r)
  = overview_row airlines airports r.
Proof. destruct r. reflexivity. Qed.

Lemma delay_row_idem r :
  delay_row airlines (delay_row airlines r) = delay_row airlines r.
Proof. destruct r. reflexivity. Qed.

Lemma cancelled_row_idem r :
  cancelled_row airlines airports (cancelled_row airlines airports r)
  = cancelled_row airlines airports r.
Proof. destruct r. reflexivity. Qed.

End EnrichmentFacts.

(** The hour of every departure time of at most four digits, checked value
    by value. *)
Lemma hour_of_checked :
  forallb (fun n => Z.eqb (hour_of (Z.of_nat n)) (Z.of_nat n / 100))
          (seq 0 (100 * 100)) = true.
Proof. vm_compute. reflexivity. Qed.

Lemma hour_of_hhmm (x : Z) : 0 <= x <= 9999 -> hour_of x = x / 100.
Proof.
  intros Hx. pose proof hour_of_checked as Hall.
  rewrite forallb_forall in Hall.
  specialize (Hall (Z.to_nat x)). rewrite Z2Nat.id in Hall by lia.
  apply Z.eqb_eq, Hall. apply in_seq. lia.
Qed.

(** C1.  For a scheduled departure of at most four digits (the HHMM
    encoding), the hour column of both pages ([SCHED_HOUR] of the delay page,
    [HOUR] of the cancellations page) is the departure divided by 100,
    rounded down; the lambda never raises on such a value; and a departure of
    555 gives the hour 5. *)
Theorem scheduled_hour_is_hhmm_div_100
  (airlines : list Airlines.row) (airports : list Airports.row)
  (csv : list Flights.source) :
  (forall s, s ∈ csv -> 0 <= Flights.SCHEDULED_DEPARTURE s <= 9999) ->
  (exists flights,
      DelayAnalysis.enrichment airlines (Flights.read_csv csv) = Py.Ok flights /\
      Flights.SCHED_HOUR <$> flights
      = (fun s => Some (Flights.SCHEDULED_DEPARTURE s / 100)) <$> csv) /\
  (exists flights,
      CancelledFlights.enrichment airlines airports (Flights.read_csv csv)
      = Py.Ok flights /\
      Flights.HOUR <$> flights
      = (fun s => Some (Flights.SCHEDULED_DEPARTURE s / 100)) <$> csv) /\
  sched_hour_lambda 555 = Py.Ok 5.
Proof.
  intros Hhhmm. split; [|split]; [| |reflexivity].
  - eexists. split; [apply delay_enrichment|].
    unfold Flights.read_csv. rewrite <- !list_fmap_compose.
    apply list_fmap_ext. intros _ s Hs%list_elem_of_lookup_2. simpl.
    by rewrite hour_of_hhmm by auto.
  - eexists. split; [apply cancelled_enrichment|].
    unfold Flights.read_csv. rewrite <- !list_fmap_compose.
    apply list_fmap_ext. intros _ s Hs%list_elem_of_lookup_2. simpl.
    by rewrite hour_of_hhmm by auto.
Qed.

(** C8.  On each page, running the enrichment on an already enriched frame
    gives back the same frame, so every derived column is the one the first
    run computed; the source columns are never changed.  The two enrichments
    that call the hour lambda always return. *)
Theorem enrichment_idempotent
  (airlines : list Airlines.row) (airports : list Airports.row)
  (df : list Flights.row) :
  (let once := Overview.enrichment airlines airports df in
   Overview.enrichment airlines airports once = once /\
   Flights.src <$> once = Flights.src <$> df) /\
  (exists once,
     DelayAnalysis.enrichment airlines df = Py.Ok once /\
     DelayAnalysis.enrichment airlines once = Py.Ok once /\
     Flights.src <$> once = Flights.src <$> df) /\
  (exists once,
     CancelledFlights.enrichment airlines airports df = Py.Ok once /\
     CancelledFlights.enrichment airlines airports once = Py.Ok once /\
     Flights.src <$> once = Flights.src <$> df).
Proof.
  split; [|split].
  - simpl. rewrite !overview_enrichment, <- !list_fmap_compose. split.
    + apply list_fmap_ext. intros _ r _. apply overview_row_idem.
    + apply list_fmap_ext. intros _ r _. by destruct r.
  - eexists. split; [apply delay_enrichment|].
    rewrite delay_enrichment, <- !list_fmap_compose. split.
    + f_equal; apply list_fmap_ext; intros _ r _; apply delay_row_idem.
    + apply list_fmap_ext. intros _ r _. by destruct r.
  - eexists. split; [apply cancelled_enrichment|].
    rewrite cancelled_enrichment, <- !list_fmap_compose. split.
    + f_equal; apply list_fmap_ext; intros _ r _; apply cancelled_row_idem.
    + apply list_fmap_ext. intros _ r _. by destruct r.
Qed.

(** ** The delay page *)

Section DelayFacts.
Import Py Pandas Flights.
Context `{NumpyRandom}.
Variable airlines : list Airlines.row.

Lemma delay_enrichment_inv df flights r :
  DelayAnalysis.enrichment airlines df = Ok flights -> r ∈ flights ->
  SCHED_HOUR r = Some (hour_of (SCHEDULED_DEPARTURE r)) /\
  ON_TIME r = Some (DelayAnalysis.on_time_lambda (DEPARTURE_DELAY r)).
Proof.
  rewrite delay_enrichment. intros [= <-] (r0 & -> & _)%list_elem_of_fmap.
  by destruct r0.
Qed.

Lemma on_time_lambda_Delayed x :
  DelayAnalysis.on_time_lambda x = "Delayed" <-> DelayAnalysis.not_on_time x.
Proof.
  unfold DelayAnalysis.on_time_lambda. destruct x as [v|]; simpl; [|done].
  case_bool_decide; split; (done || lia).
Qed.

Lemma count_of_cells {A K} `{EqDecision K} (f : A -> option K) k (l : list A) :
  count_of k (omap id (f <$> l)) = length (filter (fun r => f r = Some k) l).
Proof.
  unfold count_of. induction l as [|r l IH]; [done|].
  csimpl. rewrite (filter_cons (fun r => f r = Some k)).
  destruct (f r) as [k'|] eqn:Hr; csimpl; [rewrite filter_cons|];
    repeat case_decide; simplify_eq; simpl; by rewrite ?IH.
Qed.

Lemma filter_ext_in {A} (P Q : A -> Prop) `{forall r, Decision (P r)}
  `{forall r, Decision (Q r)} (l : list A) :
  (forall r, r ∈ l -> P r <-> Q r) -> filter P l = filter Q l.
Proof.
  intros HPQ. induction l as [|r l IH]; [done|].
  assert (IH' : filter P l = filter Q l).
  { apply IH. intros r' Hr'. apply HPQ. by right. }
  rewrite !filter_cons, IH'.
  destruct (decide (P r)) as [Hp|Hp], (decide (Q r)) as [Hq|Hq]; try done.
  - destruct Hq. apply HPQ; [left|done].
  - destruct Hp. apply HPQ; [left|done].
Qed.

(** A departure at 2400 has hour 24, which the slider cannot select. *)
Lemma hour_of_2400 : hour_of 2400 = 24.
Proof. reflexivity. Qed.

Lemma not_slider_24 hour : hour ∈ DelayAnalysis.hour_slider -> hour <> 24.
Proof. unfold DelayAnalysis.hour_slider. rewrite elem_of_seqZ. lia. Qed.

End DelayFacts.

(** C9.  After the enrichment of the delay page, every flight whose departure
    delay is missing is labelled 'Delayed'; and the 'Delayed' row of the
    on-time pie counts every flight of the selected hour that is not
    cancelled and whose delay is positive or missing. *)
Theorem missing_delay_counts_as_delayed
  (airlines : list Airlines.row) (df flights : list Flights.row) (hour : Z) :
  DelayAnalysis.enrichment airlines df = Py.Ok flights ->
  (forall r : Flights.row, r ∈ flights -> Flights.DEPARTURE_DELAY r = None ->
             Flights.ON_TIME r = Some "Delayed") /\
  (forall n, ("Delayed", n) ∈ DelayAnalysis.on_time_vs_delayed flights hour <->
     n = length (filter (fun r : Flights.row =>
                           (Flights.CANCELLED r = 0 /\
                            Flights.SCHED_HOUR r = Some hour) /\
                           DelayAnalysis.not_on_time (Flights.DEPARTURE_DELAY r))
                        flights) /\
     (0 < n)%nat).
Proof.
  intros Henr. split.
  - intros r Hr Hmiss.
    destruct (delay_enrichment_inv _ _ _ _ Henr Hr) as [_ ->].
    by rewrite Hmiss.
  - intros n. unfold DelayAnalysis.on_time_vs_delayed.
    rewrite elem_of_value_counts, count_of_cells, list_filter_filter.
    rewrite (filter_ext_in _
      (fun r : Flights.row =>
         (Flights.CANCELLED r = 0 /\ Flights.SCHED_HOUR r = Some hour) /\
         DelayAnalysis.not_on_time (Flights.DEPARTURE_DELAY r))); [done|].
    intros r Hr.
    destruct (delay_enrichment_inv _ _ _ _ Henr Hr) as [_ ->].
    rewrite <- on_time_lambda_Delayed. split.
    + intros [[= ->] ?]. done.
    + intros [? ->]. done.
Qed.

(** C10.  A departure at 2400 gets the hour 24, which is not a value of the
    hour slider; for every value of the slider, each of the four charts that
    filter on the hour is the same as on the frame without the flights that
    leave at 2400. *)
Theorem hour_24_never_selected `{NumpyRandom}
  (airlines : list Airlines.row) (df flights : list Flights.row) (hour : Z)
  (np_random : RandomState) :
  DelayAnalysis.enrichment airlines df = Py.Ok flights ->
  hour ∈ DelayAnalysis.hour_slider ->
  sched_hour_lambda 2400 = Py.Ok 24 /\
  (24 ∉ DelayAnalysis.hour_slider) /\
  (forall r : Flights.row, r ∈ flights -> Flights.SCHEDULED_DEPARTURE r = 2400 ->
             Flights.SCHED_HOUR r = Some 24) /\
  (let kept := filter (fun r : Flights.row =>
                         Flights.SCHEDULED_DEPARTURE r <> 2400) flights in
   DelayAnalysis.update_boxplot flights hour
   = DelayAnalysis.update_boxplot kept hour /\
   DelayAnalysis.delay_violin flights hour np_random
   = DelayAnalysis.delay_violin kept hour np_random /\
   DelayAnalysis.delay_by_distance_range flights hour
   = DelayAnalysis.delay_by_distance_range kept hour /\
   DelayAnalysis.on_time_vs_delayed flights hour
   = DelayAnalysis.on_time_vs_delayed kept hour).
Proof.
  intros Henr Hhour.
  assert (H24 : forall r : Flights.row, r ∈ flights -> Flights.SCHEDULED_DEPARTURE r = 2400 ->
                          Flights.SCHED_HOUR r = Some 24).
  { intros r Hr Hdep.
    destruct (delay_enrichment_inv _ _ _ _ Henr Hr) as [-> _].
    by rewrite Hdep. }
  assert (Hkeep : forall r : Flights.row, r ∈ flights -> Flights.SCHED_HOUR r = Some hour ->
                            Flights.SCHEDULED_DEPARTURE r <> 2400).
  { intros r Hr Hh Hdep. rewrite (H24 r Hr Hdep) in Hh.
    inversion Hh as [Heq]. symmetry in Heq. by apply not_slider_24 in Heq. }
  split; [reflexivity|]. split.
  { intros Hin. by apply not_slider_24 in Hin. }
  split; [exact H24|]. simpl.
  unfold DelayAnalysis.update_boxplot, DelayAnalysis.delay_violin,
    DelayAnalysis.delay_by_distance_range, DelayAnalysis.distance_frame,
    DelayAnalysis.on_time_vs_delayed.
  rewrite !filter_filter_impl; [done|..].
  all: intros r Hr Hp; apply (Hkeep r Hr); tauto.
Qed.

(** ** The cancellations page: rate tables *)

Section RateFacts.
Import Py Pandas.

Lemma sum_cancelled_bounds (rows : list row) :
  (forall r : row, r ∈ rows -> cancelled_flag r) ->
  0 <= sum_Z ((fun r : row => CANCELLED r) <$> rows) <= Z.of_nat (length rows).
Proof.
  induction rows as [|r rows IH]; intros Hflag; [simpl; lia|].
  assert (Hr : cancelled_flag r) by (apply Hflag; left).
  unfold cancelled_flag in Hr.
  assert (Hrows : 0 <= sum_Z ((fun r : row => CANCELLED r) <$> rows)
                  <= Z.of_nat (length rows)).
  { apply IH. intros r' Hr'. apply Hflag. by right. }
  csimpl. unfold sum_Z in *. simpl. lia.
Qed.

Lemma truediv_percent (c t : Z) :
  0 <= c <= t -> 0 < t ->
  exists q, truediv (100 * c) t = Some q /\ (0 <= q)%Q /\ (q <= 100)%Q /\
    (q * inject_Z t == 100 * inject_Z c)%Q.
Proof.
  intros Hc Ht. unfold truediv. rewrite decide_False by lia.
  eexists. split; [reflexivity|].
  assert (Hpos : (0 < inject_Z t)%Q).
  { change 0%Q with (inject_Z 0). by rewrite <- Zlt_Qlt. }
  split; [|split].
  - apply Qle_shift_div_l; [done|]. rewrite Qmult_0_l.
    change 0%Q with (inject_Z 0). rewrite <- Zle_Qle. lia.
  - apply Qle_shift_div_r; [done|].
    change 100%Q with (inject_Z 100). rewrite <- inject_Z_mult.
    rewrite <- Zle_Qle. lia.
  - rewrite Qmult_comm, Qmult_div_r, inject_Z_mult; [done|].
    intros Hz. rewrite Hz in Hpos. by apply Qlt_irrefl in Hpos.
Qed.

Lemma rate_table_ok {K} `{EqDecision K} `{KeyLe K}
  (key : row -> option K) (flights : list row) g :
  (forall r : row, r ∈ flights -> cancelled_flag r) ->
  g ∈ CancelledFlights.rate_table key flights ->
  rate_row_ok key flights g.
Proof.
  intros Hflag (grp & -> & Hgrp)%list_elem_of_fmap.
  apply elem_of_groupby in Hgrp as [Hrows (r & Hr & Hk)].
  destruct grp as [k rows]. simpl in *. subst rows.
  set (rows := filter (fun r : row => key r = Some k) flights).
  assert (Hin : r ∈ rows) by (by apply list_elem_of_filter).
  assert (Hlen : 0 < Z.of_nat (length rows)).
  { destruct rows; [by apply elem_of_nil in Hin|simpl; lia]. }
  assert (Hsum : 0 <= sum_Z ((fun r : row => CANCELLED r) <$> rows)
                 <= Z.of_nat (length rows)).
  { apply sum_cancelled_bounds. intros r' [_ Hr']%list_elem_of_filter. auto. }
  unfold rate_row_ok. simpl. fold rows.
  split; [eauto|]. do 3 (split; [done|]). split; [done|]. split; [done|].
  by apply truediv_percent.
Qed.

Lemma rate_table_covers {K} `{EqDecision K} `{KeyLe K}
  (key : row -> option K) (flights : list row) (r : row) k :
  r ∈ flights -> key r = Some k ->
  exists g, g ∈ CancelledFlights.rate_table key flights /\
            CancelledFlights.rate_key g = k.
Proof.
  intros Hr Hk. unfold CancelledFlights.rate_table.
  eexists. split.
  - apply list_elem_of_fmap_2.
    apply (elem_of_groupby key flights
             (k, filter (fun r => key r = Some k) flights)).
    simpl. eauto.
  - done.
Qed.

Lemma length_rate_table {K} `{EqDecision K} `{KeyLe K}
  (key : row -> option K) (flights : list row) :
  length (CancelledFlights.rate_table key flights)
  = length (unique (omap key flights)).
Proof.
  unfold CancelledFlights.rate_table, groupby, sort_keys.
  rewrite !length_fmap. apply Permutation_length, sort_by_Permutation.
Qed.

End RateFacts.

(** C5.  When the cancelled flag of every flight is 0 or 1, every row of the
    three rate tables (by day, by airline and day, by route) belongs to a
    group of at least one flight; its [cancelled] is the sum of the flags of
    the flights of the group, its [total] their number and its [rate]
    [100 * cancelled / total], a number between 0 and 100: no group without
    rows is in the output and no rate is undefined.  The tables by day and
    by airline and day have a row for every key met in the frame; the chart
    by route, whose rows are chosen by a sort, has 15 rows, or as many as
    there are routes, when the sort keeps numpy's laws. *)
Theorem rate_aggregates_in_range `{NumpySort} (flights : list row) :
  (forall r : row, r ∈ flights -> cancelled_flag r) ->
  (forall g, g ∈ CancelledFlights.cancel_day_bar flights ->
             rate_row_ok DAY_NAME flights g) /\
  (forall g, g ∈ CancelledFlights.cancel_heat flights ->
             rate_row_ok CancelledFlights.airline_day flights g) /\
  (forall g, g ∈ CancelledFlights.cancel_rate_bar flights ->
             rate_row_ok ROUTE flights g) /\
  (forall (r : row) day, r ∈ flights -> DAY_NAME r = Some day ->
     exists g, g ∈ CancelledFlights.cancel_day_bar flights /\
               CancelledFlights.rate_key g = day) /\
  (forall (r : row) key, r ∈ flights ->
     CancelledFlights.airline_day r = Some key ->
     exists g, g ∈ CancelledFlights.cancel_heat flights /\
               CancelledFlights.rate_key g = key) /\
  (LawfulSort ->
   length (CancelledFlights.cancel_rate_bar flights)
   = Nat.min 15 (length (Pandas.unique (omap ROUTE flights)))).
Proof.
  intros Hflag.
  split; [|split; [|split; [|split; [|split]]]].
  - intros g Hg. by apply rate_table_ok.
  - intros g Hg. by apply rate_table_ok.
  - intros g Hg. apply rate_table_ok; [done|].
    unfold CancelledFlights.cancel_rate_bar in Hg.
    apply elem_of_take in Hg as (i & Hg & _).
    apply list_elem_of_lookup_2 in Hg.
    by apply elem_of_sort_values_1 in Hg.
  - intros r day. apply rate_table_covers.
  - intros r key. apply rate_table_covers.
  - intros Hlaw. unfold CancelledFlights.cancel_rate_bar.
    by rewrite length_take, length_sort_values, length_rate_table.
Qed.

(** ** Reference lookups and maps *)

Section MapFacts.
Import Py Pandas.
Context `{NumpyRandom}.
Variables (airlines : list Airlines.row) (airports : list Airports.row).

Lemma foldl_insert_None {V} (kvs : list (string * V)) (m : gmap string V) k :
  m !! k = None -> k ∉ kvs.*1 ->
  foldl (fun m kv => <[kv.1 := kv.2]> m) m kvs !! k = None.
Proof.
  revert m. induction kvs as [|[k' v] kvs IH]; intros m Hm Hk; [done|].
  csimpl in *. apply not_elem_of_cons in Hk as [Hne Hk].
  apply IH; [|done]. by rewrite lookup_insert_ne.
Qed.

Lemma city_map_unknown c :
  c ∉ Airports.IATA_CODE <$> airports -> city_map airports !! c = None.
Proof.
  intros Hc. unfold city_map, dict_of_zip.
  apply foldl_insert_None; [apply lookup_empty|].
  by rewrite <- list_fmap_compose.
Qed.

Lemma Series_map_city_unknown code :
  unknown_airport airports code ->
  Series_map (city_map airports) code = None.
Proof.
  destruct code as [c|]; [|done]. simpl. intros Hc.
  unfold Series_map. simpl. by rewrite city_map_unknown.
Qed.

Lemma isin_coords_known c :
  isin_coords airports c -> c ∈ Airports.IATA_CODE <$> airports.
Proof.
  unfold isin_coords, airport_coords.
  intros ([c' xy] & -> & (a & Ha & Hxy)%list_elem_of_omap)%list_elem_of_fmap.
  destruct (Airports.LATITUDE a), (Airports.LONGITUDE a); simplify_eq/=.
  apply list_elem_of_fmap. eauto.
Qed.

Lemma select_airline_filter (P : row -> Prop) `{forall r, Decision (P r)}
  sel (flights : list row) :
  select_airline sel (filter P flights) = filter P (select_airline sel flights).
Proof.
  destruct sel as [a|]; [|done]. simpl.
  rewrite !list_filter_filter. apply list_filter_iff. tauto.
Qed.

Lemma elem_of_select_airline sel (flights : list row) r :
  r ∈ select_airline sel flights -> r ∈ flights.
Proof.
  destruct sel; [|done]. simpl. by intros [_ ?]%list_elem_of_filter.
Qed.

(** A seeded [sample] neither reads nor advances the process-wide
    generator. *)
Lemma sample_seeded {A} (rows : list A) n s (w1 w2 : RandomState) :
  (sample rows n (Some s) w1).1 = (sample rows n (Some s) w2).1 /\
  (sample rows n (Some s) w1).2 = w1.
Proof. unfold sample. by destruct (choice (seed s) (length rows) n). Qed.

(** Asking [sample] for more rows than the frame has raises. *)
Lemma sample_too_large {A} (rows : list A) n s (w : RandomState) :
  (length rows < n)%nat -> sample rows n (Some s) w = (Raise ValueError, w).
Proof.
  intros Hlt. unfold sample, choice. by rewrite decide_True by done.
Qed.

(** The rows of a sample are rows of the sampled frame. *)
Lemma sample_subset {A} (rows : list A) n s (w w' : RandomState) out :
  sample rows n s w = (Ok out, w') -> forall r, r ∈ out -> r ∈ rows.
Proof.
  unfold sample. intros Hs.
  assert (exists locs, take_locs rows locs = Ok out) as [locs Hl].
  { destruct s;
      [destruct (choice (seed z) (length rows) n) as [[l|] ?]
      |destruct (choice w (length rows) n) as [[l|] ?]];
      simplify_eq/=; eauto. }
  by apply (take_locs_subset _ _ _ Hl).
Qed.

(** Sampling no row from an empty frame succeeds. *)
Lemma sample_nil {A} s (w : RandomState) :
  (sample (@nil A) 0 (Some s) w) = (Ok [], w).
Proof.
  unfold sample, choice. simpl.
  by destruct (permutation (seed s) 0) as [p rs'].
Qed.

End MapFacts.

(** C7.  The sample of both map callbacks, and so the figure drawn from it,
    does not depend on the state of the process-wide generator: two calls on
    the same frame with the same selection give the same result, whatever
    ran in between; and the calls leave that generator as they found it. *)
Theorem geo_sample_deterministic `{NumpyRandom}
  (airports : list Airports.row) (flights : list row)
  (selected_airline : option string) (w1 w2 : RandomState) :
  (Overview.show_map_sample airports flights selected_airline w1).1
  = (Overview.show_map_sample airports flights selected_airline w2).1 /\
  (Overview.show_map airports flights selected_airline w1).1
  = (Overview.show_map airports flights selected_airline w2).1 /\
  (Overview.show_map airports flights selected_airline w1).2 = w1 /\
  (CancelledFlights.cancel_map_sample airports flights w1).1
  = (CancelledFlights.cancel_map_sample airports flights w2).1 /\
  (CancelledFlights.cancel_map airports flights w1).1
  = (CancelledFlights.cancel_map airports flights w2).1 /\
  (CancelledFlights.cancel_map airports flights w1).2 = w1.
Proof.
  assert (Hshow := sample_seeded
    (Overview.show_map_rows airports flights selected_airline)
    (Nat.min 300 (length (select_airline selected_airline flights)))
    42 w1 w2).
  assert (Hcancel := sample_seeded
    (CancelledFlights.cancel_map_rows airports flights)
    (Nat.min 300 (length (filter (fun r : row => CANCELLED r = 1) flights)))
    42 w1 w2).
  fold (Overview.show_map_sample airports flights selected_airline w1) in Hshow.
  fold (Overview.show_map_sample airports flights selected_airline w2) in Hshow.
  fold (CancelledFlights.cancel_map_sample airports flights w1) in Hcancel.
  fold (CancelledFlights.cancel_map_sample airports flights w2) in Hcancel.
  unfold Overview.show_map, CancelledFlights.cancel_map.
  destruct (Overview.show_map_sample airports flights selected_airline w1),
    (Overview.show_map_sample airports flights selected_airline w2),
    (CancelledFlights.cancel_map_sample airports flights w1),
    (CancelledFlights.cancel_map_sample airports flights w2).
  simpl in *. destruct Hshow as [-> ->], Hcancel as [-> ->]. done.
Qed.

(** ** Flights with an unknown airport *)

Section UnknownAirportFacts.
Import Py Pandas.
Context `{NumpyRandom}.
Variables (airlines : list Airlines.row) (airports : list Airports.row).

Lemma not_known_route r :
  ~ known_route airports r ->
  unknown_airport airports (ORIGIN_AIRPORT r) \/
  unknown_airport airports (DESTINATION_AIRPORT r).
Proof.
  unfold known_route. intros Hn.
  destruct (decide (unknown_airport airports (ORIGIN_AIRPORT r))); [by left|].
  destruct (decide (unknown_airport airports (DESTINATION_AIRPORT r)));
    [by right|].
  by destruct Hn.
Qed.

Lemma overview_cities_assigned df r :
  r ∈ Overview.enrichment airlines airports df -> cities_assigned airports r.
Proof.
  rewrite overview_enrichment. intros (r0 & -> & _)%list_elem_of_fmap.
  by destruct r0.
Qed.

Lemma cancelled_cities_assigned df flights r :
  CancelledFlights.enrichment airlines airports df = Ok flights ->
  r ∈ flights -> cities_assigned airports r.
Proof.
  rewrite cancelled_enrichment. intros [= <-] (r0 & -> & _)%list_elem_of_fmap.
  by destruct r0.
Qed.

Lemma unknown_cells r :
  cities_assigned airports r ->
  (unknown_airport airports (ORIGIN_AIRPORT r) -> ORIGIN_CITY r = None) /\
  (unknown_airport airports (DESTINATION_AIRPORT r) -> DEST_CITY r = None) /\
  (~ known_route airports r -> ROUTE r = None).
Proof.
  intros (Ho & Hd & Hr). split; [|split].
  - intros Hu. by rewrite Ho, Series_map_city_unknown.
  - intros Hu. by rewrite Hd, Series_map_city_unknown.
  - intros [Hu|Hu]%not_known_route; rewrite Hr.
    + by rewrite Ho, Series_map_city_unknown.
    + rewrite Hd, (Series_map_city_unknown _ _ Hu).
      by destruct (str_add (ORIGIN_CITY r) (Some arrow)).
Qed.

Lemma draw_map_arcs sample fig :
  draw_map airports sample = Ok fig ->
  arc_text <$> arcs fig
  = (fun od : string * string => od.1 ++ arrow ++ od.2) <$> sample.
Proof.
  unfold draw_map. intros Hd.
  destruct (mapM _ sample) as [traces|] eqn:Htr; [|done].
  simpl in Hd. destruct (mapM _ (unique _)) as [points|]; [|done].
  simpl in Hd. inversion Hd; subst; clear Hd. simpl.
  apply mapM_Ok_inv in Htr.
  induction Htr as [|od a sample traces Ha _ IH]; [done|].
  csimpl. rewrite IH. f_equal.
  destruct (loc airports od.1); [|done]. simpl in Ha.
  destruct (loc airports od.2); [|done]. simpl in Ha.
  by inversion Ha.
Qed.

(** The rows [show_map] samples from come from flights of the frame with
    both airports in the reference table. *)
Lemma show_map_sample_known flights sel w w' sample od :
  Overview.show_map_sample airports flights sel w = (Ok sample, w') ->
  od ∈ sample ->
  exists r : row, r ∈ flights /\ known_route airports r /\
    ORIGIN_AIRPORT r = Some od.1 /\ DESTINATION_AIRPORT r = Some od.2.
Proof.
  unfold Overview.show_map_sample, Overview.show_map_rows. intros Hs Hod.
  apply (sample_subset _ _ _ _ _ _ Hs) in Hod.
  apply list_elem_of_filter in Hod as [[Ho Hd] Hod].
  apply list_elem_of_omap in Hod as (r & Hr & Hcodes).
  exists r. split; [by eapply elem_of_select_airline|].
  destruct (ORIGIN_AIRPORT r) as [o|] eqn:Hro; [|done].
  destruct (DESTINATION_AIRPORT r) as [d|] eqn:Hrd; [|done].
  simpl in Hcodes. inversion Hcodes; subst; clear Hcodes. simpl in *.
  unfold known_route. rewrite Hro, Hrd. simpl.
  split; [|done]. split; intros Hu; apply Hu; by apply isin_coords_known.
Qed.

Lemma cancel_map_sample_known flights w w' sample r :
  CancelledFlights.cancel_map_sample airports flights w = (Ok sample, w') ->
  r ∈ sample -> r ∈ flights /\ known_route airports r.
Proof.
  unfold CancelledFlights.cancel_map_sample, CancelledFlights.cancel_map_rows.
  intros Hs Hr.
  apply (sample_subset _ _ _ _ _ _ Hs) in Hr.
  apply list_elem_of_filter in Hr as [[Ho Hd] Hr].
  apply list_elem_of_filter in Hr as [_ Hr]. split; [done|].
  unfold known_route, CancelledFlights.cell_isin in *.
  destruct (ORIGIN_AIRPORT r) as [o|]; [|done].
  destruct (DESTINATION_AIRPORT r) as [d|]; [|done]. simpl.
  split; intros Hu; apply Hu; by apply isin_coords_known.
Qed.

(** A row with a cell is counted in the bar of that cell. *)
Lemma top_bar_counts {A} (cell : A -> option string) (rows : list A)
  (n : nat) r k :
  r ∈ rows -> cell r = Some k ->
  (forall c, (k, c) ∈ take n (value_counts (cell <$> rows)) ->
     c = length (filter (fun r' => cell r' = Some k) rows)) /\
  r ∈ filter (fun r' => cell r' = Some k) rows /\
  ((length (take n (value_counts (cell <$> rows))) < n)%nat ->
   k ∈ (take n (value_counts (cell <$> rows))).*1).
Proof.
  intros Hr Hk. split; [|split].
  - intros c Hc. apply elem_of_take in Hc as (i & Hc & _).
    apply list_elem_of_lookup_2, elem_of_value_counts in Hc as [-> _].
    apply count_of_cells.
  - by apply list_elem_of_filter.
  - intros Hlen. rewrite length_take in Hlen.
    rewrite take_ge by lia. apply list_elem_of_fmap.
    exists (k, count_of k (omap id (cell <$> rows))). split; [done|].
    apply elem_of_value_counts. split; [done|]. apply count_of_pos.
    apply list_elem_of_omap. exists (Some k). split; [|done].
    apply list_elem_of_fmap. by exists r.
Qed.

Lemma city_of_known_airport code city :
  city_map airports !! code = Some (Some city) ->
  Series_map (city_map airports) (Some code) = Some city.
Proof. intros Hcity. unfold Series_map. simpl. by rewrite Hcity. Qed.

End UnknownAirportFacts.

(** C6 (as the code has it).  On the overview page and on the cancellations
    page, a flight one of whose airports is not in the airport table has no
    city for that airport and no route label.  Such flights play no part in
    the route aggregates (top routes, top cancelled routes, cancellation rate
    by route): these are the same as on the frame without them.  In the city
    aggregates they are not counted for the airport that is unknown: top
    origin cities is the same without the flights of unknown origin, top
    destination cities the same without those of unknown destination.  A
    selected flight is counted under the city of an airport of its own to
    which the table gives a city, whatever its other airport is: it has that
    city, the bar of the city, when the chart shows it, holds the number of
    all selected flights with that city, this flight among them, and the
    chart shows the city whenever it shows fewer than 20.  Every arc of a
    map that is drawn comes from a flight with both airports in the table. *)
Theorem unknown_airport_excluded `{NumpyRandom} `{NumpySort}
  (airlines : list Airlines.row) (airports : list Airports.row)
  (df : list row) (airline : option string) (np_random : RandomState) :
  (let flights := Overview.enrichment airlines airports df in
   (forall r : row, r ∈ flights ->
      (unknown_airport airports (ORIGIN_AIRPORT r) -> ORIGIN_CITY r = None) /\
      (unknown_airport airports (DESTINATION_AIRPORT r) ->
       DEST_CITY r = None) /\
      (~ known_route airports r -> ROUTE r = None)) /\
   Overview.route_bar flights airline
   = Overview.route_bar (filter (known_route airports) flights) airline /\
   Overview.origin_treemap flights airline
   = Overview.origin_treemap
       (filter (fun r : row => ~ unknown_airport airports (ORIGIN_AIRPORT r))
               flights) airline /\
   Overview.dest_treemap flights airline
   = Overview.dest_treemap
       (filter (fun r : row =>
                  ~ unknown_airport airports (DESTINATION_AIRPORT r))
               flights) airline /\
   (forall (r : row) code city,
      r ∈ select_airline airline flights ->
      ORIGIN_AIRPORT r = Some code ->
      city_map airports !! code = Some (Some city) ->
      ORIGIN_CITY r = Some city /\
      (forall n, (city, n) ∈ Overview.origin_treemap flights airline ->
         n = length (filter (fun r' : row => ORIGIN_CITY r' = Some city)
                            (select_airline airline flights))) /\
      r ∈ filter (fun r' : row => ORIGIN_CITY r' = Some city)
                 (select_airline airline flights) /\
      ((length (Overview.origin_treemap flights airline) < 20)%nat ->
       city ∈ (Overview.origin_treemap flights airline).*1)) /\
   (forall (r : row) code city,
      r ∈ select_airline airline flights ->
      DESTINATION_AIRPORT r = Some code ->
      city_map airports !! code = Some (Some city) ->
      DEST_CITY r = Some city /\
      (forall n, (city, n) ∈ Overview.dest_treemap flights airline ->
         n = length (filter (fun r' : row => DEST_CITY r' = Some city)
                            (select_airline airline flights))) /\
      r ∈ filter (fun r' : row => DEST_CITY r' = Some city)
                 (select_airline airline flights) /\
      ((length (Overview.dest_treemap flights airline) < 20)%nat ->
       city ∈ (Overview.dest_treemap flights airline).*1)) /\
   (forall fig np_random',
      Overview.show_map airports flights airline np_random
      = (Py.Ok fig, np_random') ->
      exists sample,
        arc_text <$> arcs fig
        = (fun od : string * string => od.1 ++ arrow ++ od.2) <$> sample /\
        forall od, od ∈ sample ->
          exists r : row, r ∈ flights /\ known_route airports r /\
            ORIGIN_AIRPORT r = Some od.1 /\
            DESTINATION_AIRPORT r = Some od.2)) /\
  (exists flights,
     CancelledFlights.enrichment airlines airports df = Py.Ok flights /\
     (forall r : row, r ∈ flights ->
        (unknown_airport airports (ORIGIN_AIRPORT r) ->
         ORIGIN_CITY r = None) /\
        (unknown_airport airports (DESTINATION_AIRPORT r) ->
         DEST_CITY r = None) /\
        (~ known_route airports r -> ROUTE r = None)) /\
     CancelledFlights.cancel_route_bar flights
     = CancelledFlights.cancel_route_bar
         (filter (known_route airports) flights) /\
     CancelledFlights.cancel_rate_bar flights
     = CancelledFlights.cancel_rate_bar
         (filter (known_route airports) flights) /\
     (forall fig np_random',
        CancelledFlights.cancel_map airports flights np_random
        = (Py.Ok fig, np_random') ->
        exists sample,
          arc_text <$> arcs fig
          = (fun od : string * string => od.1 ++ arrow ++ od.2)
              <$> omap CancelledFlights.endpoints sample /\
          forall r : row, r ∈ sample ->
            r ∈ flights /\ known_route airports r)).
Proof.
  split.
  - simpl. set (flights := Overview.enrichment airlines airports df).
    assert (Hcells : forall r : row, r ∈ flights ->
      (unknown_airport airports (ORIGIN_AIRPORT r) -> ORIGIN_CITY r = None) /\
      (unknown_airport airports (DESTINATION_AIRPORT r) ->
       DEST_CITY r = None) /\
      (~ known_route airports r -> ROUTE r = None)).
    { intros r Hr. apply (unknown_cells airports r).
      apply (overview_cities_assigned airlines airports df r Hr). }
    split; [exact Hcells|].
    assert (Horigin : forall (r : row) code city,
      r ∈ select_airline airline flights ->
      ORIGIN_AIRPORT r = Some code ->
      city_map airports !! code = Some (Some city) ->
      ORIGIN_CITY r = Some city /\
      (forall n, (city, n) ∈ Overview.origin_treemap flights airline ->
         n = length (filter (fun r' : row => ORIGIN_CITY r' = Some city)
                            (select_airline airline flights))) /\
      r ∈ filter (fun r' : row => ORIGIN_CITY r' = Some city)
                 (select_airline airline flights) /\
      ((length (Overview.origin_treemap flights airline) < 20)%nat ->
       city ∈ (Overview.origin_treemap flights airline).*1)).
    { intros r code city Hr Hcode Hcity.
      assert (Hc : ORIGIN_CITY r = Some city).
      { destruct (overview_cities_assigned airlines airports df r) as (-> & _);
          [by eapply elem_of_select_airline|].
        rewrite Hcode. by apply city_of_known_airport. }
      split; [exact Hc|]. by apply top_bar_counts. }
    assert (Hdest : forall (r : row) code city,
      r ∈ select_airline airline flights ->
      DESTINATION_AIRPORT r = Some code ->
      city_map airports !! code = Some (Some city) ->
      DEST_CITY r = Some city /\
      (forall n, (city, n) ∈ Overview.dest_treemap flights airline ->
         n = length (filter (fun r' : row => DEST_CITY r' = Some city)
                            (select_airline airline flights))) /\
      r ∈ filter (fun r' : row => DEST_CITY r' = Some city)
                 (select_airline airline flights) /\
      ((length (Overview.dest_treemap flights airline) < 20)%nat ->
       city ∈ (Overview.dest_treemap flights airline).*1)).
    { intros r code city Hr Hcode Hcity.
      assert (Hc : DEST_CITY r = Some city).
      { destruct (overview_cities_assigned airlines airports df r)
          as (_ & -> & _); [by eapply elem_of_select_airline|].
        rewrite Hcode. by apply city_of_known_airport. }
      split; [exact Hc|]. by apply top_bar_counts. }
    unfold Overview.route_bar, Overview.origin_treemap, Overview.dest_treemap.
    rewrite !select_airline_filter.
    rewrite (value_counts_filter ROUTE), (value_counts_filter ORIGIN_CITY),
      (value_counts_filter DEST_CITY).
    + split; [done|]. split; [done|]. split; [done|].
      split; [exact Horigin|]. split; [exact Hdest|].
      intros fig w' Hfig. unfold Overview.show_map in Hfig.
      destruct (Overview.show_map_sample airports flights airline np_random)
        as [[sample|e] w''] eqn:Hs; [|done].
      simpl in Hfig. inversion Hfig as [[Hdraw Hw]]. subst w''.
      exists sample. split; [by apply (draw_map_arcs airports)|].
      intros od Hod. by eapply show_map_sample_known.
    + intros r Hr%elem_of_select_airline Hu.
      apply (Hcells r Hr). by apply dec_stable.
    + intros r Hr%elem_of_select_airline Hu.
      apply (Hcells r Hr). by apply dec_stable.
    + intros r Hr%elem_of_select_airline Hu. by apply (Hcells r Hr).
  - eexists. split; [apply cancelled_enrichment|].
    set (flights := cancelled_row airlines airports <$> df).
    assert (Hcells : forall r : row, r ∈ flights ->
      (unknown_airport airports (ORIGIN_AIRPORT r) -> ORIGIN_CITY r = None) /\
      (unknown_airport airports (DESTINATION_AIRPORT r) ->
       DEST_CITY r = None) /\
      (~ known_route airports r -> ROUTE r = None)).
    { intros r Hr. apply (unknown_cells airports r).
      apply (cancelled_cities_assigned airlines airports df flights r);
        [apply cancelled_enrichment|done]. }
    split; [exact Hcells|].
    unfold CancelledFlights.cancel_route_bar, CancelledFlights.cancel_rate_bar,
      CancelledFlights.rate_table.
    assert (Hcomm : filter (fun r : row => CANCELLED r = 1)
                      (filter (known_route airports) flights)
                    = filter (known_route airports)
                        (filter (fun r : row => CANCELLED r = 1) flights)).
    { rewrite !list_filter_filter. apply list_filter_iff. tauto. }
    rewrite Hcomm, (value_counts_filter ROUTE (known_route airports)),
      (groupby_filter ROUTE (known_route airports)).
    + split; [done|]. split; [done|].
      intros fig w' Hfig. unfold CancelledFlights.cancel_map in Hfig.
      destruct (CancelledFlights.cancel_map_sample airports flights np_random)
        as [[sample|e] w''] eqn:Hs; [|done].
      simpl in Hfig. inversion Hfig as [[Hdraw Hw]]. subst w''.
      exists sample. split; [by apply (draw_map_arcs airports)|].
      intros r Hr. by eapply cancel_map_sample_known.
    + intros r Hr Hu. by apply (Hcells r Hr).
    + intros r [_ Hr]%list_elem_of_filter Hu. by apply (Hcells r Hr).
Qed.

(** Against C6 as it is stated: the flight of [unknown_origin_flight] has no
    origin city and no route, and yet it is counted under New York in the
    top destination cities. *)
Lemma unknown_origin_counted_under_destination :
  let flights := Overview.enrichment example_airlines example_airports
                   (read_csv unknown_origin_flight) in
  (exists r : row, flights = [r] /\
     unknown_airport example_airports (ORIGIN_AIRPORT r) /\
     ORIGIN_CITY r = None /\ ROUTE r = None) /\
  Overview.dest_treemap flights None = [("New York", 1%nat)] /\
  Overview.dest_treemap [] None = [].
Proof.
  simpl. split; [|split; vm_compute; reflexivity].
  eexists. split; [vm_compute; reflexivity|].
  split; [|split; vm_compute; reflexivity].
  apply (@bool_decide_unpack _ (unknown_airport_dec _ _)).
  vm_compute. exact I.
Qed.

(** ** The size of the geo-sample *)

Section SampleSizeFacts.
Import Py Pandas.
Context `{NumpyRandom}.
Variable airports : list Airports.row.

(** [show_map] asks for [min(300, len(df))] rows, [df] being the frame
    before the rows without coordinates are dropped; when fewer rows are
    left, the call raises. *)
Lemma show_map_sample_raises flights sel (w : RandomState) :
  (length (Overview.show_map_rows airports flights sel)
   < Nat.min 300 (length (select_airline sel flights)))%nat ->
  Overview.show_map_sample airports flights sel w = (Raise ValueError, w).
Proof. intros Hlt. by apply sample_too_large. Qed.

Lemma cancel_map_sample_raises flights (w : RandomState) :
  (length (CancelledFlights.cancel_map_rows airports flights)
   < Nat.min 300
       (length (filter (fun r : row => (CANCELLED r = 1)%Z) flights)))%nat ->
  CancelledFlights.cancel_map_sample airports flights w
  = (Raise ValueError, w).
Proof. intros Hlt. by apply sample_too_large. Qed.

(** With nothing selected, [show_map] draws an empty map. *)
Lemma show_map_no_selection flights sel (w : RandomState) :
  select_airline sel flights = [] ->
  Overview.show_map airports flights sel w
  = (Ok {| arcs := []; airport_points := [] |}, w).
Proof.
  intros Hsel.
  unfold Overview.show_map, Overview.show_map_sample, Overview.show_map_rows.
  rewrite Hsel. unfold sample, choice. simpl.
  by destruct (permutation (seed 42) 0).
Qed.

End SampleSizeFacts.

(** C3.  Of the two flights of [two_flights] one has both airports in the
    coordinate lookup, so one row is left after the filter of [show_map] and
    of [cancel_map]; both nevertheless ask for a sample of two rows, the
    number of rows before the filter, and raise [ValueError]. *)
Theorem geo_sample_size_uses_unfiltered_length `{NumpyRandom}
  (np_random : RandomState) :
  (let flights := Overview.enrichment example_airlines example_airports
                    (read_csv two_flights) in
   length (Overview.show_map_rows example_airports flights None) = 1%nat /\
   Overview.show_map_sample example_airports flights None np_random
   = (Py.Raise Py.ValueError, np_random)) /\
  (exists flights,
     CancelledFlights.enrichment example_airlines example_airports
       (read_csv two_flights) = Py.Ok flights /\
     length (CancelledFlights.cancel_map_rows example_airports flights)
     = 1%nat /\
     CancelledFlights.cancel_map_sample example_airports flights np_random
     = (Py.Raise Py.ValueError, np_random)).
Proof.
  split.
  - simpl. split; [vm_compute; reflexivity|].
    apply show_map_sample_raises. vm_compute. lia.
  - eexists. split; [apply cancelled_enrichment|].
    split; [vm_compute; reflexivity|].
    apply cancel_map_sample_raises. vm_compute. lia.
Qed.

(** C4.  For the single flight of [unknown_origin_flight] no row is left
    after the coordinate filter, and [show_map] and [cancel_map] raise
    [ValueError] instead of drawing an empty map. *)
Theorem map_raises_on_empty_result `{NumpyRandom} (np_random : RandomState) :
  (let flights := Overview.enrichment example_airlines example_airports
                    (read_csv unknown_origin_flight) in
   Overview.show_map_rows example_airports flights None = [] /\
   Overview.show_map example_airports flights None np_random
   = (Py.Raise Py.ValueError, np_random)) /\
  (exists flights,
     CancelledFlights.enrichment example_airlines example_airports
       (read_csv unknown_origin_flight) = Py.Ok flights /\
     CancelledFlights.cancel_map_rows example_airports flights = [] /\
     CancelledFlights.cancel_map example_airports flights np_random
     = (Py.Raise Py.ValueError, np_random)).
Proof.
  split.
  - simpl. split; [vm_compute; reflexivity|].
    unfold Overview.show_map. rewrite show_map_sample_raises; [done|].
    vm_compute. lia.
  - eexists. split; [apply cancelled_enrichment|].
    split; [vm_compute; reflexivity|].
    unfold CancelledFlights.cancel_map.
    rewrite cancel_map_sample_raises; [done|]. vm_compute. lia.
Qed.

(** C2.  On the five flights of [distance_example] at hour 12: the flight of
    3000 miles is dropped by the row filter; the flight of -5 miles passes
    the filter and gets no bin; the flights of 499 and of 500 miles both get
    the first bin, labelled '<500', and the flight of 2999 miles the last
    one, '2500+'.  The bar chart has the two bars '<500' (mean of 10 and 20)
    and '2500+'. *)
Theorem distance_500_falls_in_first_bin :
  exists flights,
    DelayAnalysis.enrichment example_airlines (read_csv distance_example)
    = Py.Ok flights /\
    (fun r : row => DISTANCE r) <$> DelayAnalysis.distance_frame flights 12
    = [499; 500; 2999; -5] /\
    (fun r : row => Pandas.category DelayAnalysis.labels
                      <$> DelayAnalysis.DISTANCE_BIN r)
      <$> DelayAnalysis.distance_frame flights 12
    = [Some "<500"; Some "<500"; Some "2500+"; None] /\
    DelayAnalysis.delay_by_distance_range flights 12
    = [("<500", Pandas.truediv 30 2); ("2500+", Pandas.truediv 30 1)].
Proof.
  eexists. split; [apply delay_enrichment|].
  split; [|split]; vm_compute; reflexivity.
Qed.

(** ** The theorems at concrete inputs *)

Example sched_hour_lambda_examples :
  sched_hour_lambda <$> [555; 0; 5; 2359; 2400; 12345; -5; -555]
  = [Py.Ok 5; Py.Ok 0; Py.Ok 0; Py.Ok 23; Py.Ok 24; Py.Ok 12; Py.Ok 0;
     Py.Ok (-5)].
Proof. vm_compute. reflexivity. Qed.

Example value_counts_example :
  Pandas.value_counts [Some "a"; None; Some "b"; Some "b"; Some "c"]
  = [("b", 2%nat); ("a", 1%nat); ("c", 1%nat)].
Proof. vm_compute. reflexivity. Qed.

Example groupby_example :
  Pandas.groupby (fun x : string * Z => Some x.1) [("b", 1); ("a", 2); ("b", 3)]
  = [("a", [("a", 2)]); ("b", [("b", 1); ("b", 3)])].
Proof. vm_compute. reflexivity. Qed.

Example cut_example :
  Pandas.cut DelayAnalysis.bins
    <$> [Some 499; Some 500; Some 2999; Some 3000; Some (-5); Some 0;
         Some 3001; None]
  = [Some 0; Some 0; Some 5; Some 5; None; None; None; None]%nat.
Proof. vm_compute. reflexivity. Qed.

Example day_dict_example :
  (fun d => day_dict !! d) <$> [0; 1; 7; 8; -1]
  = [None; Some "Mon"; Some "Sun"; None; None].
Proof. vm_compute. reflexivity. Qed.

(** C1 on [morning_flights]. *)
Lemma scheduled_hour_witness :
  (forall s : source, s ∈ morning_flights ->
                      0 <= SCHEDULED_DEPARTURE s <= 9999) /\
  ((exists flights,
      DelayAnalysis.enrichment example_airlines (read_csv morning_flights)
      = Py.Ok flights /\
      SCHED_HOUR <$> flights
      = (fun s => Some (SCHEDULED_DEPARTURE s / 100)) <$> morning_flights) /\
   (exists flights,
      CancelledFlights.enrichment example_airlines example_airports
        (read_csv morning_flights) = Py.Ok flights /\
      HOUR <$> flights
      = (fun s => Some (SCHEDULED_DEPARTURE s / 100)) <$> morning_flights) /\
   sched_hour_lambda 555 = Py.Ok 5).
Proof.
  assert (Hhhmm : forall s : source, s ∈ morning_flights ->
                                     0 <= SCHEDULED_DEPARTURE s <= 9999).
  { apply Forall_forall. unfold morning_flights.
    repeat apply Forall_cons_2; try apply Forall_nil_2; simpl; lia. }
  split; [exact Hhhmm|].
  exact (scheduled_hour_is_hhmm_div_100 example_airlines example_airports
           morning_flights Hhhmm).
Defined.

(** C5 on [morning_flights], enriched as the cancellations page does. *)
Lemma rate_aggregates_witness :
  let flights := cancelled_row example_airlines example_airports
                   <$> read_csv morning_flights in
  (forall r : row, r ∈ flights -> cancelled_flag r) /\
  (forall g, g ∈ CancelledFlights.cancel_day_bar flights ->
             rate_row_ok DAY_NAME flights g) /\
  (forall g, g ∈ CancelledFlights.cancel_heat flights ->
             rate_row_ok CancelledFlights.airline_day flights g) /\
  (forall g, g ∈ @CancelledFlights.cancel_rate_bar stable_argsort flights ->
             rate_row_ok ROUTE flights g).
Proof.
  cbv zeta.
  assert (Hflag : forall r : row,
            r ∈ cancelled_row example_airlines example_airports
                  <$> read_csv morning_flights -> cancelled_flag r).
  { apply Forall_forall. apply (bool_decide_unpack _). vm_compute. exact I. }
  split; [exact Hflag|].
  destruct (@rate_aggregates_in_range stable_argsort _ Hflag)
    as (Hday & Hheat & Hroute & _).
  split; [exact Hday|]. split; [exact Hheat|exact Hroute].
Defined.

(** C9 on [morning_flights] with the slider at 5. *)
Lemma missing_delay_witness :
  let flights := delay_row example_airlines <$> read_csv morning_flights in
  DelayAnalysis.enrichment example_airlines (read_csv morning_flights)
  = Py.Ok flights /\
  (forall r : row, r ∈ flights -> DEPARTURE_DELAY r = None ->
                   ON_TIME r = Some "Delayed") /\
  (forall n, ("Delayed", n) ∈ DelayAnalysis.on_time_vs_delayed flights 5 <->
     n = length (filter (fun r : row =>
                           (CANCELLED r = 0 /\ SCHED_HOUR r = Some 5) /\
                           DelayAnalysis.not_on_time (DEPARTURE_DELAY r))
                        flights) /\
     (0 < n)%nat).
Proof.
  simpl.
  assert (Henr : DelayAnalysis.enrichment example_airlines
                   (read_csv morning_flights)
                 = Py.Ok (delay_row example_airlines
                            <$> read_csv morning_flights)).
  { vm_compute. reflexivity. }
  split; [exact Henr|].
  exact (missing_delay_counts_as_delayed example_airlines _ _ 5 Henr).
Defined.

(** C10 on [morning_flights] with the slider at 12 and the stand-in
    generator. *)
Lemma hour_24_witness :
  let flights := delay_row example_airlines <$> read_csv morning_flights in
  let kept := filter (fun r : row => SCHEDULED_DEPARTURE r <> 2400) flights in
  (12 ∈ DelayAnalysis.hour_slider) /\
  (24 ∉ DelayAnalysis.hour_slider) /\
  DelayAnalysis.on_time_vs_delayed flights 12
  = DelayAnalysis.on_time_vs_delayed kept 12 /\
  @DelayAnalysis.delay_violin identity_random flights 12 tt
  = @DelayAnalysis.delay_violin identity_random kept 12 tt.
Proof.
  simpl.
  assert (Henr : DelayAnalysis.enrichment example_airlines
                   (read_csv morning_flights)
                 = Py.Ok (delay_row example_airlines
                            <$> read_csv morning_flights)).
  { vm_compute. reflexivity. }
  assert (Hhour : 12 ∈ DelayAnalysis.hour_slider).
  { unfold DelayAnalysis.hour_slider. apply elem_of_seqZ. lia. }
  destruct (@hour_24_never_selected identity_random example_airlines _ _ 12 tt
              Henr Hhour) as (_ & Hnot & _ & _ & Hviolin & _ & Hpie).
  auto.
Defined.

(** * Further properties of the callbacks *)

(** ** Sorting and counting *)

Section SortFacts.
Import Pandas.
Context {A : Type} (R : relation A) `{forall x y, Decision (R x y)}.

Lemma insert_by_HdRel `{!Total R} a x l :
  R a x -> HdRel R a l -> HdRel R a (insert_by R x l).
Proof.
  intros Hax Hal. destruct l as [|y l]; simpl; [by constructor|].
  case_decide; constructor; [done|]. by inversion Hal.
Qed.

Lemma insert_by_Sorted `{!Total R} x l :
  Sorted R l -> Sorted R (insert_by R x l).
Proof.
  induction 1 as [|y l Hl IH Hhd]; simpl; [by repeat constructor|].
  case_decide as Hxy.
  - by repeat constructor.
  - constructor; [done|]. apply insert_by_HdRel; [|done].
    by destruct (total R x y).
Qed.

Lemma sort_by_Sorted `{!Total R} l : Sorted R (sort_by R l).
Proof.
  induction l as [|x l IH]; [constructor|]. by apply insert_by_Sorted.
Qed.

Lemma sort_by_StronglySorted `{!Total R} `{!Transitive R} l :
  StronglySorted R (sort_by R l).
Proof. apply Sorted_StronglySorted; [done|]. apply sort_by_Sorted. Qed.

Lemma length_sort_by l : length (sort_by R l) = length l.
Proof. apply Permutation_length, sort_by_Permutation. Qed.

Lemma StronglySorted_lookup_lt l i j a b :
  StronglySorted R l -> (i < j)%nat -> l !! i = Some a -> l !! j = Some b ->
  R a b.
Proof.
  intros Hs Hij Hi Hj. rewrite <- (take_drop j l) in Hs.
  apply (StronglySorted_app_1_elem_of _ _ _ a b) in Hs; [done| |].
  - apply elem_of_take. eauto.
  - apply list_elem_of_lookup. exists 0%nat.
    by rewrite lookup_drop, Nat.add_0_r.
Qed.

Lemma StronglySorted_take_drop l n a b :
  StronglySorted R l -> a ∈ take n l -> b ∈ drop n l -> R a b.
Proof.
  intros Hs Ha Hb. rewrite <- (take_drop n l) in Hs.
  by apply (StronglySorted_app_1_elem_of _ _ _ a b) in Hs.
Qed.

End SortFacts.

Section CountFacts.
Import Pandas.
Context {K : Type} `{EqDecision K}.

#[local] Instance count_ge_total : Total (@count_ge K).
Proof. intros a b. unfold count_ge. lia. Qed.

#[local] Instance count_ge_trans : Transitive (@count_ge K).
Proof. intros a b c. unfold count_ge. lia. Qed.

Lemma NoDup_unique (l : list K) : NoDup (unique l).
Proof.
  induction l as [|x l IH]; simpl; [constructor|].
  constructor; [|by apply NoDup_filter].
  rewrite list_elem_of_filter. by intros [? _].
Qed.

Lemma NoDup_value_counts (col : list (option K)) :
  NoDup (value_counts col).*1.
Proof.
  unfold value_counts. rewrite sort_by_Permutation.
  rewrite <- list_fmap_compose.
  rewrite (list_fmap_ext _ id (unique (omap id col))) by done.
  rewrite list_fmap_id. apply NoDup_unique.
Qed.

Lemma value_counts_sorted (col : list (option K)) :
  StronglySorted count_ge (value_counts col).
Proof. apply sort_by_StronglySorted; apply _. Qed.

(** The number of rows of [value_counts] is the number of distinct
    values. *)
Lemma length_value_counts (col : list (option K)) :
  length (value_counts col) = length (unique (omap id col)).
Proof. unfold value_counts. by rewrite length_sort_by, length_fmap. Qed.

End CountFacts.

Section TopCounts.
Import Pandas.
Context {A : Type}.

(** [series.value_counts().head(n)] is a top-[n] count. *)
Lemma take_value_counts_top (n : nat) (cell : A -> option string)
  (rows : list A) :
  top_counts n cell rows (take n (value_counts (cell <$> rows))).
Proof.
  set (vc := value_counts (cell <$> rows)).
  assert (Hcount : forall k c, (k, c) ∈ vc ->
            c = length (filter (fun r => cell r = Some k) rows) /\ (0 < c)%nat).
  { intros k c Hin. apply elem_of_value_counts in Hin as [-> Hpos].
    rewrite count_of_cells in *. done. }
  assert (Hsub : forall x, x ∈ take n vc -> x ∈ vc).
  { intros x (i & Hi & _)%elem_of_take. by eapply list_elem_of_lookup_2. }
  unfold top_counts. split; [|split; [|split; [|split; [|split]]]].
  - rewrite length_take. lia.
  - rewrite fmap_take. eapply sublist_NoDup; [|apply sublist_take].
    apply NoDup_value_counts.
  - intros k c Hin. by apply Hcount, Hsub.
  - intros i j a b Hij Hi Hj.
    assert (Hi' : vc !! i = Some a).
    { apply lookup_take_Some in Hi. tauto. }
    assert (Hj' : vc !! j = Some b).
    { apply lookup_take_Some in Hj. tauto. }
    apply (StronglySorted_lookup_lt count_ge vc i j a b); [|done..].
    apply value_counts_sorted.
  - intros k c k' Hin Hout.
    destruct (decide (0 < length (filter (fun r => cell r = Some k') rows))%nat)
      as [Hpos|]; [|lia].
    assert (Hk' : (k', length (filter (fun r => cell r = Some k') rows)) ∈ vc).
    { apply elem_of_value_counts. by rewrite count_of_cells. }
    rewrite <- (take_drop n vc) in Hk'. apply elem_of_app in Hk' as [Hk'|Hk'].
    + destruct Hout. apply list_elem_of_fmap. by eexists (_, _).
    + apply (StronglySorted_take_drop count_ge vc n _ _
               (value_counts_sorted _) Hin Hk').
  - intros Hlt r k Hr Hk.
    assert (Hall : take n vc = vc).
    { apply take_ge. rewrite length_take in Hlt. lia. }
    rewrite Hall.
    assert (Hin : (k, length (filter (fun r => cell r = Some k) rows)) ∈ vc).
    { apply elem_of_value_counts. rewrite count_of_cells. split; [done|].
      assert (r ∈ filter (fun r => cell r = Some k) rows) as Hf
        by (by apply list_elem_of_filter).
      destruct (filter (fun r => cell r = Some k) rows);
        [by apply elem_of_nil in Hf|simpl; lia]. }
    apply list_elem_of_fmap. by eexists (_, _).
Qed.

End TopCounts.

(** ** Top-N charts *)

(** X1.  The three top-20 charts of the overview page (routes, origin
    cities, destination cities) are top counts of their column over the
    selected flights: at most 20 bars with distinct labels, each with the
    number of selected flights that carry the label, largest first, and
    nothing that is left out occurs more often than something shown. *)
Theorem overview_top_20 (flights : list row) (airline : option string) :
  top_counts 20 ROUTE (select_airline airline flights)
    (Overview.route_bar flights airline) /\
  top_counts 20 ORIGIN_CITY (select_airline airline flights)
    (Overview.origin_treemap flights airline) /\
  top_counts 20 DEST_CITY (select_airline airline flights)
    (Overview.dest_treemap flights airline).
Proof. split; [|split]; apply take_value_counts_top. Qed.

Section MoreTopCounts.
Import Pandas.

Lemma length_filter_impl {A} (P Q : A -> Prop) `{forall r, Decision (P r)}
  `{forall r, Decision (Q r)} (l : list A) :
  (forall r, r ∈ l -> P r -> Q r) ->
  (length (filter P l) <= length (filter Q l))%nat.
Proof.
  intros HPQ. rewrite <- (filter_filter_impl P Q l HPQ).
  apply length_filter.
Qed.

Lemma filter_app_length {A} (P : A -> Prop) `{forall r, Decision (P r)}
  (l1 l2 : list A) :
  length (filter P (l1 ++ l2)%list)
  = (length (filter P l1) + length (filter P l2))%nat.
Proof. by rewrite filter_app, length_app. Qed.

Lemma length_filter_fmap {A B} (f : A -> B) (P : B -> Prop)
  `{forall b, Decision (P b)} (l : list A) :
  length (filter P (f <$> l)) = length (filter (fun a => P (f a)) l).
Proof.
  induction l as [|a l IH]; [done|]. csimpl.
  rewrite !filter_cons. case_decide; simpl; by rewrite IH.
Qed.

End MoreTopCounts.

(** X2.  On the cancellations page, the top cancelled routes (15), the top
    cancelled origin airports (10) and the most cancelled aircraft (10) are
    top counts over the cancelled flights; a top airport whose code is not
    in the airport table has no city to be shown under. *)
Theorem cancelled_top_counts (airports : list Airports.row)
  (flights : list row) (details : list Details.row) :
  top_counts 15 ROUTE (filter (fun r : row => CANCELLED r = 1) flights)
    (CancelledFlights.cancel_route_bar flights) /\
  top_counts 10 (fun r : row => ORIGIN_AIRPORT r)
    (filter (fun r : row => CANCELLED r = 1) flights)
    ((fun b : string * nat * option string => b.1)
       <$> CancelledFlights.cancel_airport_bar airports flights) /\
  (forall code n city,
     (code, n, city) ∈ CancelledFlights.cancel_airport_bar airports flights ->
     code ∉ Airports.IATA_CODE <$> airports -> city = None) /\
  top_counts 10 Details.TAIL_NUMBER
    (filter (fun r : Details.row => CANCELLED r = 1) details)
    (CancelledFlights.cancelled_tail_bar details).
Proof.
  split; [apply take_value_counts_top|]. split; [|split].
  - unfold CancelledFlights.cancel_airport_bar.
    rewrite <- list_fmap_compose.
    rewrite (list_fmap_ext _ id (take 10 _)) by (by intros ? []).
    rewrite list_fmap_id. apply take_value_counts_top.
  - unfold CancelledFlights.cancel_airport_bar.
    intros code n city (c & [= -> -> ->] & _)%list_elem_of_fmap Hcode.
    by apply (Series_map_city_unknown airports (Some c.1)).
  - apply take_value_counts_top.
Qed.

(** X3.  The busiest airports chart counts every selected flight once at its
    origin and once at its destination: it is a top-10 count over the two
    code columns put end to end, a bar holds the number of departures plus
    the number of arrivals of its airport, and an airport that is not in the
    airport table is labelled with its bare code. *)
Theorem airport_bar_counts_both_ends (airports : list Airports.row)
  (flights : list row) (airline : option string) :
  top_counts 10 id
    (((fun r : row => ORIGIN_AIRPORT r) <$> select_airline airline flights)
     ++ ((fun r : row => DESTINATION_AIRPORT r)
           <$> select_airline airline flights))%list
    ((fun b => (Overview.airport_code b, Overview.airport_flights b))
       <$> Overview.airport_bar airports flights airline) /\
  (forall b, b ∈ Overview.airport_bar airports flights airline ->
     Overview.airport_flights b
     = (length (filter (fun r : row =>
                          ORIGIN_AIRPORT r = Some (Overview.airport_code b))
                       (select_airline airline flights))
        + length (filter (fun r : row =>
                            DESTINATION_AIRPORT r
                            = Some (Overview.airport_code b))
                         (select_airline airline flights)))%nat /\
     (Overview.airport_code b ∉ Airports.IATA_CODE <$> airports ->
      Overview.airport_city b = None /\
      Overview.airport_label b = Overview.airport_code b)).
Proof.
  set (df := select_airline airline flights).
  set (cells := (((fun r : row => ORIGIN_AIRPORT r) <$> df)
                 ++ ((fun r : row => DESTINATION_AIRPORT r) <$> df))%list).
  assert (Htop : top_counts 10 id cells
                   (take 10 (Pandas.value_counts (id <$> cells)))).
  { apply take_value_counts_top. }
  rewrite list_fmap_id in Htop.
  assert (Hbars : (fun b => (Overview.airport_code b, Overview.airport_flights b))
                    <$> Overview.airport_bar airports flights airline
                  = take 10 (Pandas.value_counts cells)).
  { unfold Overview.airport_bar. fold df. fold cells.
    rewrite <- list_fmap_compose.
    rewrite (list_fmap_ext _ id (take 10 _)) by (by intros ? []).
    by rewrite list_fmap_id. }
  rewrite Hbars. split; [exact Htop|].
  intros b Hb.
  assert (Hin : (Overview.airport_code b, Overview.airport_flights b)
                ∈ take 10 (Pandas.value_counts cells)).
  { rewrite <- Hbars. apply list_elem_of_fmap. eauto. }
  destruct Htop as (_ & _ & Hcount & _).
  apply Hcount in Hin as [Hn _]. split.
  - rewrite Hn. unfold cells. rewrite filter_app_length.
    by rewrite !length_filter_fmap.
  - intros Hcode. unfold Overview.airport_bar in Hb.
    apply list_elem_of_fmap in Hb as (c & -> & _).
    cbn [Overview.airport_code Overview.airport_city Overview.airport_label]
      in *.
    by rewrite (Series_map_city_unknown airports (Some c.1) Hcode).
Qed.

(** ** The market share chart *)

Section ShareFacts.
Import Pandas.
Variables (airlines : list Airlines.row) (airports : list Airports.row).

Lemma overview_airline_name df (r : row) :
  r ∈ Overview.enrichment airlines airports df ->
  AIRLINE_NAME r = Series_map (airline_map airlines) (Some (AIRLINE r)).
Proof.
  rewrite overview_enrichment. intros (r0 & -> & _)%list_elem_of_fmap.
  by destruct r0.
Qed.

Lemma airline_share_bars (flights : list row) sel :
  (fun b => (Overview.share_airline b, Overview.share_flights b))
    <$> Overview.airline_share airlines flights sel
  = value_counts (AIRLINE_NAME <$> flights).
Proof.
  unfold Overview.airline_share.
  destruct (Py.truthy sel); rewrite <- list_fmap_compose;
    rewrite (list_fmap_ext _ id (value_counts _)) by (by intros ? []);
    by rewrite list_fmap_id.
Qed.

Lemma truthy_code (code : string) :
  code <> EmptyString -> Py.truthy (Some code) = true.
Proof. intros Hne. simpl. by apply negb_true_iff, String.eqb_neq. Qed.

Lemma elem_of_airline_share (flights : list row) code b :
  code <> EmptyString ->
  b ∈ Overview.airline_share airlines flights (Some code) ->
  Overview.share_flights b
  = length (filter (fun r : row => AIRLINE_NAME r = Some (Overview.share_airline b))
                   flights) /\
  (0 < Overview.share_flights b)%nat /\
  Overview.share_highlight b
  = Some (if decide (Overview.is_selected_name airlines code
                       (Overview.share_airline b))
          then "Selected" else "Other").
Proof.
  intros Hne. unfold Overview.airline_share. rewrite (truthy_code _ Hne).
  intros ([name n] & -> & Hin)%list_elem_of_fmap. simpl.
  apply elem_of_value_counts in Hin as [-> Hpos].
  rewrite count_of_cells in *. done.
Qed.

End ShareFacts.

(** X4.  The market share chart after the enrichment of the overview page.
    The bars (airline name, number of flights) are the same whatever is
    selected; without a selection no bar is highlighted.  With a selected
    code, a bar is 'Selected' exactly when the airline table gives its name
    to that code, so at most one bar is; that bar counts at least all the
    flights of the selected code; and it exists as soon as the code has a
    name and a flight. *)
Theorem airline_share_highlights_selection
  (airlines : list Airlines.row) (airports : list Airports.row)
  (df : list row) (code : string) :
  code <> EmptyString ->
  let flights := Overview.enrichment airlines airports df in
  (forall sel sel',
     (fun b => (Overview.share_airline b, Overview.share_flights b))
       <$> Overview.airline_share airlines flights sel
     = (fun b => (Overview.share_airline b, Overview.share_flights b))
         <$> Overview.airline_share airlines flights sel') /\
  (forall b, b ∈ Overview.airline_share airlines flights None ->
             Overview.share_highlight b = None) /\
  (forall b, b ∈ Overview.airline_share airlines flights (Some code) ->
     (Overview.share_highlight b = Some "Selected" <->
      airline_map airlines !! code = Some (Some (Overview.share_airline b))) /\
     (Overview.share_highlight b = Some "Selected" ->
      (length (filter (fun r : row => AIRLINE r = code) flights)
       <= Overview.share_flights b)%nat)) /\
  (forall b1 b2,
     b1 ∈ Overview.airline_share airlines flights (Some code) ->
     b2 ∈ Overview.airline_share airlines flights (Some code) ->
     Overview.share_highlight b1 = Some "Selected" ->
     Overview.share_highlight b2 = Some "Selected" -> b1 = b2) /\
  (forall name (r : row),
     airline_map airlines !! code = Some (Some name) ->
     r ∈ flights -> AIRLINE r = code ->
     exists b, b ∈ Overview.airline_share airlines flights (Some code) /\
               Overview.share_airline b = name /\
               Overview.share_highlight b = Some "Selected").
Proof.
  intros Hne flights.
  assert (Hsel : forall b,
    b ∈ Overview.airline_share airlines flights (Some code) ->
    (Overview.share_highlight b = Some "Selected" <->
     airline_map airlines !! code = Some (Some (Overview.share_airline b)))).
  { intros b Hb.
    destruct (elem_of_airline_share airlines flights code b Hne Hb)
      as (_ & _ & ->).
    unfold Overview.is_selected_name. case_decide; split; intros; by simplify_eq. }
  assert (Hname : forall name (r : row),
    airline_map airlines !! code = Some (Some name) ->
    r ∈ flights -> AIRLINE r = code -> AIRLINE_NAME r = Some name).
  { intros name r Hmap Hr Hcode.
    rewrite (overview_airline_name airlines airports df r Hr), Hcode.
    unfold Pandas.Series_map. simpl. by rewrite Hmap. }
  split; [|split; [|split; [|split]]].
  - intros sel sel'. by rewrite !airline_share_bars.
  - unfold Overview.airline_share. simpl.
    by intros b (c & -> & _)%list_elem_of_fmap.
  - intros b Hb. split; [by apply Hsel|]. intros Hs%Hsel; [|done].
    destruct (elem_of_airline_share airlines flights code b Hne Hb)
      as (-> & _ & _).
    apply length_filter_impl. intros r Hr Hcode. by apply Hname.
  - intros b1 b2 Hb1 Hb2 Hs1 Hs2.
    pose proof (proj1 (Hsel b1 Hb1) Hs1) as Hm1.
    pose proof (proj1 (Hsel b2 Hb2) Hs2) as Hm2.
    destruct (elem_of_airline_share airlines flights code b1 Hne Hb1)
      as (Hn1 & _ & _).
    destruct (elem_of_airline_share airlines flights code b2 Hne Hb2)
      as (Hn2 & _ & _).
    destruct b1 as [a1 n1 h1], b2 as [a2 n2 h2]. simpl in *.
    rewrite Hm1 in Hm2. inversion Hm2; subst. done.
  - intros name r Hmap Hr Hcode.
    set (n := length (filter (fun r : row => AIRLINE_NAME r = Some name)
                             flights)).
    assert (Hin : (name, n) ∈ Pandas.value_counts (AIRLINE_NAME <$> flights)).
    { apply elem_of_value_counts. rewrite count_of_cells. split; [done|].
      assert (r ∈ filter (fun r : row => AIRLINE_NAME r = Some name) flights)
        as Hf by (apply list_elem_of_filter; split; [by apply Hname|done]).
      unfold n.
      destruct (filter (fun r : row => AIRLINE_NAME r = Some name) flights);
        [by apply elem_of_nil in Hf|simpl; lia]. }
    rewrite <- (airline_share_bars airlines flights (Some code)) in Hin.
    apply list_elem_of_fmap in Hin as (b & [= Hb1 Hb2] & Hb).
    exists b. split; [done|]. split; [done|].
    apply Hsel; [done|]. by rewrite <- Hb1.
Qed.

(** ** Flights by day and by month *)

Section CalendarFacts.
Import Pandas.
Variables (airlines : list Airlines.row) (airports : list Airports.row).

Lemma reindex_lookup {A} (cell : A -> option string) (rows : list A) label :
  (list_to_map (value_counts (cell <$> rows)) : gmap string nat) !! label
  = counted (length (filter (fun r => cell r = Some label) rows)).
Proof.
  unfold counted. case_decide as Hn.
  - apply not_elem_of_list_to_map_1.
    intros ([k n] & -> & Hin)%list_elem_of_fmap.
    apply elem_of_value_counts in Hin as [-> Hpos].
    rewrite count_of_cells in Hpos. simpl in Hn. lia.
  - apply elem_of_list_to_map_1; [apply NoDup_value_counts|].
    apply elem_of_value_counts. rewrite count_of_cells. lia.
Qed.

Lemma day_dict_table d name :
  day_dict !! d = Some name <-> (d, name) ∈ day_table.
Proof.
  change day_dict with (list_to_map day_table : gmap Z string).
  symmetry. apply elem_of_list_to_map. by apply (bool_decide_unpack _).
Qed.

Lemma month_dict_table m name :
  month_dict !! m = Some name <-> (m, name) ∈ month_table.
Proof.
  change month_dict with (list_to_map month_table : gmap Z string).
  symmetry. apply elem_of_list_to_map. by apply (bool_decide_unpack _).
Qed.

Lemma table_inj (table : list (Z * string)) d d' name :
  NoDup table.*2 -> (d, name) ∈ table -> (d', name) ∈ table -> d = d'.
Proof.
  intros Hnd Hd Hd'. apply list_elem_of_lookup_1 in Hd as [i Hi].
  apply list_elem_of_lookup_1 in Hd' as [j Hj].
  assert (i = j) as ->.
  { eapply NoDup_lookup; [exact Hnd| |];
      rewrite list_lookup_fmap; [by rewrite Hi|by rewrite Hj]. }
  congruence.
Qed.

Lemma overview_calendar df (r : row) :
  r ∈ Overview.enrichment airlines airports df ->
  DAY_NAME r = day_dict !! DAY_OF_WEEK r /\
  MONTH_NAME r = month_dict !! MONTH r.
Proof.
  rewrite overview_enrichment. intros (r0 & -> & _)%list_elem_of_fmap.
  by destruct r0.
Qed.

(** A reindexed count over the labels of a table whose names are distinct:
    every label gets the number of rows with its number. *)
Lemma reindex_table (dict : gmap Z string) (table : list (Z * string))
  (number : row -> Z) (name : row -> option string) (rows : list row) :
  NoDup table.*2 ->
  (forall d n, dict !! d = Some n <-> (d, n) ∈ table) ->
  (forall r, r ∈ rows -> name r = dict !! number r) ->
  Overview.reindex table.*2 (value_counts (name <$> rows))
  = (fun e : Z * string =>
       (e.2, counted (length (filter (fun r => number r = e.1) rows))))
      <$> table.
Proof.
  intros Hnd Hdict Hname. unfold Overview.reindex.
  rewrite <- list_fmap_compose. apply list_fmap_ext.
  intros _ [d n] Hin%list_elem_of_lookup_2. simpl. f_equal.
  rewrite reindex_lookup. f_equal. f_equal.
  apply filter_ext_in. intros r Hr. rewrite (Hname r Hr), Hdict. split.
  - intros Hin'. by apply (table_inj table _ _ n Hnd).
  - by intros ->.
Qed.

End CalendarFacts.

(** X5.  After the enrichment of the overview page, the flights-by-day chart
    always has the seven rows Mon .. Sun in this order and the
    flights-by-month chart the twelve rows Jan .. Dec; the row of a day (a
    month) holds the number of selected flights with that day (month)
    number, and no value when there is none.  Flights with a day number
    outside 1..7 or a month number outside 1..12 are counted nowhere. *)
Theorem calendar_charts_count_by_number
  (airlines : list Airlines.row) (airports : list Airports.row)
  (df : list row) (airline : option string) :
  let flights := Overview.enrichment airlines airports df in
  Overview.busiest_day flights airline
  = (fun e : Z * string =>
       (e.2, counted (length (filter (fun r : row => DAY_OF_WEEK r = e.1)
                                     (select_airline airline flights)))))
      <$> day_table /\
  Overview.monthly_trend flights airline
  = (fun e : Z * string =>
       (e.2, counted (length (filter (fun r : row => MONTH r = e.1)
                                     (select_airline airline flights)))))
      <$> month_table.
Proof.
  intros flights. split.
  - apply (reindex_table day_dict day_table (fun r : row => DAY_OF_WEEK r)).
    + by apply (bool_decide_unpack _).
    + apply day_dict_table.
    + intros r Hr%elem_of_select_airline.
      by apply (overview_calendar airlines airports df).
  - apply (reindex_table month_dict month_table (fun r : row => MONTH r)).
    + by apply (bool_decide_unpack _).
    + apply month_dict_table.
    + intros r Hr%elem_of_select_airline.
      by apply (overview_calendar airlines airports df).
Qed.

(** ** Groups and their sizes *)

Section GroupFacts.
Import Pandas.
Context {K : Type} `{EqDecision K}.

Lemma count_in_cons (k : K) (ks : list K) (vals : list K) :
  k ∉ ks ->
  length (filter (fun v => v ∈ k :: ks) vals)
  = (count_of k vals + length (filter (fun v => v ∈ ks) vals))%nat.
Proof.
  intros Hk. unfold count_of. induction vals as [|v vals IH]; [done|].
  rewrite !filter_cons.
  destruct (decide (v ∈ ks)) as [Hin|Hout],
    (decide (v ∈ k :: ks)) as [Hin'|Hout'],
    (decide (v = k)) as [Heq|Hne]; simpl; try lia; subst; try done.
  - destruct Hout'. by right.
  - apply elem_of_cons in Hin' as [?|?]; done.
  - destruct Hout'. left.
Qed.

Lemma sum_counts (ks vals : list K) :
  NoDup ks ->
  sum_list_with (fun k => count_of k vals) ks
  = length (filter (fun v => v ∈ ks) vals).
Proof.
  induction 1 as [|k ks Hk Hnd IH]; simpl.
  - induction vals as [|v vals IHv]; [done|].
    rewrite filter_cons, decide_False; [done|apply not_elem_of_nil].
  - by rewrite count_in_cons, IH.
Qed.

(** The counts of the distinct values add up to the number of values. *)
Lemma sum_counts_unique (vals : list K) :
  sum_list_with (fun k => count_of k vals) (unique vals) = length vals.
Proof.
  rewrite sum_counts by apply NoDup_unique. f_equal.
  induction vals as [|v vals IH]; [done|].
  rewrite filter_cons, decide_True by (apply elem_of_unique; left).
  f_equal. rewrite <- IH at 2. apply filter_ext_in.
  intros v' Hv'. rewrite !elem_of_unique, elem_of_cons. tauto.
Qed.

Lemma count_of_omap {A} (f : A -> option K) k (l : list A) :
  count_of k (omap f l) = length (filter (fun r => f r = Some k) l).
Proof. by rewrite <- omap_id_fmap, count_of_cells. Qed.

Lemma length_omap_filter {A} (f : A -> option K) (l : list A) :
  length (omap f l) = length (filter (fun r => is_Some (f r)) l).
Proof.
  induction l as [|r l IH]; [done|]. csimpl. rewrite filter_cons.
  destruct (f r) eqn:Hr; case_decide as Hd; simpl; rewrite ?IH; try done;
    destruct Hd; eauto.
Qed.

Context `{KeyLe K}.

Lemma groupby_keys {A} (key : A -> option K) (rows : list A) :
  (groupby key rows).*1 ≡ₚ unique (omap key rows).
Proof.
  unfold groupby, sort_keys. rewrite <- list_fmap_compose.
  rewrite (list_fmap_ext _ id (sort_by _ _)) by done.
  rewrite list_fmap_id. apply sort_by_Permutation.
Qed.

Lemma NoDup_groupby {A} (key : A -> option K) (rows : list A) :
  NoDup (groupby key rows).*1.
Proof. rewrite groupby_keys. apply NoDup_unique. Qed.

(** The sizes of the groups add up to the number of rows that have a key. *)
Lemma sum_group_sizes {A} (key : A -> option K) (rows : list A) :
  sum_list_with (fun g : K * list A => length g.2) (groupby key rows)
  = length (filter (fun r => is_Some (key r)) rows).
Proof.
  unfold groupby, sort_keys.
  assert (Hsum : forall ks : list K,
    sum_list_with (fun g : K * list A => length g.2)
      ((fun k => (k, filter (fun r => key r = Some k) rows)) <$> ks)
    = sum_list_with (fun k => count_of k (omap key rows)) ks).
  { induction ks as [|k ks IH]; [done|]. csimpl.
    by rewrite IH, count_of_omap. }
  rewrite Hsum, sort_by_Permutation, sum_counts_unique.
  apply length_omap_filter.
Qed.

End GroupFacts.

(** X6.  The box plot of an hour has one trace per airline name met among
    the flights of that hour that are not cancelled, in order of first
    appearance and without repetition; no trace is empty; the traces
    together hold one point for each of these flights whose airline has a
    name, and a flight whose airline code is not in the airline table is in
    no trace. *)
Theorem boxplot_traces_partition (flights : list row) (hour : Z) :
  let df := filter (fun r : row => SCHED_HOUR r = Some hour /\ CANCELLED r = 0)
                   flights in
  let traces := DelayAnalysis.update_boxplot flights hour in
  NoDup traces.*1 /\
  (forall name y, (name, y) ∈ traces ->
     y <> [] /\
     y = (fun r : row => DEPARTURE_DELAY r)
           <$> filter (fun r : row => AIRLINE_NAME r = Some name) df) /\
  (forall (r : row) name, r ∈ df -> AIRLINE_NAME r = Some name ->
     name ∈ traces.*1) /\
  sum_list_with (fun t : string * list (option Z) => length t.2) traces
  = length (filter (fun r : row => is_Some (AIRLINE_NAME r)) df).
Proof.
  intros df traces. unfold traces, DelayAnalysis.update_boxplot. fold df.
  split; [|split; [|split]].
  - rewrite <- list_fmap_compose.
    rewrite (list_fmap_ext _ id (Pandas.unique _)) by done.
    rewrite list_fmap_id. apply NoDup_unique.
  - intros name y (k & [= -> ->] & Hk)%list_elem_of_fmap. split; [|done].
    apply elem_of_unique, list_elem_of_omap in Hk as (r & Hr & Hname).
    assert (Hin : r ∈ filter (fun r : row => AIRLINE_NAME r = Some k) df)
      by (by apply list_elem_of_filter).
    destruct (filter (fun r : row => AIRLINE_NAME r = Some k) df);
      [by apply elem_of_nil in Hin|done].
  - intros r name Hr Hname. rewrite <- list_fmap_compose.
    rewrite (list_fmap_ext _ id (Pandas.unique _)) by done.
    rewrite list_fmap_id. apply elem_of_unique, list_elem_of_omap. eauto.
  - assert (Hsum : forall ks : list string,
      sum_list_with (fun t : string * list (option Z) => length t.2)
        ((fun airline =>
            (airline,
             (fun r : row => DEPARTURE_DELAY r)
               <$> filter (fun r : row => AIRLINE_NAME r = Some airline) df))
           <$> ks)
      = sum_list_with (fun k => Pandas.count_of k (omap AIRLINE_NAME df)) ks).
    { induction ks as [|k ks IH]; [done|]. csimpl.
      by rewrite IH, length_fmap, count_of_omap. }
    rewrite Hsum, sum_counts_unique. apply length_omap_filter.
Qed.

Section SizeTables.
Import Pandas.
Context {K : Type} `{EqDecision K} `{KeyLe K}.

(** A row of [groupby(key).size()]: a key that occurs, with the number of
    rows that have it. *)
Lemma elem_of_group_sizes {A} (key : A -> option K) (rows : list A) k n :
  (k, n) ∈ (fun g : K * list A => (g.1, length g.2)) <$> groupby key rows <->
  n = length (filter (fun r => key r = Some k) rows) /\ (0 < n)%nat.
Proof.
  rewrite list_elem_of_fmap. split.
  - intros ([k' g] & [= -> ->] & [Hg (r & Hr & Hk)]%elem_of_groupby).
    simpl in *. subst g. split; [done|].
    assert (Hin : r ∈ filter (fun r => key r = Some k') rows)
      by (by apply list_elem_of_filter).
    destruct (filter (fun r => key r = Some k') rows);
      [by apply elem_of_nil in Hin|simpl; lia].
  - intros [-> Hpos].
    exists (k, filter (fun r => key r = Some k) rows). split; [done|].
    apply elem_of_groupby. split; [done|]. simpl.
    destruct (filter (fun r => key r = Some k) rows) as [|r l] eqn:Hf;
      [simpl in Hpos; lia|].
    assert (Hin : r ∈ filter (fun r => key r = Some k) rows)
      by (rewrite Hf; left).
    apply list_elem_of_filter in Hin as [? ?]. eauto.
Qed.

Lemma group_sizes_keys {A} (key : A -> option K) (rows : list A) :
  ((fun g : K * list A => (g.1, length g.2)) <$> groupby key rows).*1
  = (groupby key rows).*1.
Proof. rewrite <- list_fmap_compose. by apply list_fmap_ext. Qed.

Lemma sum_sizes {A} (key : A -> option K) (rows : list A) :
  sum_list ((fun g : K * list A => (g.1, length g.2)) <$> groupby key rows).*2
  = length (filter (fun r => is_Some (key r)) rows).
Proof.
  rewrite <- sum_group_sizes, <- list_fmap_compose.
  generalize (groupby key rows). intros l.
  induction l as [|g l IH]; [done|]. csimpl. by rewrite IH.
Qed.

End SizeTables.

Section AnimatedBarFacts.
Import Pandas.

Lemma foldr_max_ge (c : nat) (col : list nat) :
  (c <= foldr Nat.max c col)%nat /\
  (forall x, x ∈ col -> (x <= foldr Nat.max c col)%nat) /\
  (foldr Nat.max c col = c \/ foldr Nat.max c col ∈ col).
Proof.
  induction col as [|y col (IHc & IHall & IHin)]; simpl.
  - split; [lia|]. split; [|by left]. by intros x ?%elem_of_nil.
  - split; [lia|]. split.
    + intros x [->|Hx]%elem_of_cons; [lia|]. specialize (IHall x Hx). lia.
    + destruct (Nat.max_spec y (foldr Nat.max c col)) as [[_ ->]|[_ ->]].
      * destruct IHin as [->|Hin]; [by left|]. right. by right.
      * right. left.
Qed.

Lemma max_count_spec (col : list nat) :
  match CancelledFlights.max_count col with
  | Some m => Z.of_nat <$> col ≠ [] /\
              (forall x, x ∈ col -> Z.of_nat x <= m) /\
              exists x, x ∈ col /\ m = Z.of_nat x
  | None => col = []
  end.
Proof.
  destruct col as [|c col]; [done|]. simpl.
  destruct (foldr_max_ge c col) as (Hc & Hall & Hin).
  split; [done|]. split.
  - intros x [->|Hx]%elem_of_cons; [lia|]. specialize (Hall x Hx). lia.
  - destruct Hin as [->|Hin]; eexists; (split; [|reflexivity]);
      [left|by right].
Qed.

End AnimatedBarFacts.

(** X7.  The cancelled-flights-per-airline chart has one bar per airline
    name met among the cancelled flights, each with the number of cancelled
    flights of that name, smallest first, whatever the sort does with equal
    counts; the bars add up to the number of cancelled flights whose airline
    has a name. *)
Theorem cancelled_bar_counts `{NumpySort} `{!LawfulSort}
  (flights : list row) :
  let cancelled := filter (fun r : row => CANCELLED r = 1) flights in
  let bars := CancelledFlights.cancelled_bar flights in
  NoDup bars.*1 /\
  (forall name n, (name, n) ∈ bars <->
     n = length (filter (fun r : row => AIRLINE_NAME r = Some name) cancelled)
     /\ (0 < n)%nat) /\
  (forall i j a b, (i < j)%nat -> bars !! i = Some a -> bars !! j = Some b ->
     (a.2 <= b.2)%nat) /\
  sum_list bars.*2
  = length (filter (fun r : row => is_Some (AIRLINE_NAME r)) cancelled).
Proof.
  intros cancelled bars. unfold bars, CancelledFlights.cancelled_bar.
  fold cancelled. split; [|split; [|split]].
  - rewrite sort_values_Permutation, group_sizes_keys. apply NoDup_groupby.
  - intros name n. rewrite elem_of_sort_values. apply elem_of_group_sizes.
  - intros i j a b Hij Hi Hj.
    pose proof (sort_values_sorted (fun b : string * nat => Some b.2) true
                  ((fun g : string * list row => (g.1, length g.2))
                     <$> Pandas.groupby AIRLINE_NAME cancelled)
                  nat_key_le_total nat_key_le_trans) as Hs.
    pose proof (StronglySorted_lookup_lt _ _ i j a b Hs Hij Hi Hj) as Hab.
    simpl in Hab. by apply Is_true_true, Nat.leb_le in Hab.
  - rewrite sort_values_Permutation. apply sum_sizes.
Qed.

(** X8.  The animated chart of cancellations has one bar per hour and
    airline name met among the cancelled flights, with the number of these
    flights; the bars add up to the cancelled flights whose airline has a
    name.  The top of the y axis is the tallest bar plus 10, so no bar is
    cut off; it is undefined exactly when there is no bar. *)
Theorem animated_bar_range (flights : list row) :
  let cancelled := filter (fun r : row => CANCELLED r = 1) flights in
  let grouped := (CancelledFlights.cancel_animated_bar flights).1 in
  let top := (CancelledFlights.cancel_animated_bar flights).2 in
  NoDup grouped.*1 /\
  (forall key n, (key, n) ∈ grouped <->
     n = length (filter (fun r : row =>
                           CancelledFlights.hour_airline r = Some key)
                        cancelled) /\ (0 < n)%nat) /\
  sum_list grouped.*2
  = length (filter (fun r : row => is_Some (CancelledFlights.hour_airline r))
                   cancelled) /\
  (top = None <-> grouped = []) /\
  (forall upper, top = Some upper ->
     (forall key n, (key, n) ∈ grouped -> Z.of_nat n + 10 <= upper) /\
     exists key n, (key, n) ∈ grouped /\ upper = Z.of_nat n + 10).
Proof.
  intros cancelled grouped top.
  unfold top, grouped, CancelledFlights.cancel_animated_bar.
  fold cancelled. simpl.
  set (table := (fun g : Z * string * list row => (g.1, length g.2))
                  <$> Pandas.groupby CancelledFlights.hour_airline cancelled).
  pose proof (max_count_spec table.*2) as Hmax.
  split; [|split; [|split; [|split]]].
  - unfold table. rewrite group_sizes_keys. apply NoDup_groupby.
  - intros key n. apply elem_of_group_sizes.
  - apply sum_sizes.
  - destruct (CancelledFlights.max_count table.*2); simpl.
    + destruct Hmax as (Hne & _). split; [done|]. intros Heq.
      by rewrite Heq in Hne.
    + apply fmap_nil_inv in Hmax. done.
  - intros upper Hup.
    destruct (CancelledFlights.max_count table.*2) as [m|]; [|done].
    simpl in Hup. inversion Hup; subst. destruct Hmax as (_ & Hall & x & Hx & ->).
    split.
    + intros key n Hin.
      assert (n ∈ table.*2) as Hn
        by (apply list_elem_of_fmap; by exists (key, n)).
      specialize (Hall n Hn). lia.
    + apply list_elem_of_fmap in Hx as ([key n] & -> & Hin). eauto.
Qed.

(** ** Sampling with a generator that permutes *)

Section LawfulSampling.
Import Py Pandas.
Context `{NumpyRandom}.

Lemma take_locs_in_range {A} (rows : list A) (locs : list nat) :
  (forall i, i ∈ locs -> (i < length rows)%nat) ->
  take_locs rows locs = Ok (omap (fun i => rows !! i) locs) /\
  length (omap (fun i => rows !! i) locs) = length locs.
Proof.
  induction locs as [|i locs IH]; intros Hrange; [done|].
  destruct IH as [IHm IHl]; [intros j Hj; apply Hrange; by right|].
  destruct (lookup_lt_is_Some_2 rows i) as [r Hr]; [apply Hrange; left|].
  unfold take_locs in *. csimpl. rewrite Hr. simpl.
  unfold mbind, Result_bind, mret, Result_ret in *.
  rewrite IHm. simpl. by rewrite IHl.
Qed.

Lemma omap_take {A B} (g : A -> option B) (l : list A) n :
  (forall x, x ∈ l -> is_Some (g x)) ->
  omap g (take n l) = take n (omap g l).
Proof.
  revert n. induction l as [|x l IH]; intros n Hall; [by destruct n|].
  destruct n as [|n]; [done|]. csimpl.
  destruct (Hall x) as [y Hy]; [left|]. rewrite Hy. simpl.
  f_equal. apply IH. intros x' Hx'. apply Hall. by right.
Qed.

(** What [choice] gives with a generator that permutes: the asked number of
    rows, none of them twice. *)
Lemma choice_take_locs `{!LawfulRandom} {A} (rows : list A) n
  (rs : RandomState) :
  (n <= length rows)%nat ->
  exists out,
    (choice rs (length rows) n).1 ≫= take_locs rows = Ok out /\
    (choice rs (length rows) n).2 = (permutation rs (length rows)).2 /\
    length out = n /\ out ⊆+ rows.
Proof.
  intros Hn. unfold choice. rewrite decide_False by lia.
  pose proof (permutation_range rs (length rows)) as Hperm.
  destruct (permutation rs (length rows)) as [p rs']. simpl in *.
  assert (Hrange : forall i, i ∈ p -> (i < length rows)%nat).
  { intros i Hi. rewrite Hperm in Hi. apply elem_of_seq in Hi. lia. }
  destruct (take_locs_in_range rows (take n p)) as [Hm Hl].
  { intros i (j & Hj & _)%elem_of_take. apply Hrange.
    by eapply list_elem_of_lookup_2. }
  exists (omap (fun i => rows !! i) (take n p)).
  unfold mbind, Result_bind. rewrite Hm.
  split; [done|]. split; [done|]. split.
  - rewrite Hl, length_take. apply Permutation_length in Hperm.
    rewrite length_seq in Hperm. lia.
  - rewrite omap_take.
    + etrans; [apply submseteq_take|]. rewrite Hperm, omap_lookup_seq. done.
    + intros i Hi. apply lookup_lt_is_Some_2. by apply Hrange.
Qed.

Lemma sample_seeded_lawful `{!LawfulRandom} {A} (rows : list A) n s
  (w : RandomState) :
  (n <= length rows)%nat ->
  exists out, sample rows n (Some s) w = (Ok out, w) /\
              length out = n /\ out ⊆+ rows.
Proof.
  intros Hn. unfold sample.
  destruct (choice_take_locs rows n (seed s) Hn) as (out & Ho & _ & Hl & Hs).
  destruct (choice (seed s) (length rows) n) as [locs rs']. simpl in Ho.
  exists out. by rewrite Ho.
Qed.

Lemma sample_global_lawful `{!LawfulRandom} {A} (rows : list A) n
  (w : RandomState) :
  (n <= length rows)%nat ->
  exists out,
    sample rows n None w = (Ok out, (permutation w (length rows)).2) /\
    length out = n /\ out ⊆+ rows.
Proof.
  intros Hn. unfold sample.
  destruct (choice_take_locs rows n w Hn) as (out & Ho & Hw & Hl & Hs).
  destruct (choice w (length rows) n) as [locs rs']. simpl in Ho, Hw.
  exists out. by rewrite Ho, Hw.
Qed.

End LawfulSampling.

(** X9.  With a generator whose permutations are rearrangements of the row
    positions, the geo-sample of [show_map] and of [cancel_map] succeeds
    exactly when at least [min(300, len(df))] rows are left after the
    coordinate filter, [df] being the frame before that filter; it then
    holds exactly that many rows, no row of the filtered frame more often
    than the frame has it, and the process-wide generator is untouched.
    Otherwise the call raises [ValueError]. *)
Theorem geo_sample_size_with_permutation `{NumpyRandom} `{!LawfulRandom}
  (airports : list Airports.row) (flights : list row)
  (airline : option string) (np_random : RandomState) :
  (let rows := Overview.show_map_rows airports flights airline in
   let n := Nat.min 300 (length (select_airline airline flights)) in
   ((n <= length rows)%nat ->
    exists sample,
      Overview.show_map_sample airports flights airline np_random
      = (Py.Ok sample, np_random) /\
      length sample = n /\ sample ⊆+ rows) /\
   ((length rows < n)%nat ->
    Overview.show_map_sample airports flights airline np_random
    = (Py.Raise Py.ValueError, np_random))) /\
  (let rows := CancelledFlights.cancel_map_rows airports flights in
   let n := Nat.min 300
              (length (filter (fun r : row => CANCELLED r = 1) flights)) in
   ((n <= length rows)%nat ->
    exists sample,
      CancelledFlights.cancel_map_sample airports flights np_random
      = (Py.Ok sample, np_random) /\
      length sample = n /\ sample ⊆+ rows) /\
   ((length rows < n)%nat ->
    CancelledFlights.cancel_map_sample airports flights np_random
    = (Py.Raise Py.ValueError, np_random))).
Proof.
  split; simpl; split.
  - intros Hn. by apply sample_seeded_lawful.
  - apply show_map_sample_raises.
  - intros Hn. by apply sample_seeded_lawful.
  - apply cancel_map_sample_raises.
Qed.

(** X10.  The violin plot of an hour, with a generator that permutes: the
    call always returns; it shows [min(1000, len(df))] of the flights of
    that hour whose delay lies between -10 and 180 minutes, none of them
    more often than the frame has it; and it advances the process-wide
    generator, so that two calls need not show the same flights. *)
Theorem delay_violin_sample `{NumpyRandom} `{!LawfulRandom}
  (flights : list row) (hour : Z) (np_random : RandomState) :
  let df := filter (fun r : row =>
                      SCHED_HOUR r = Some hour /\
                      Is_true (Pandas.between (DEPARTURE_DELAY r) (-10) 180))
                   flights in
  exists shown,
    DelayAnalysis.delay_violin flights hour np_random
    = (Py.Ok shown, (permutation np_random (length df)).2) /\
    length shown = Nat.min 1000 (length df) /\
    shown ⊆+ df /\
    forall r : row, r ∈ shown ->
      r ∈ flights /\ SCHED_HOUR r = Some hour /\
      exists d, DEPARTURE_DELAY r = Some d /\ -10 <= d <= 180.
Proof.
  intros df. unfold DelayAnalysis.delay_violin. fold df.
  destruct (sample_global_lawful df (Nat.min 1000 (length df)) np_random)
    as (shown & Hs & Hl & Hsub); [lia|].
  exists shown. split; [done|]. split; [done|]. split; [done|].
  intros r Hr. eapply elem_of_submseteq in Hr; [|exact Hsub].
  apply list_elem_of_filter in Hr as [[Hh Hb] Hr].
  split; [done|]. split; [done|].
  unfold Pandas.between in Hb. destruct (DEPARTURE_DELAY r) as [d|]; [|done].
  apply andb_prop_elim in Hb as [Hlo%bool_decide_unpack Hhi%bool_decide_unpack].
  eauto.
Qed.

(** ** Drawing a map *)

Section DrawFacts.
Import Py Pandas.
Context `{NumpyRandom}.
Variable airports : list Airports.row.

Lemma loc_isin code :
  isin_coords airports code ->
  exists rows, loc airports code = Ok rows /\ rows <> [].
Proof.
  unfold isin_coords, loc.
  intros ([c xy] & -> & Hin)%list_elem_of_fmap. simpl.
  assert (Hf : (c, xy) ∈ filter (fun p : string * (Q * Q) => p.1 = c)
                            (airport_coords airports))
    by (by apply list_elem_of_filter).
  destruct (filter _ (airport_coords airports)) as [|p l];
    [by apply elem_of_nil in Hf|].
  eexists. split; [reflexivity|done].
Qed.

Lemma loc_KeyError code :
  ~ isin_coords airports code -> loc airports code = Raise KeyError.
Proof.
  unfold isin_coords, loc. intros Hout.
  destruct (filter _ (airport_coords airports)) as [|p l] eqn:Hf; [done|].
  destruct Hout.
  assert (Hin : p ∈ filter (fun p : string * (Q * Q) => p.1 = code)
                           (airport_coords airports)) by (rewrite Hf; left).
  apply list_elem_of_filter in Hin as [<- Hin].
  apply list_elem_of_fmap. eauto.
Qed.

Lemma mapM_all_Ok {A B} (f : A -> Result B) (l : list A) :
  (forall x, x ∈ l -> exists y, f x = Ok y) ->
  exists ys, mapM f l = Ok ys /\ length ys = length l.
Proof.
  induction l as [|x l IH]; intros Hall; [by exists []|].
  destruct (Hall x) as [y Hy]; [left|].
  destruct IH as (ys & Hys & Hlen); [intros x' Hx'; apply Hall; by right|].
  exists (y :: ys). csimpl. rewrite Hy. simpl.
  unfold mbind, Result_bind, mret, Result_ret in *. rewrite Hys. simpl.
  by rewrite Hlen.
Qed.

Lemma points_codes (used : list string) (points : list (string * list (Q * Q))) :
  Forall2 (fun code p =>
             (rows ← loc airports code; mret (code, rows)) = Ok p)
          used points ->
  points.*1 = used.
Proof.
  induction 1 as [|c p used points Hp _ IH]; [done|]. csimpl.
  rewrite IH. f_equal.
  destruct (loc airports c); [|done]. simpl in Hp. by inversion Hp.
Qed.

(** Drawing rows that passed the coordinate filter never raises. *)
Lemma draw_map_Ok (sample : list (string * string)) :
  (forall od, od ∈ sample ->
     isin_coords airports od.1 /\ isin_coords airports od.2) ->
  exists fig,
    draw_map airports sample = Ok fig /\
    length (arcs fig) = length sample /\
    (airport_points fig).*1
    = unique (concat ((fun row : string * string => [row.1; row.2])
                        <$> sample)) /\
    (forall a, a ∈ arcs fig -> arc_origin a <> [] /\ arc_dest a <> []) /\
    (forall p, p ∈ airport_points fig -> p.2 <> []).
Proof.
  intros Hisin. unfold draw_map.
  set (trace := fun row : string * string =>
                  origin ← loc airports row.1;
                  dest ← loc airports row.2;
                  mret {| arc_text := row.1 ++ arrow ++ row.2;
                          arc_origin := origin; arc_dest := dest |}).
  set (point := fun code => rows ← loc airports code; mret (code, rows)).
  set (used := unique (concat ((fun row : string * string => [row.1; row.2])
                                 <$> sample))).
  assert (Htrace : forall od, od ∈ sample ->
            exists a, trace od = Ok a /\ arc_origin a <> [] /\ arc_dest a <> []).
  { intros od [Ho Hd]%Hisin. unfold trace.
    destruct (loc_isin _ Ho) as (ro & -> & ?).
    destruct (loc_isin _ Hd) as (rd & -> & ?). simpl. eauto. }
  assert (Hpoint : forall code, code ∈ used ->
            exists p, point code = Ok p /\ p.1 = code /\ p.2 <> []).
  { intros code Hc. unfold used in Hc.
    apply (proj1 (elem_of_unique _ _)) in Hc.
    apply list_elem_of_In, in_concat in Hc as (cs & Hcs & Hc).
    apply list_elem_of_In in Hcs, Hc.
    apply list_elem_of_fmap in Hcs as (od & -> & Hod).
    destruct (Hisin od Hod) as [Ho Hd]. unfold point.
    apply elem_of_cons in Hc as [->|Hc];
      [|apply list_elem_of_singleton in Hc as ->].
    - destruct (loc_isin _ Ho) as (ro & -> & ?). simpl. eauto.
    - destruct (loc_isin _ Hd) as (rd & -> & ?). simpl. eauto. }
  destruct (mapM_all_Ok trace sample) as (traces & Htr & Hlt).
  { intros od Hod. destruct (Htrace od Hod) as (a & ? & _). eauto. }
  destruct (mapM_all_Ok point used) as (points & Hpt & Hlp).
  { intros c Hc. destruct (Hpoint c Hc) as (p & ? & _). eauto. }
  rewrite Htr. simpl. rewrite Hpt. simpl.
  eexists. split; [reflexivity|]. simpl.
  apply mapM_Ok_inv in Htr, Hpt.
  split; [done|]. split; [|split].
  - by apply points_codes.
  - intros a Ha. apply list_elem_of_lookup_1 in Ha as [i Hi].
    destruct (Forall2_lookup_r _ _ _ _ _ Htr Hi) as (od & Hod & Ha).
    apply list_elem_of_lookup_2 in Hod.
    destruct (Htrace od Hod) as (a' & Ha' & ?). congruence.
  - intros p Hp. apply list_elem_of_lookup_1 in Hp as [i Hi].
    destruct (Forall2_lookup_r _ _ _ _ _ Hpt Hi) as (c & Hc & Hp).
    apply list_elem_of_lookup_2 in Hc.
    destruct (Hpoint c Hc) as (p' & Hp' & _ & ?). congruence.
Qed.

Lemma take_locs_not_KeyError {A} (rows : list A) locs :
  take_locs rows locs <> Raise KeyError.
Proof.
  unfold take_locs. induction locs as [|i locs IH]; [done|]. csimpl.
  destruct (rows !! i); [|done]. simpl.
  unfold mbind, Result_bind, mret, Result_ret in *.
  destruct (mapM _ locs) as [ys|e]; [done|]. simpl.
  intros [= ->]. by apply IH.
Qed.

Lemma sample_not_KeyError {A} (rows : list A) n s (w : RandomState) :
  (sample rows n s w).1 <> Raise KeyError.
Proof.
  assert (Hc : forall rs,
    (choice rs (length rows) n).1 ≫= take_locs rows <> Raise KeyError).
  { intros rs. unfold choice. case_decide; [done|].
    destruct (permutation rs (length rows)). simpl.
    apply take_locs_not_KeyError. }
  unfold sample. destruct s as [s|].
  - specialize (Hc (seed s)).
    by destruct (choice (seed s) (length rows) n).
  - specialize (Hc w). by destruct (choice w (length rows) n).
Qed.

End DrawFacts.

(** X11.  Whenever the geo-sample of a map callback is drawn, the map is
    drawn too: every airport of a sampled row is found in the coordinate
    lookup, so neither the loop over the arcs nor the marker trace raises
    [KeyError].  On both pages the map has one arc per sampled row and one
    marker per distinct airport of the sample, in order of first appearance
    (origin before destination, row by row). *)
Theorem map_drawn_from_every_sample `{NumpyRandom}
  (airports : list Airports.row) (flights : list row)
  (airline : option string) (np_random : RandomState) :
  (forall sample np_random',
     Overview.show_map_sample airports flights airline np_random
     = (Py.Ok sample, np_random') ->
     exists fig,
       Overview.show_map airports flights airline np_random
       = (Py.Ok fig, np_random') /\
       length (arcs fig) = length sample /\
       (airport_points fig).*1
       = Pandas.unique
           (concat ((fun row : string * string => [row.1; row.2])
                      <$> sample))) /\
  (forall sample np_random',
     CancelledFlights.cancel_map_sample airports flights np_random
     = (Py.Ok sample, np_random') ->
     exists fig,
       CancelledFlights.cancel_map airports flights np_random
       = (Py.Ok fig, np_random') /\
       length (arcs fig) = length sample /\
       length (omap CancelledFlights.endpoints sample) = length sample /\
       (airport_points fig).*1
       = Pandas.unique
           (concat ((fun row : string * string => [row.1; row.2])
                      <$> omap CancelledFlights.endpoints sample))) /\
  (Overview.show_map airports flights airline np_random).1
  <> Py.Raise Py.KeyError /\
  (CancelledFlights.cancel_map airports flights np_random).1
  <> Py.Raise Py.KeyError.
Proof.
  assert (Hshow : forall sample w',
    Overview.show_map_sample airports flights airline np_random
    = (Py.Ok sample, w') ->
    forall od, od ∈ sample ->
      isin_coords airports od.1 /\ isin_coords airports od.2).
  { intros sample w' Hs od Hod. unfold Overview.show_map_sample in Hs.
    apply (sample_subset _ _ _ _ _ _ Hs) in Hod.
    unfold Overview.show_map_rows in Hod.
    by apply list_elem_of_filter in Hod as [? _]. }
  assert (Hcancel : forall sample w',
    CancelledFlights.cancel_map_sample airports flights np_random
    = (Py.Ok sample, w') ->
    length (omap CancelledFlights.endpoints sample) = length sample /\
    forall od, od ∈ omap CancelledFlights.endpoints sample ->
      isin_coords airports od.1 /\ isin_coords airports od.2).
  { intros sample w' Hs.
    assert (Hrows : forall r : row, r ∈ sample ->
              CancelledFlights.cell_isin airports (ORIGIN_AIRPORT r) /\
              CancelledFlights.cell_isin airports (DESTINATION_AIRPORT r)).
    { intros r Hr. unfold CancelledFlights.cancel_map_sample in Hs.
      apply (sample_subset _ _ _ _ _ _ Hs) in Hr.
      unfold CancelledFlights.cancel_map_rows in Hr.
      by apply list_elem_of_filter in Hr as [? _]. }
    split.
    - clear Hs. induction sample as [|r sample IH]; [done|].
      destruct (Hrows r) as [Ho Hd]; [left|].
      csimpl. unfold CancelledFlights.endpoints at 1.
      destruct (ORIGIN_AIRPORT r); [|done].
      destruct (DESTINATION_AIRPORT r); [|done]. simpl.
      f_equal. apply IH. intros r' Hr'. apply Hrows. by right.
    - intros od (r & Hr & Hod)%list_elem_of_omap.
      destruct (Hrows r Hr) as [Ho Hd]. unfold CancelledFlights.endpoints in Hod.
      destruct (ORIGIN_AIRPORT r); [|done].
      destruct (DESTINATION_AIRPORT r); [|done].
      simpl in Hod. by inversion Hod; subst. }
  split; [|split; [|split]].
  - intros sample w' Hs.
    destruct (draw_map_Ok airports sample (Hshow sample w' Hs))
      as (fig & Hfig & Hlen & Hpts & _).
    exists fig. unfold Overview.show_map. rewrite Hs. simpl. by rewrite Hfig.
  - intros sample w' Hs. destruct (Hcancel sample w' Hs) as [Hlen Hisin].
    destruct (draw_map_Ok airports _ Hisin) as (fig & Hfig & Hl & Hpts & _).
    exists fig. unfold CancelledFlights.cancel_map. rewrite Hs. simpl.
    rewrite Hfig. split; [done|]. split; [by rewrite Hl|]. done.
  - unfold Overview.show_map.
    destruct (Overview.show_map_sample airports flights airline np_random)
      as [[sample|e] w'] eqn:Hs; simpl.
    + destruct (draw_map_Ok airports sample (Hshow sample w' eq_refl))
        as (fig & -> & _). done.
    + intros [= ->].
      apply (sample_not_KeyError
               (Overview.show_map_rows airports flights airline)
               (Nat.min 300 (length (select_airline airline flights)))
               (Some 42) np_random).
      unfold Overview.show_map_sample in Hs. by rewrite Hs.
  - unfold CancelledFlights.cancel_map.
    destruct (CancelledFlights.cancel_map_sample airports flights np_random)
      as [[sample|e] w'] eqn:Hs; simpl.
    + destruct (Hcancel sample w' eq_refl) as [_ Hisin].
      destruct (draw_map_Ok airports _ Hisin) as (fig & -> & _). done.
    + intros [= ->].
      apply (sample_not_KeyError
               (CancelledFlights.cancel_map_rows airports flights)
               (Nat.min 300
                  (length (filter (fun r : row => CANCELLED r = 1) flights)))
               (Some 42) np_random).
      unfold CancelledFlights.cancel_map_sample in Hs. by rewrite Hs.
Qed.

(** ** The hour column *)

Section HourBounds.
Import Py.

Lemma digit_of_range c d : digit_of c = Some d -> 0 <= d <= 9.
Proof.
  unfold digit_of.
  destruct (Z.leb 48 (Z.of_N (N_of_ascii c))) eqn:Hlo; [|done].
  destruct (Z.leb (Z.of_N (N_of_ascii c)) 57) eqn:Hhi; [|done].
  simpl. intros [= <-]. apply Z.leb_le in Hlo, Hhi. lia.
Qed.

Lemma is_digit_value c : is_digit c = true -> exists d, digit_of c = Some d.
Proof.
  unfold is_digit. intros Hc. apply bool_decide_eq_true in Hc as [d Hd]. eauto.
Qed.

(** The value [int] reads from the two characters of the slice. *)
Lemma int_hour_prefix_range s :
  hour_prefix s ->
  exists h, int (slice_to 2 s) = Ok h /\ -9 <= h <= 99.
Proof.
  intros (c1 & c2 & rest & -> & H2 & H1).
  assert (Hsl : slice_to 2 (String c1 (String c2 rest))
                = String c1 (String c2 EmptyString)).
  { unfold slice_to. simpl. by destruct rest. }
  rewrite Hsl. unfold int.
  destruct (is_digit_value _ H2) as [d2 Hd2].
  pose proof (digit_of_range _ _ Hd2).
  destruct H1 as [H1| ->].
  - pose proof (digit_not_sign _ H1) as Hns. unfold is_sign in Hns.
    apply orb_false_iff in Hns as [-> ->].
    destruct (is_digit_value _ H1) as [d1 Hd1].
    pose proof (digit_of_range _ _ Hd1).
    unfold unsigned_value. simpl. rewrite Hd1, Hd2.
    eexists. split; [reflexivity|]. lia.
  - simpl. rewrite Hd2. simpl. eexists. split; [reflexivity|]. lia.
Qed.

Lemma int_digit_prefix_range c1 c2 rest :
  is_digit c1 = true -> is_digit c2 = true ->
  exists h, int (slice_to 2 (String c1 (String c2 rest))) = Ok h /\
            0 <= h <= 99.
Proof.
  intros H1 H2.
  assert (Hsl : slice_to 2 (String c1 (String c2 rest))
                = String c1 (String c2 EmptyString)).
  { unfold slice_to. simpl. by destruct rest. }
  rewrite Hsl. unfold int.
  destruct (is_digit_value _ H1) as [d1 Hd1].
  destruct (is_digit_value _ H2) as [d2 Hd2].
  pose proof (digit_of_range _ _ Hd1). pose proof (digit_of_range _ _ Hd2).
  pose proof (digit_not_sign _ H1) as Hns. unfold is_sign in Hns.
  apply orb_false_iff in Hns as [-> ->].
  unfold unsigned_value. simpl. rewrite Hd1, Hd2.
  eexists. split; [reflexivity|]. lia.
Qed.

Lemma digits_zfill_digit_prefix s :
  all_digits s = true -> s <> EmptyString ->
  exists c1 c2 rest, zfill 4 s = String c1 (String c2 rest) /\
                     is_digit c1 = true /\ is_digit c2 = true.
Proof.
  intros Hs Hne. unfold zfill.
  destruct s as [|c1 s]; [done|]. simpl in Hs.
  apply andb_true_iff in Hs as [H1 Hs].
  destruct (4 <=? String.length (String c1 s))%nat eqn:Hlen.
  - apply Nat.leb_le in Hlen. simpl in Hlen.
    destruct s as [|c2 s]; [simpl in Hlen; lia|].
    simpl in Hs. apply andb_true_iff in Hs as [H2 _].
    exists c1, c2, s. auto.
  - apply Nat.leb_gt in Hlen. simpl in Hlen.
    rewrite (digit_not_sign _ H1).
    destruct s as [|c2 [|c3 s]]; simpl.
    + exists "0"%char, "0"%char, (String "0" (String c1 EmptyString)). auto.
    + exists "0"%char, "0"%char, (String c1 (String c2 EmptyString)). auto.
    + simpl in Hlen. assert (s = EmptyString) as ->.
      { destruct s; [done|]. simpl in Hlen. lia. }
      simpl. exists "0"%char, c1, (String c2 (String c3 EmptyString)). auto.
Qed.

End HourBounds.

(** X12.  Whatever integer the scheduled departure is, the hour lambda
    returns a number between -9 and 99, and a number that is not negative
    when the departure is not negative: it reads two characters, two digits
    or a minus sign and a digit.  So do the hour columns of both pages. *)
Theorem hour_column_range (airlines : list Airlines.row)
  (airports : list Airports.row) (df : list row) :
  (forall x, exists h, sched_hour_lambda x = Py.Ok h /\ -9 <= h <= 99 /\
                       (0 <= x -> 0 <= h)) /\
  (exists flights,
     DelayAnalysis.enrichment airlines df = Py.Ok flights /\
     forall r : row, r ∈ flights ->
       exists h, SCHED_HOUR r = Some h /\ -9 <= h <= 99 /\
                 (0 <= SCHEDULED_DEPARTURE r -> 0 <= h)) /\
  (exists flights,
     CancelledFlights.enrichment airlines airports df = Py.Ok flights /\
     forall r : row, r ∈ flights ->
       exists h, HOUR r = Some h /\ -9 <= h <= 99 /\
                 (0 <= SCHEDULED_DEPARTURE r -> 0 <= h)).
Proof.
  assert (Hrange : forall x, -9 <= hour_of x <= 99 /\ (0 <= x -> 0 <= hour_of x)).
  { intros x. pose proof (sched_hour_lambda_total x) as Htot.
    unfold sched_hour_lambda in *.
    destruct (str_cases x) as [[Hd Hne]|(s & Hs & Hd & Hne)].
    - destruct (digits_zfill_digit_prefix _ Hd Hne)
        as (c1 & c2 & rest & Hz & H1 & H2).
      destruct (int_digit_prefix_range c1 c2 rest H1 H2) as (h & Hh & ?).
      rewrite Hz, Hh in Htot. inversion Htot. lia.
    - destruct (int_hour_prefix_range (Py.zfill 4 (Py.str x))) as (h & Hh & ?).
      { rewrite Hs. by apply minus_zfill_prefix. }
      rewrite Hh in Htot. inversion Htot. split; [lia|]. intros Hx.
      exfalso. unfold Py.str in Hs. destruct x as [|p|p]; simpl in Hs; try lia.
      + discriminate Hs.
      + unfold NilZero.string_of_uint in Hs.
        pose proof (all_digits_uint (Pos.to_uint p)) as Hall.
        destruct (Pos.to_uint p); simpl in Hs, Hall; try discriminate Hs;
          inversion Hs; subst; discriminate Hall. }
  split; [|split].
  - intros x. exists (hour_of x). split; [apply sched_hour_lambda_total|].
    apply Hrange.
  - eexists. split; [apply delay_enrichment|].
    intros r (r0 & -> & _)%list_elem_of_fmap.
    exists (hour_of (SCHEDULED_DEPARTURE r0)). split; [by destruct r0|].
    destruct r0; apply Hrange.
  - eexists. split; [apply cancelled_enrichment|].
    intros r (r0 & -> & _)%list_elem_of_fmap.
    exists (hour_of (SCHEDULED_DEPARTURE r0)). split; [by destruct r0|].
    destruct r0; apply Hrange.
Qed.

(** ** The on-time pie over the slider *)

Section PieFacts.
Import Pandas.

(** The counts of [value_counts] add up to the number of cells that hold a
    value. *)
Lemma sum_value_counts {K} `{EqDecision K} (col : list (option K)) :
  sum_list (value_counts col).*2 = length (omap id col).
Proof.
  unfold value_counts. rewrite sort_by_Permutation.
  rewrite <- (sum_counts_unique (omap id col)).
  generalize (unique (omap id col)). intros ks.
  induction ks as [|k ks IH]; [done|]. csimpl. by rewrite IH.
Qed.

Lemma length_omap_all {A B} (f : A -> option B) (l : list A) :
  (forall r, r ∈ l -> is_Some (f r)) ->
  length (omap id (f <$> l)) = length l.
Proof.
  intros Hall. induction l as [|r l IH]; [done|]. csimpl.
  destruct (Hall r) as [y ->]; [left|]. simpl. f_equal.
  apply IH. intros r' Hr'. apply Hall. by right.
Qed.

(** Over distinct values [ks], the rows that satisfy [Q] and have their
    number among [ks] are counted once each. *)
Lemma sum_over_values {A} (Q : A -> Prop) `{forall r, Decision (Q r)}
  (g : A -> Z) (ks : list Z) (l : list A) :
  NoDup ks ->
  sum_list_with (fun k => length (filter (fun r => Q r /\ g r = k) l)) ks
  = length (filter (fun r => Q r /\ g r ∈ ks) l).
Proof.
  intros Hnd.
  assert (Hcount : forall k,
    count_of k (g <$> filter Q l)
    = length (filter (fun r => Q r /\ g r = k) l)).
  { intros k. unfold count_of.
    rewrite length_filter_fmap, list_filter_filter.
    f_equal. apply filter_ext_in. tauto. }
  assert (Hin : length (filter (fun v => v ∈ ks) (g <$> filter Q l))
                = length (filter (fun r => Q r /\ g r ∈ ks) l)).
  { rewrite length_filter_fmap, list_filter_filter.
    f_equal. apply filter_ext_in. tauto. }
  rewrite <- Hin, <- (sum_counts ks _ Hnd).
  clear Hin Hnd. induction ks as [|k ks IH]; [done|]. simpl.
  by rewrite IH, Hcount.
Qed.

Lemma sum_list_with_ext_in {A} (f g : A -> nat) (l : list A) :
  (forall x, x ∈ l -> f x = g x) -> sum_list_with f l = sum_list_with g l.
Proof.
  induction l as [|x l IH]; intros Hfg; [done|]. simpl.
  rewrite (Hfg x) by left. f_equal. apply IH. intros y Hy. apply Hfg.
  by right.
Qed.

End PieFacts.

(** X13.  The on-time pie after the enrichment of the delay page.  Its
    slices are labelled 'On Time' or 'Delayed' and add up to the flights of
    the hour that are not cancelled.  Over the 24 positions of the slider
    the pies count once each of the flights that are not cancelled and
    whose hour is between 0 and 23. *)
Theorem on_time_pies_partition (airlines : list Airlines.row)
  (df flights : list row) :
  DelayAnalysis.enrichment airlines df = Py.Ok flights ->
  (forall hour label n,
     (label, n) ∈ DelayAnalysis.on_time_vs_delayed flights hour ->
     label = "On Time" \/ label = "Delayed") /\
  (forall hour,
     sum_list (DelayAnalysis.on_time_vs_delayed flights hour).*2
     = length (filter (fun r : row =>
                         CANCELLED r = 0 /\ SCHED_HOUR r = Some hour)
                      flights)) /\
  sum_list_with
    (fun hour => sum_list (DelayAnalysis.on_time_vs_delayed flights hour).*2)
    DelayAnalysis.hour_slider
  = length (filter (fun r : row =>
                      CANCELLED r = 0 /\
                      0 <= hour_of (SCHEDULED_DEPARTURE r) <= 23)
                   flights).
Proof.
  intros Henr.
  assert (Hpie : forall hour,
    sum_list (DelayAnalysis.on_time_vs_delayed flights hour).*2
    = length (filter (fun r : row =>
                        CANCELLED r = 0 /\ SCHED_HOUR r = Some hour)
                     flights)).
  { intros hour. unfold DelayAnalysis.on_time_vs_delayed.
    rewrite sum_value_counts. apply length_omap_all.
    intros r [_ Hr]%list_elem_of_filter.
    destruct (delay_enrichment_inv _ _ _ _ Henr Hr) as [_ ->]. eauto. }
  split; [|split; [exact Hpie|]].
  - intros hour label n Hin. unfold DelayAnalysis.on_time_vs_delayed in Hin.
    apply elem_of_value_counts in Hin as [-> Hpos].
    rewrite count_of_cells in Hpos.
    destruct (filter _ (filter _ flights)) as [|r l] eqn:Hf;
      [simpl in Hpos; lia|].
    assert (Hr : r ∈ filter (fun r : row => ON_TIME r = Some label)
                   (filter (fun r : row =>
                              CANCELLED r = 0 /\ SCHED_HOUR r = Some hour)
                           flights)) by (rewrite Hf; left).
    apply list_elem_of_filter in Hr as [Hlabel Hr].
    apply list_elem_of_filter in Hr as [_ Hr].
    destruct (delay_enrichment_inv _ _ _ _ Henr Hr) as [_ Hon].
    rewrite Hon in Hlabel. inversion Hlabel.
    unfold DelayAnalysis.on_time_lambda.
    destruct (Pandas.cell_le _ _); auto.
  - rewrite (sum_list_with_ext_in _
      (fun hour => length (filter (fun r : row =>
         CANCELLED r = 0 /\ hour_of (SCHEDULED_DEPARTURE r) = hour) flights))).
    + rewrite (sum_over_values (fun r : row => CANCELLED r = 0)
                 (fun r : row => hour_of (SCHEDULED_DEPARTURE r))).
      * f_equal. apply list_filter_iff. intros r.
        unfold DelayAnalysis.hour_slider. rewrite elem_of_seqZ. lia.
      * apply NoDup_seqZ.
    + intros hour _. rewrite Hpie. f_equal. apply filter_ext_in.
      intros r Hr. destruct (delay_enrichment_inv _ _ _ _ Henr Hr) as [-> _].
      split; intros [? ?]; split; congruence.
Qed.

(** ** The pies *)

Section PieSlices.
Import Pandas.
Context {K : Type} `{Countable K}.

Lemma table_key_inj (table : list (K * string)) k k' label :
  NoDup table.*2 -> (k, label) ∈ table -> (k', label) ∈ table -> k = k'.
Proof.
  intros Hnd Hk Hk'. apply list_elem_of_lookup_1 in Hk as [i Hi].
  apply list_elem_of_lookup_1 in Hk' as [j Hj].
  assert (i = j) as ->.
  { eapply NoDup_lookup; [exact Hnd| |];
      rewrite list_lookup_fmap; [by rewrite Hi|by rewrite Hj]. }
  congruence.
Qed.

(** A slice with a label of the dict holds the count of the one value that
    the dict maps to this label. *)
Lemma labelled_slice (table : list (K * string)) (col : list (option K))
  k label n :
  NoDup table.*1 -> NoDup table.*2 -> (k, label) ∈ table ->
  (Some label, n)
    ∈ (fun c : K * nat => ((list_to_map table : gmap K string) !! c.1, c.2))
        <$> value_counts col <->
  n = count_of k (omap id col) /\ (0 < n)%nat.
Proof.
  intros Hnd1 Hnd2 Hk. rewrite <- elem_of_value_counts, list_elem_of_fmap.
  split.
  - intros ([k' n'] & [= Hl ->] & Hin). simpl in Hl. symmetry in Hl.
    apply elem_of_list_to_map in Hl; [|done].
    by rewrite (table_key_inj table k k' label Hnd2 Hk Hl).
  - intros Hin. exists (k, n). split; [|done]. simpl. f_equal.
    symmetry. by apply elem_of_list_to_map.
Qed.

(** A slice without a label holds the count of a value that the dict does
    not know. *)
Lemma unlabelled_slice (table : list (K * string)) (col : list (option K)) n :
  (None, n)
    ∈ (fun c : K * nat => ((list_to_map table : gmap K string) !! c.1, c.2))
        <$> value_counts col <->
  exists k, (k ∉ table.*1) /\ n = count_of k (omap id col) /\ (0 < n)%nat.
Proof.
  rewrite list_elem_of_fmap. split.
  - intros ([k n'] & [= Hl ->] & Hin). simpl in Hl. symmetry in Hl.
    apply not_elem_of_list_to_map in Hl.
    apply elem_of_value_counts in Hin. eauto.
  - intros (k & Hk & Hn). exists (k, n). split.
    + simpl. f_equal. symmetry. by apply not_elem_of_list_to_map.
    + by apply elem_of_value_counts.
Qed.

Lemma sum_slices {L} (f : K -> L) (col : list (option K)) :
  sum_list ((fun c : K * nat => (f c.1, c.2)) <$> value_counts col).*2
  = length (omap id col).
Proof.
  rewrite <- sum_value_counts, <- list_fmap_compose.
  f_equal.
Qed.

End PieSlices.

(** X14.  The pie of cancelled and completed flights: the slice 'Cancelled'
    holds the number of flights whose flag is 1, the slice 'Completed' the
    number of those whose flag is 0, each present only when that number is
    not zero; a slice without a label appears exactly when some flight has
    another flag; the slices add up to the number of flights.

    The pie of cancellation reasons: each of the labels Airline, Weather,
    NAS and Security holds the number of cancelled flights with the reason
    code A, B, C or D; a slice without a label appears exactly when a
    cancelled flight has another code; the slices add up to the cancelled
    flights that have a code. *)
Theorem pies_count_by_code (flights : list row) (details : list Details.row) :
  (forall flag label n, (flag, label) ∈ cancelled_table ->
     ((Some label, n) ∈ CancelledFlights.cancelled_pie flights <->
      n = length (filter (fun r : row => CANCELLED r = flag) flights) /\
      (0 < n)%nat)) /\
  ((exists n, (None, n) ∈ CancelledFlights.cancelled_pie flights) <->
   exists r : row, r ∈ flights /\ ~ cancelled_flag r) /\
  sum_list (CancelledFlights.cancelled_pie flights).*2 = length flights /\
  (forall code label n, (code, label) ∈ reason_table ->
     ((Some label, n) ∈ CancelledFlights.cancel_reason_pie details <->
      n = length (filter (fun r : Details.row =>
                            Details.CANCELLATION_REASON r = Some code)
                         (filter (fun r : Details.row => CANCELLED r = 1)
                                 details)) /\
      (0 < n)%nat)) /\
  ((exists n, (None, n) ∈ CancelledFlights.cancel_reason_pie details) <->
   exists (r : Details.row) code,
     r ∈ details /\ CANCELLED r = 1 /\
     Details.CANCELLATION_REASON r = Some code /\
     code ∉ reason_table.*1) /\
  sum_list (CancelledFlights.cancel_reason_pie details).*2
  = length (filter (fun r : Details.row =>
                      is_Some (Details.CANCELLATION_REASON r))
                   (filter (fun r : Details.row => CANCELLED r = 1) details)).
Proof.
  unfold CancelledFlights.cancelled_pie, CancelledFlights.cancel_reason_pie.
  change CancelledFlights.cancelled_names
    with (list_to_map cancelled_table : gmap Z string).
  change CancelledFlights.reason_map
    with (list_to_map reason_table : gmap string string).
  split; [|split; [|split; [|split; [|split]]]].
  - intros flag label n Hin.
    rewrite (labelled_slice cancelled_table _ flag label n); [|..|done];
      try (by apply (bool_decide_unpack _)).
    rewrite count_of_cells. apply and_iff_compat_r.
    assert (Hf : filter (fun r : row => Some (CANCELLED r) = Some flag) flights
                 = filter (fun r : row => CANCELLED r = flag) flights).
    { apply filter_ext_in. intros r _. split; congruence. }
    by rewrite Hf.
  - split.
    + intros [n (flag & Hflag & -> & Hpos)%unlabelled_slice].
      rewrite count_of_cells in Hpos.
      destruct (filter _ flights) as [|r l] eqn:Hf; [simpl in Hpos; lia|].
      assert (Hr : r ∈ filter (fun r : row => Some (CANCELLED r) = Some flag)
                              flights) by (rewrite Hf; left).
      apply list_elem_of_filter in Hr as [[= Hr] Hin].
      exists r. split; [done|]. unfold cancelled_flag. rewrite Hr.
      intros [->| ->]; apply Hflag; [right; left|left].
    + intros (r & Hr & Hflag).
      exists (length (filter (fun r' : row =>
                                Some (CANCELLED r') = Some (CANCELLED r))
                             flights)).
      apply unlabelled_slice. exists (CANCELLED r). split; [|split].
      * unfold cancelled_flag in Hflag.
        intros [Hf|[Hf|Hf%elem_of_nil]%elem_of_cons]%elem_of_cons; [| |done];
          simpl in Hf; lia.
      * by rewrite count_of_cells.
      * assert (Hin : r ∈ filter (fun r' : row =>
                                    Some (CANCELLED r') = Some (CANCELLED r))
                                 flights) by (by apply list_elem_of_filter).
        destruct (filter _ flights); [by apply elem_of_nil in Hin|simpl; lia].
  - rewrite (sum_slices
               (fun k => (list_to_map cancelled_table : gmap Z string) !! k)).
    apply length_omap_all. eauto.
  - intros code label n Hin.
    rewrite (labelled_slice reason_table _ code label n); [|..|done];
      try (by apply (bool_decide_unpack _)).
    by rewrite count_of_cells.
  - split.
    + intros [n (code & Hcode & -> & Hpos)%unlabelled_slice].
      rewrite count_of_cells in Hpos.
      destruct (filter _ (filter _ details)) as [|r l] eqn:Hf;
        [simpl in Hpos; lia|].
      assert (Hr : r ∈ filter (fun r : Details.row =>
                                 Details.CANCELLATION_REASON r = Some code)
                     (filter (fun r : Details.row => CANCELLED r = 1) details))
        by (rewrite Hf; left).
      apply list_elem_of_filter in Hr as [Hreason Hr].
      apply list_elem_of_filter in Hr as [Hc Hr].
      exists r, code. done.
    + intros (r & code & Hr & Hc & Hreason & Hcode).
      exists (length (filter (fun r : Details.row =>
                                Details.CANCELLATION_REASON r = Some code)
                        (filter (fun r : Details.row => CANCELLED r = 1)
                                details))).
      apply unlabelled_slice. exists code. split; [done|].
      rewrite count_of_cells. split; [done|].
      assert (Hin : r ∈ filter (fun r : Details.row =>
                                  Details.CANCELLATION_REASON r = Some code)
                      (filter (fun r : Details.row => CANCELLED r = 1) details)).
      { apply list_elem_of_filter. split; [done|].
        by apply list_elem_of_filter. }
      destruct (filter _ (filter _ details));
        [by apply elem_of_nil in Hin|simpl; lia].
  - rewrite (sum_slices
               (fun k => (list_to_map reason_table : gmap string string) !! k)).
    rewrite omap_id_fmap. apply length_omap_filter.
Qed.

(** ** Delay causes *)

Section CauseFacts.
Import Pandas.
Variable df : list Details.row.

Lemma melt_col_filter c name cause :
  DelayAnalysis.melted_minutes
    <$> filter (fun m => DelayAnalysis.airline_cause m = Some (name, cause))
               (melt_col df c)
  = if decide (c.1 = cause)
    then c.2 <$> filter (fun r : Details.row => AIRLINE_NAME r = Some name) df
    else [].
Proof.
  unfold melt_col. destruct (decide (c.1 = cause)) as [Hc|Hc].
  - induction df as [|r l IH]; [done|].
    csimpl. rewrite !filter_cons.
    unfold DelayAnalysis.airline_cause at 1. simpl.
    destruct (AIRLINE_NAME r) as [n|] eqn:Hn; simpl;
      repeat case_decide; simplify_eq/=; try done; by rewrite IH.
  - induction df as [|r l IH]; [done|].
    csimpl. rewrite !filter_cons.
    unfold DelayAnalysis.airline_cause at 1. simpl.
    destruct (AIRLINE_NAME r) as [n|] eqn:Hn; simpl;
      repeat case_decide; simplify_eq/=; try done.
Qed.

Lemma melt_filter_absent (cols : list (string * (Details.row -> option Z)))
  name cause :
  cause ∉ cols.*1 ->
  filter (fun m => DelayAnalysis.airline_cause m = Some (name, cause))
         (cols ≫= melt_col df) = [].
Proof.
  induction cols as [|c cols IH]; [done|]. csimpl.
  intros [Hc Hcols]%not_elem_of_cons. rewrite filter_app, IH by done.
  rewrite app_nil_r.
  pose proof (melt_col_filter c name cause) as Hf.
  rewrite decide_False in Hf by done. by apply fmap_nil_inv in Hf.
Qed.

Lemma melt_filter_col (cols : list (string * (Details.row -> option Z)))
  name cause col :
  NoDup cols.*1 -> (cause, col) ∈ cols ->
  DelayAnalysis.melted_minutes
    <$> filter (fun m => DelayAnalysis.airline_cause m = Some (name, cause))
               (cols ≫= melt_col df)
  = col <$> filter (fun r : Details.row => AIRLINE_NAME r = Some name) df.
Proof.
  induction cols as [|c cols IH]; intros Hnd Hin; [by apply elem_of_nil in Hin|].
  csimpl in *. apply NoDup_cons in Hnd as [Hc Hnd].
  rewrite filter_app, fmap_app, melt_col_filter.
  apply elem_of_cons in Hin as [<-|Hin].
  - simpl. rewrite decide_True by done.
    rewrite melt_filter_absent by done. by rewrite app_nil_r.
  - rewrite decide_False.
    + by apply IH.
    + intros Heq. apply Hc. rewrite Heq.
      apply list_elem_of_fmap. by exists (cause, col).
Qed.

End CauseFacts.

(** X15.  The chart of delay causes uses only the flights that have an
    airline name and all five cause columns recorded.  It has a bar for an
    airline and a cause exactly when the cause is one of the five and the
    airline has such a flight; the bar is the mean of that cause over these
    flights of the airline, and it is a number.  So an airline with one
    fully recorded flight gets all five bars, each over the same flights. *)
Theorem cause_bars_are_means (details : list Details.row) :
  let df := filter DelayAnalysis.all_causes_recorded details in
  forall name cause m,
    ((name, cause), m) ∈ DelayAnalysis.delay_cause_bar details <->
    exists col,
      (cause, col) ∈ DelayAnalysis.cause_cols /\
      (exists r : Details.row, r ∈ df /\ AIRLINE_NAME r = Some name) /\
      m = Pandas.mean
            (col <$> filter (fun r : Details.row => AIRLINE_NAME r = Some name)
                            df) /\
      is_Some m.
Proof.
  intros df name cause m.
  assert (Hnd : NoDup DelayAnalysis.cause_cols.*1)
    by (by apply (bool_decide_unpack _)).
  assert (Hsome : forall col (r : Details.row),
    (cause, col) ∈ DelayAnalysis.cause_cols -> r ∈ df ->
    AIRLINE_NAME r = Some name ->
    is_Some (Pandas.mean
               (col <$> filter (fun r : Details.row =>
                                  AIRLINE_NAME r = Some name) df))).
  { intros col r Hcol Hr Hname.
    set (rows := filter (fun r : Details.row => AIRLINE_NAME r = Some name) df).
    assert (Hall : forall r' : Details.row, r' ∈ rows -> is_Some (col r')).
    { intros r' [_ Hr']%list_elem_of_filter.
      apply list_elem_of_filter in Hr' as [[_ Hrec] _].
      rewrite Forall_forall in Hrec. apply (Hrec (cause, col) Hcol). }
    assert (Hin : r ∈ rows) by (by apply list_elem_of_filter).
    unfold Pandas.mean, Pandas.truediv.
    rewrite (length_omap_all col rows Hall).
    destruct rows; [by apply elem_of_nil in Hin|].
    rewrite decide_False by (simpl; lia). eauto. }
  unfold DelayAnalysis.delay_cause_bar. fold df.
  change (DelayAnalysis.melt df)
    with (DelayAnalysis.cause_cols ≫= melt_col df).
  rewrite list_elem_of_fmap. split.
  - intros ([key g] & [= <- ->] & [Hg (mr & Hmr & Hkey)]%elem_of_groupby).
    cbn [fst snd] in *. subst g.
    apply list_elem_of_bind in Hmr as (c & Hmr & Hc).
    apply list_elem_of_fmap in Hmr as (r & -> & Hr).
    destruct c as [cause' col].
    unfold DelayAnalysis.airline_cause in Hkey. simpl in Hkey.
    destruct (AIRLINE_NAME r) as [n|] eqn:Hn; [|done]. simpl in Hkey.
    assert (n = name) as -> by congruence.
    assert (cause' = cause) as -> by congruence.
    exists col. split; [done|]. split; [eauto|].
    rewrite (melt_filter_col df _ name cause col Hnd Hc).
    split; [done|]. by apply (Hsome col r).
  - intros (col & Hcol & (r & Hr & Hname) & -> & _).
    exists ((name, cause),
            filter (fun m => DelayAnalysis.airline_cause m = Some (name, cause))
                   (DelayAnalysis.cause_cols ≫= melt_col df)).
    split.
    + cbn [fst snd]. by rewrite (melt_filter_col df _ name cause col Hnd Hcol).
    + apply elem_of_groupby. split; [done|]. cbn [fst snd].
      eexists. split.
      * apply list_elem_of_bind. exists (cause, col). split; [|done].
        apply list_elem_of_fmap. exists r. split; [reflexivity|done].
      * unfold DelayAnalysis.airline_cause. simpl. by rewrite Hname.
Qed.

(** ** The reference lookups *)

Section LookupFacts.
Import Py.

Lemma foldl_insert_other {V} (kvs : list (string * V)) (m : gmap string V) k :
  k ∉ kvs.*1 ->
  foldl (fun m kv => <[kv.1 := kv.2]> m) m kvs !! k = m !! k.
Proof.
  revert m. induction kvs as [|[k' v] kvs IH]; intros m Hk; [done|].
  csimpl in *. apply not_elem_of_cons in Hk as [Hne Hk].
  rewrite IH by done. by rewrite lookup_insert_ne.
Qed.

(** A dict built from pairs holds, for a key, the value of the last pair
    with that key, and nothing for a key of no pair. *)
Lemma dict_of_zip_last {V} (kvs1 kvs2 : list (string * V)) k v :
  k ∉ kvs2.*1 -> dict_of_zip (kvs1 ++ (k, v) :: kvs2) !! k = Some v.
Proof.
  intros Hk. unfold dict_of_zip. rewrite foldl_app. simpl.
  rewrite foldl_insert_other by done. apply lookup_insert_eq.
Qed.

Lemma last_pair_of_key {V} (kvs : list (string * V)) k :
  k ∈ kvs.*1 ->
  exists l1 v l2, kvs = (l1 ++ (k, v) :: l2)%list /\ k ∉ l2.*1.
Proof.
  induction kvs as [|[k2 v2] kvs IH]; csimpl; intros Hin.
  - by apply elem_of_nil in Hin.
  - destruct (decide (k ∈ kvs.*1)) as [Hk|Hk].
    + destruct (IH Hk) as (l1 & v & l2 & -> & Hout).
      by exists ((k2, v2) :: l1), v, l2.
    + apply elem_of_cons in Hin as [->|Hin]; [|done].
      by exists [], v2, kvs.
Qed.

Lemma dict_of_zip_None {V} (kvs : list (string * V)) k :
  dict_of_zip kvs !! k = None <-> k ∉ kvs.*1.
Proof.
  split.
  - intros Hnone Hin.
    apply last_pair_of_key in Hin as (l1 & v & l2 & -> & Hout).
    by rewrite dict_of_zip_last in Hnone.
  - intros Hk. unfold dict_of_zip. rewrite foldl_insert_other by done.
    apply lookup_empty.
Qed.

End LookupFacts.

(** X16.  The reference lookups.  The city and airline dicts hold nothing
    for a code that is in no row of their table and, for a code that is, the
    cell of the last row with that code.  An airport is in the coordinate
    lookup exactly when some row with its code has both a latitude and a
    longitude; [loc] finds at least one coordinate row for such an airport
    and raises [KeyError] for any other code. *)
Theorem reference_lookups (airlines : list Airlines.row)
  (airports : list Airports.row) (code : string) :
  (city_map airports !! code = None <->
   code ∉ Airports.IATA_CODE <$> airports) /\
  (airline_map airlines !! code = None <->
   code ∉ Airlines.IATA_CODE <$> airlines) /\
  (forall before a after,
     airports = (before ++ a :: after)%list ->
     Airports.IATA_CODE a ∉ Airports.IATA_CODE <$> after ->
     city_map airports !! Airports.IATA_CODE a = Some (Airports.CITY a)) /\
  (forall before a after,
     airlines = (before ++ a :: after)%list ->
     Airlines.IATA_CODE a ∉ Airlines.IATA_CODE <$> after ->
     airline_map airlines !! Airlines.IATA_CODE a
     = Some (Airlines.AIRLINE a)) /\
  (isin_coords airports code <->
   exists a, a ∈ airports /\ Airports.IATA_CODE a = code /\
             is_Some (Airports.LATITUDE a) /\
             is_Some (Airports.LONGITUDE a)) /\
  (isin_coords airports code ->
   exists rows, loc airports code = Py.Ok rows /\ rows <> []) /\
  (~ isin_coords airports code -> loc airports code = Py.Raise Py.KeyError).
Proof.
  split; [|split; [|split; [|split; [|split; [|split]]]]].
  - unfold city_map. rewrite dict_of_zip_None, <- list_fmap_compose. done.
  - unfold airline_map. rewrite dict_of_zip_None, <- list_fmap_compose. done.
  - intros before a after -> Hlast. unfold city_map.
    rewrite fmap_app, fmap_cons. apply dict_of_zip_last.
    by rewrite <- list_fmap_compose.
  - intros before a after -> Hlast. unfold airline_map.
    rewrite fmap_app, fmap_cons. apply dict_of_zip_last.
    by rewrite <- list_fmap_compose.
  - unfold isin_coords, airport_coords. rewrite list_elem_of_fmap. split.
    + intros ([c xy] & -> & (a & Ha & Hxy)%list_elem_of_omap).
      exists a. destruct (Airports.LATITUDE a), (Airports.LONGITUDE a);
        simplify_eq/=. eauto.
    + intros (a & Ha & <- & [lat Hlat] & [lon Hlon]).
      exists (Airports.IATA_CODE a, (lat, lon)). split; [done|].
      apply list_elem_of_omap. exists a. split; [done|].
      by rewrite Hlat, Hlon.
  - apply loc_isin.
  - apply loc_KeyError.
Qed.

(** ** The distance bins *)

Section DistanceFacts.
Import Py Pandas.

Lemma DISTANCE_BIN_Some (r : row) (c : nat) :
  DelayAnalysis.DISTANCE_BIN r = Some c <->
  (c < 6)%nat /\ 500 * Z.of_nat c < DISTANCE r <= 500 * (Z.of_nat c + 1).
Proof.
  unfold DelayAnalysis.DISTANCE_BIN, cut, searchsorted_left,
    DelayAnalysis.bins.
  cbn [mbind option_bind]. rewrite !filter_cons, filter_nil.
  repeat case_decide; simpl in *; (split; [intros [= <-]|intros [??]]);
    try lia; try (f_equal; lia).
Qed.

Lemma DISTANCE_BIN_None (r : row) :
  DelayAnalysis.DISTANCE_BIN r = None <->
  DISTANCE r <= 0 \/ 3000 < DISTANCE r.
Proof.
  unfold DelayAnalysis.DISTANCE_BIN, cut, searchsorted_left,
    DelayAnalysis.bins.
  cbn [mbind option_bind]. rewrite !filter_cons, filter_nil.
  repeat case_decide; simpl in *; split; try done; lia.
Qed.

#[local] Instance nat_key_total : Total (@key_le_rel nat _).
Proof.
  intros a b. unfold key_le_rel, key_le, nat_KeyLe.
  rewrite !Is_true_true, !Nat.leb_le. lia.
Qed.

#[local] Instance nat_key_trans : Transitive (@key_le_rel nat _).
Proof.
  intros a b c. unfold key_le_rel, key_le, nat_KeyLe.
  rewrite !Is_true_true, !Nat.leb_le. lia.
Qed.

Lemma sort_keys_increasing (l : list nat) :
  NoDup l -> StronglySorted lt (sort_keys l).
Proof.
  intros Hnd.
  assert (Hsorted : StronglySorted key_le_rel (sort_keys l)).
  { unfold sort_keys. apply sort_by_StronglySorted; apply _. }
  assert (Hnd' : NoDup (sort_keys l)).
  { unfold sort_keys. by rewrite sort_by_Permutation. }
  induction Hsorted as [|a l' Hl' IH Hall]; [constructor|].
  apply NoDup_cons in Hnd' as [Ha Hnd']. constructor; [by apply IH|].
  apply Forall_forall. intros b Hb.
  rewrite Forall_forall in Hall. specialize (Hall b Hb).
  unfold key_le_rel, key_le, nat_KeyLe in Hall.
  apply Is_true_true, Nat.leb_le in Hall.
  assert (a <> b) by (intros ->; done). lia.
Qed.

End DistanceFacts.

(** X17.  The bars of the distance chart.  A flight falls into bin [c]
    (0..5) exactly when its distance is above [500 c] and at most
    [500 (c + 1)], and into no bin when its distance is at most 0 or above
    3000.  The chart has one bar for each bin that holds a flight of the
    hour that is not cancelled and shorter than 3000, in the order of the
    bins, labelled with the label of the bin, whose height is the mean
    delay of the flights of the bin. *)
Theorem distance_bars_by_bin (flights : list row) (hour : Z) :
  let df := DelayAnalysis.distance_frame flights hour in
  (forall (r : row) (c : nat),
     DelayAnalysis.DISTANCE_BIN r = Some c <->
     (c < 6)%nat /\
     500 * Z.of_nat c < DISTANCE r <= 500 * (Z.of_nat c + 1)) /\
  (forall r : row,
     DelayAnalysis.DISTANCE_BIN r = None <->
     DISTANCE r <= 0 \/ 3000 < DISTANCE r) /\
  exists codes : list nat,
    StronglySorted lt codes /\
    (forall c, c ∈ codes <->
       exists r : row, r ∈ df /\
         500 * Z.of_nat c < DISTANCE r <= 500 * (Z.of_nat c + 1)) /\
    (forall c, c ∈ codes ->
       DelayAnalysis.labels !! c
       = Some (Pandas.category DelayAnalysis.labels c)) /\
    DelayAnalysis.delay_by_distance_range flights hour
    = (fun c : nat =>
         (Pandas.category DelayAnalysis.labels c,
          Pandas.mean
            ((fun r : row => DEPARTURE_DELAY r)
               <$> filter (fun r : row =>
                             500 * Z.of_nat c < DISTANCE r
                             <= 500 * (Z.of_nat c + 1)) df)))
        <$> codes.
Proof.
  intros df. split; [apply DISTANCE_BIN_Some|].
  split; [apply DISTANCE_BIN_None|].
  set (codes := Pandas.sort_keys
                  (Pandas.unique (omap DelayAnalysis.DISTANCE_BIN df))).
  assert (Hcodes : forall c, c ∈ codes <->
            exists r : row, r ∈ df /\ DelayAnalysis.DISTANCE_BIN r = Some c).
  { intros c. unfold codes, Pandas.sort_keys.
    rewrite elem_of_sort_by, elem_of_unique, list_elem_of_omap. done. }
  assert (Hsmall : forall c, c ∈ codes -> (c < 6)%nat).
  { intros c (r & _ & Hr)%Hcodes. apply DISTANCE_BIN_Some in Hr. tauto. }
  assert (Hfar : forall r : row, r ∈ df -> DISTANCE r < 3000).
  { intros r Hr. apply list_elem_of_filter in Hr. tauto. }
  exists codes. split; [|split; [|split]].
  - apply sort_keys_increasing, NoDup_unique.
  - intros c. rewrite Hcodes. split.
    + intros (r & Hr & Hbin). exists r. split; [done|].
      apply DISTANCE_BIN_Some in Hbin. tauto.
    + intros (r & Hr & Hd). exists r. split; [done|].
      apply DISTANCE_BIN_Some. split; [|done].
      specialize (Hfar r Hr). lia.
  - intros c Hc. specialize (Hsmall c Hc).
    do 6 (destruct c as [|c]; [done|]). lia.
  - unfold DelayAnalysis.delay_by_distance_range, Pandas.groupby.
    fold df. fold codes. rewrite <- list_fmap_compose.
    apply list_fmap_ext. intros i c Hi. simpl. do 3 f_equal.
    apply filter_ext_in. intros r Hr. rewrite DISTANCE_BIN_Some.
    apply list_elem_of_lookup_2, Hsmall in Hi. tauto.
Qed.

(** ** Tables of mean delays *)

Section MeanFacts.
Import Py Pandas.

Lemma sum_Z_bounds (vals : list Z) (lo hi : Z) :
  (forall d, d ∈ vals -> lo <= d <= hi) ->
  lo * Z.of_nat (length vals) <= sum_Z vals <= hi * Z.of_nat (length vals).
Proof.
  induction vals as [|d vals IH]; intros Hall; [simpl; lia|].
  assert (Hd : lo <= d <= hi) by (apply Hall; left).
  assert (Hvals : lo * Z.of_nat (length vals) <= sum_Z vals
                  <= hi * Z.of_nat (length vals)).
  { apply IH. intros d' Hd'. apply Hall. by right. }
  unfold sum_Z in *. simpl. nia.
Qed.

(** The mean is missing exactly when no cell is recorded. *)
Lemma mean_None (col : list (option Z)) :
  mean col = None <-> forall x, x ∈ col -> x = None.
Proof.
  unfold mean, truediv. case_decide as Hlen; split; try done.
  - intros _ x Hx. destruct x as [d|]; [|done].
    assert (Hd : d ∈ omap id col) by (apply list_elem_of_omap; eauto).
    destruct (omap id col); [by apply elem_of_nil in Hd|simpl in Hlen; lia].
  - intros Hall. destruct (omap id col) as [|d vals] eqn:Hvals;
      [simpl in Hlen; lia|].
    assert (Hd : d ∈ omap id col) by (rewrite Hvals; left).
    apply list_elem_of_omap in Hd as (x & Hx & Hd). simpl in Hd. subst x.
    by apply Hall in Hx.
Qed.

(** A mean lies between any two bounds of the recorded cells. *)
Lemma mean_bounds (col : list (option Z)) (lo hi : Z) (q : Q) :
  (forall d, Some d ∈ col -> lo <= d <= hi) ->
  mean col = Some q -> (inject_Z lo <= q)%Q /\ (q <= inject_Z hi)%Q.
Proof.
  intros Hall. unfold mean, truediv. case_decide as Hlen; [done|].
  intros [= <-].
  assert (Hsum : lo * Z.of_nat (length (omap id col))
                 <= sum_Z (omap id col)
                 <= hi * Z.of_nat (length (omap id col))).
  { apply sum_Z_bounds. intros d (x & Hx & Hd)%list_elem_of_omap.
    simpl in Hd. subst x. by apply Hall. }
  assert (Hpos : (0 < inject_Z (Z.of_nat (length (omap id col))))%Q).
  { change 0%Q with (inject_Z 0). rewrite <- Zlt_Qlt. lia. }
  split.
  - apply Qle_shift_div_l; [done|].
    rewrite <- inject_Z_mult, <- Zle_Qle. lia.
  - apply Qle_shift_div_r; [done|].
    rewrite <- inject_Z_mult, <- Zle_Qle. lia.
Qed.

Lemma elem_of_group_means {K A} `{EqDecision K} `{KeyLe K}
  (key : A -> option K) (col : A -> option Z) (rows : list A) k m :
  (k, m) ∈ (fun g : K * list A => (g.1, mean (col <$> g.2)))
             <$> groupby key rows <->
  (exists r, r ∈ rows /\ key r = Some k) /\
  m = mean (col <$> filter (fun r => key r = Some k) rows).
Proof.
  rewrite list_elem_of_fmap. split.
  - intros ([k' g] & [= -> ->] & [Hg Hr]%elem_of_groupby).
    simpl in *. by subst g.
  - intros [Hr ->].
    exists (k, filter (fun r => key r = Some k) rows). split; [done|].
    by apply elem_of_groupby.
Qed.

Lemma group_means_keys {K A} `{EqDecision K} `{KeyLe K}
  (key : A -> option K) (col : A -> option Z) (rows : list A) :
  ((fun g : K * list A => (g.1, mean (col <$> g.2))) <$> groupby key rows).*1
  = (groupby key rows).*1.
Proof. rewrite <- list_fmap_compose. done. Qed.

End MeanFacts.

(** X18.  The average delay chart has one bar for each airline name met
    among the flights that are not cancelled; its height is the mean of the
    recorded delays of these flights, missing exactly when none of them has
    a recorded delay, and otherwise between any two bounds of these delays.
    The bars come with the largest mean first and the bars without a mean
    last, whatever the sort does with equal means. *)
Theorem average_delay_bars `{NumpySort} `{!LawfulSort} (flights : list row) :
  let df := filter (fun r : row => CANCELLED r = 0) flights in
  let bars := DelayAnalysis.avg_delay flights in
  NoDup bars.*1 /\
  (forall name m, (name, m) ∈ bars <->
     (exists r : row, r ∈ df /\ AIRLINE_NAME r = Some name) /\
     m = Pandas.mean
           ((fun r : row => DEPARTURE_DELAY r)
              <$> filter (fun r : row => AIRLINE_NAME r = Some name) df)) /\
  (forall name m, (name, m) ∈ bars ->
     (m = None <->
      forall r : row, r ∈ df -> AIRLINE_NAME r = Some name ->
                      DEPARTURE_DELAY r = None) /\
     (forall q lo hi, m = Some q ->
        (forall (r : row) d, r ∈ df -> AIRLINE_NAME r = Some name ->
           DEPARTURE_DELAY r = Some d -> lo <= d <= hi) ->
        (inject_Z lo <= q)%Q /\ (q <= inject_Z hi)%Q)) /\
  (forall i j a b, (i < j)%nat -> bars !! i = Some a -> bars !! j = Some b ->
     match a.2, b.2 with
     | Some x, Some y => (y <= x)%Q
     | None, Some _ => False
     | _, None => True
     end).
Proof.
  intros df bars.
  assert (Hbars : forall name m, (name, m) ∈ bars <->
     (exists r : row, r ∈ df /\ AIRLINE_NAME r = Some name) /\
     m = Pandas.mean
           ((fun r : row => DEPARTURE_DELAY r)
              <$> filter (fun r : row => AIRLINE_NAME r = Some name) df)).
  { intros name m. unfold bars, DelayAnalysis.avg_delay. fold df.
    rewrite elem_of_sort_values. apply elem_of_group_means. }
  split; [|split; [done|split]].
  - unfold bars, DelayAnalysis.avg_delay. fold df.
    rewrite sort_values_Permutation, group_means_keys. apply NoDup_groupby.
  - intros name m [_ ->]%Hbars. split.
    + rewrite mean_None. split.
      * intros Hall r Hr Hname. apply Hall.
        apply list_elem_of_fmap. exists r. split; [done|].
        by apply list_elem_of_filter.
      * intros Hall x (r & -> & [Hname Hr]%list_elem_of_filter)%list_elem_of_fmap.
        by apply Hall.
    + intros q lo hi Hq Hall. eapply mean_bounds; [|exact Hq].
      intros d (r & Hd & [Hname Hr]%list_elem_of_filter)%list_elem_of_fmap.
      by apply (Hall r).
  - intros i j a b Hij Hi Hj.
    pose proof (sort_values_sorted (fun b : string * option Q => b.2) false
                  ((fun g : string * list row =>
                      (g.1, Pandas.mean
                              ((fun r : row => DEPARTURE_DELAY r) <$> g.2)))
                     <$> Pandas.groupby AIRLINE_NAME df)
                  Q_key_le_total Q_key_le_trans) as Hs.
    pose proof (StronglySorted_lookup_lt _ _ i j a b Hs Hij Hi Hj) as Hab.
    simpl in Hab. unfold Pandas.cell_order in Hab.
    destruct a.2, b.2; try done.
    by apply Is_true_true, Qle_bool_iff in Hab.
Qed.

(** X19.  The animated delay chart and the delay heat map show the same
    table: one cell for each airline name and scheduled hour met among the
    flights that are not cancelled, holding the mean of the recorded delays
    of these flights, which lies between any two bounds of these delays. *)
Theorem hourly_mean_delays (flights : list row) :
  let df := filter (fun r : row => CANCELLED r = 0) flights in
  let cells := DelayAnalysis.delay_heatmap flights in
  DelayAnalysis.delay_trend_animation flights = cells /\
  NoDup cells.*1 /\
  (forall name h m, ((name, h), m) ∈ cells <->
     (exists r : row, r ∈ df /\ AIRLINE_NAME r = Some name /\
                      SCHED_HOUR r = Some h) /\
     m = Pandas.mean
           ((fun r : row => DEPARTURE_DELAY r)
              <$> filter (fun r : row =>
                            AIRLINE_NAME r = Some name /\
                            SCHED_HOUR r = Some h) df)) /\
  (forall name h q lo hi, ((name, h), Some q) ∈ cells ->
     (forall (r : row) d, r ∈ df -> AIRLINE_NAME r = Some name ->
        SCHED_HOUR r = Some h -> DEPARTURE_DELAY r = Some d ->
        lo <= d <= hi) ->
     (inject_Z lo <= q)%Q /\ (q <= inject_Z hi)%Q).
Proof.
  intros df cells.
  assert (Hkey : forall (r : row) name h,
            DelayAnalysis.airline_hour r = Some (name, h) <->
            AIRLINE_NAME r = Some name /\ SCHED_HOUR r = Some h).
  { intros r name h. unfold DelayAnalysis.airline_hour.
    destruct (AIRLINE_NAME r), (SCHED_HOUR r); simpl;
      (split; [intros ?|intros [??]]); by simplify_eq/=. }
  assert (Hcells : forall name h m, ((name, h), m) ∈ cells <->
     (exists r : row, r ∈ df /\ AIRLINE_NAME r = Some name /\
                      SCHED_HOUR r = Some h) /\
     m = Pandas.mean
           ((fun r : row => DEPARTURE_DELAY r)
              <$> filter (fun r : row =>
                            AIRLINE_NAME r = Some name /\
                            SCHED_HOUR r = Some h) df)).
  { intros name h m. unfold cells, DelayAnalysis.delay_heatmap. fold df.
    rewrite elem_of_group_means.
    rewrite (filter_ext_in
               (fun r : row => DelayAnalysis.airline_hour r = Some (name, h))
               (fun r : row => AIRLINE_NAME r = Some name /\
                               SCHED_HOUR r = Some h) df)
      by (intros r _; apply Hkey).
    by setoid_rewrite Hkey. }
  split; [done|split; [|split; [done|]]].
  - unfold cells, DelayAnalysis.delay_heatmap.
    rewrite group_means_keys. apply NoDup_groupby.
  - intros name h q lo hi [_ Hq]%Hcells Hall. symmetry in Hq.
    eapply mean_bounds; [|exact Hq].
    intros d (r & Hd & [[Hname Hh] Hr]%list_elem_of_filter)%list_elem_of_fmap.
    by apply (Hall r).
Qed.

(** ** Rate tables *)

Section RateCounts.
Import Py Pandas.

Lemma sum_cancelled_count (rows : list row) :
  (forall r : row, r ∈ rows -> cancelled_flag r) ->
  sum_Z ((fun r : row => CANCELLED r) <$> rows)
  = Z.of_nat (length (filter (fun r : row => CANCELLED r = 1) rows)).
Proof.
  induction rows as [|r rows IH]; intros Hflag; [done|].
  assert (Hr : cancelled_flag r) by (apply Hflag; left).
  assert (IH' : sum_Z ((fun r : row => CANCELLED r) <$> rows)
                = Z.of_nat (length (filter (fun r : row => CANCELLED r = 1)
                                           rows))).
  { apply IH. intros r' Hr'. apply Hflag. by right. }
  rewrite filter_cons. csimpl. unfold sum_Z in *. simpl. rewrite IH'.
  destruct Hr as [Hr|Hr]; case_decide; simpl; lia.
Qed.

Lemma truediv_percent_exact (c t : Z) :
  0 < t ->
  exists q, truediv (100 * c) t = Some q /\
    (q * inject_Z t == 100 * inject_Z c)%Q /\
    ((q == 0)%Q <-> c = 0) /\ ((q == 100)%Q <-> c = t).
Proof.
  intros Ht. unfold truediv. rewrite decide_False by lia.
  eexists. split; [reflexivity|].
  assert (Hnz : ~ (inject_Z t == 0)%Q).
  { change 0%Q with (inject_Z 0). rewrite inject_Z_injective. lia. }
  assert (Hq : (inject_Z (100 * c) / inject_Z t * inject_Z t
                == 100 * inject_Z c)%Q).
  { rewrite Qmult_comm, Qmult_div_r by done.
    by rewrite inject_Z_mult. }
  split; [done|]. split.
  - split.
    + intros H0. rewrite H0, Qmult_0_l in Hq.
      change 100%Q with (inject_Z 100) in Hq.
      change 0%Q with (inject_Z 0) in Hq.
      rewrite <- inject_Z_mult, inject_Z_injective in Hq. lia.
    + intros ->. change (100 * 0) with 0. change (inject_Z 0) with 0%Q.
      unfold Qdiv. apply Qmult_0_l.
  - split.
    + intros H100. rewrite H100 in Hq.
      change 100%Q with (inject_Z 100) in Hq.
      rewrite <- !inject_Z_mult, inject_Z_injective in Hq. lia.
    + intros ->. rewrite inject_Z_mult.
      change (inject_Z 100) with 100%Q. by apply Qdiv_mult_l.
Qed.

Lemma rate_table_keys {K} `{EqDecision K} `{KeyLe K}
  (key : row -> option K) (flights : list row) :
  CancelledFlights.rate_key <$> CancelledFlights.rate_table key flights
  = (groupby key flights).*1.
Proof.
  unfold CancelledFlights.rate_table. by rewrite <- list_fmap_compose.
Qed.

Lemma rate_table_row {K} `{EqDecision K} `{KeyLe K}
  (key : row -> option K) (flights : list row) g :
  (forall r : row, r ∈ flights -> cancelled_flag r) ->
  g ∈ CancelledFlights.rate_table key flights ->
  rate_row_counts key flights g.
Proof.
  intros Hflag (grp & -> & Hgrp)%list_elem_of_fmap.
  apply elem_of_groupby in Hgrp as [Hrows (r & Hr & Hk)].
  destruct grp as [k rows]. simpl in *. subst rows.
  unfold rate_row_counts. simpl.
  rewrite sum_cancelled_count, list_filter_filter
    by (intros r' [_ Hr']%list_elem_of_filter; auto).
  split; [done|]. split; [done|].
  apply truediv_percent_exact.
  assert (Hin : r ∈ filter (fun r : row => key r = Some k) flights)
    by (by apply list_elem_of_filter).
  destruct (filter (fun r : row => key r = Some k) flights);
    [by apply elem_of_nil in Hin|simpl; lia].
Qed.

Lemma rate_table_counted {K} `{EqDecision K} `{KeyLe K}
  (key : row -> option K) (flights : list row) :
  (forall r : row, r ∈ flights -> cancelled_flag r) ->
  rate_table_counts key flights (CancelledFlights.rate_table key flights).
Proof.
  intros Hflag. split; [|split].
  - rewrite rate_table_keys. apply NoDup_groupby.
  - intros r k Hr Hk. rewrite rate_table_keys.
    apply list_elem_of_fmap.
    exists (k, filter (fun r => key r = Some k) flights). split; [done|].
    apply elem_of_groupby. simpl. eauto.
  - intros g Hg. by apply rate_table_row.
Qed.

Lemma sort_values_rate_sorted `{NumpySort} `{!LawfulSort} {K}
  (l : list (CancelledFlights.rate_row K)) :
  StronglySorted
    (fun a b => cell_order false (CancelledFlights.rate a)
                                 (CancelledFlights.rate b))
    (sort_values CancelledFlights.rate false l).
Proof.
  apply sort_values_sorted; [apply Q_key_le_total|apply Q_key_le_trans].
Qed.

Lemma rate_order_le {K} (a b : CancelledFlights.rate_row K) qa qb :
  cell_order false (CancelledFlights.rate a) (CancelledFlights.rate b) ->
  CancelledFlights.rate a = Some qa -> CancelledFlights.rate b = Some qb ->
  (qb <= qa)%Q.
Proof.
  intros Hab Ha Hb. rewrite Ha, Hb in Hab. simpl in Hab.
  by apply Is_true_true, Qle_bool_iff in Hab.
Qed.

End RateCounts.

(** X20.  With the cancelled flag 0 or 1 on every flight, the rate table by
    day and the rate table by airline and day have one row for each key met
    in the frame; the row holds the number of flights with the key, the
    number of these that are cancelled, and a rate that is 100 times their
    quotient: 0 exactly when none of them is cancelled and 100 exactly when
    all are. *)
Theorem rate_tables_count (flights : list row) :
  (forall r : row, r ∈ flights -> cancelled_flag r) ->
  rate_table_counts DAY_NAME flights
    (CancelledFlights.cancel_day_bar flights) /\
  rate_table_counts CancelledFlights.airline_day flights
    (CancelledFlights.cancel_heat flights).
Proof.
  intros Hflag. split; by apply rate_table_counted.
Qed.

(** X21.  With the cancelled flag 0 or 1 on every flight, the chart of
    cancellation rates by route shows 15 routes, or all routes when there
    are fewer, no route twice, each with its counts and rate; the rates
    decrease along the chart, and no route that is left out has a higher
    rate than a route that is shown, whatever the sort does with equal
    rates. *)
Theorem cancel_rate_bar_top_15 `{NumpySort} `{!LawfulSort}
  (flights : list row) :
  (forall r : row, r ∈ flights -> cancelled_flag r) ->
  let top := CancelledFlights.cancel_rate_bar flights in
  length top = Nat.min 15 (length (Pandas.unique (omap ROUTE flights))) /\
  NoDup (CancelledFlights.rate_key <$> top) /\
  (forall g, g ∈ top -> rate_row_counts ROUTE flights g) /\
  (forall i j a b, (i < j)%nat -> top !! i = Some a -> top !! j = Some b ->
     exists qa qb, CancelledFlights.rate a = Some qa /\
                   CancelledFlights.rate b = Some qb /\ (qb <= qa)%Q) /\
  (forall g (r : row) route,
     g ∈ top -> r ∈ flights -> ROUTE r = Some route ->
     route ∉ CancelledFlights.rate_key <$> top ->
     exists q q',
       CancelledFlights.rate g = Some q /\
       Pandas.truediv
         (100 * Z.of_nat (length (filter (fun r : row =>
                                            CANCELLED r = 1 /\
                                            ROUTE r = Some route) flights)))
         (Z.of_nat (length (filter (fun r : row => ROUTE r = Some route)
                                   flights)))
       = Some q' /\ (q' <= q)%Q).
Proof.
  intros Hflag top.
  set (table := CancelledFlights.rate_table ROUTE flights).
  set (sorted := Pandas.sort_values CancelledFlights.rate false table).
  assert (Htable : rate_table_counts ROUTE flights table)
    by (by apply rate_table_counted).
  destruct Htable as (Hnd & Hcover & Hrows).
  assert (Hsorted : forall g, g ∈ sorted -> rate_row_counts ROUTE flights g).
  { intros g Hg. apply Hrows. by apply elem_of_sort_values in Hg. }
  assert (Htop : forall g, g ∈ top -> g ∈ sorted).
  { intros g Hg. apply elem_of_take in Hg as (i & Hg & _).
    by apply list_elem_of_lookup_2 in Hg. }
  assert (Hnd' : NoDup (CancelledFlights.rate_key <$> sorted)).
  { unfold sorted. by rewrite sort_values_Permutation. }
  split; [|split; [|split; [|split]]].
  - unfold top, CancelledFlights.cancel_rate_bar. fold table.
    rewrite length_take, length_sort_values. unfold table,
      CancelledFlights.rate_table, Pandas.groupby, Pandas.sort_keys.
    by rewrite !length_fmap, length_sort_by.
  - unfold top, CancelledFlights.cancel_rate_bar. fold table. fold sorted.
    rewrite fmap_take. eapply sublist_NoDup; [exact Hnd'|].
    apply sublist_take.
  - intros g Hg. by apply Hsorted, Htop.
  - intros i j a b Hij Hi Hj.
    assert (Hab : Pandas.cell_order false (CancelledFlights.rate a)
                                          (CancelledFlights.rate b)).
    { unfold top, CancelledFlights.cancel_rate_bar in Hi, Hj.
      apply lookup_take_Some in Hi as [Hi _].
      apply lookup_take_Some in Hj as [Hj _].
      exact (StronglySorted_lookup_lt _ _ i j a b
               (sort_values_rate_sorted _) Hij Hi Hj). }
    destruct (Hsorted a) as (_ & _ & qa & Hqa & _);
      [by eapply Htop, list_elem_of_lookup_2|].
    destruct (Hsorted b) as (_ & _ & qb & Hqb & _);
      [by eapply Htop, list_elem_of_lookup_2|].
    exists qa, qb. split; [done|]. split; [done|].
    by apply (rate_order_le a b).
  - intros g r route Hg Hr Hroute Hout.
    assert (Hin : route ∈ CancelledFlights.rate_key <$> sorted).
    { unfold sorted. rewrite sort_values_Permutation. by eapply Hcover. }
    apply list_elem_of_fmap in Hin as (g' & -> & Hg').
    assert (Hdrop : g' ∈ drop 15 sorted).
    { rewrite <- (take_drop 15 sorted) in Hg'.
      apply elem_of_app in Hg' as [Hg'|Hg']; [|done].
      destruct Hout. apply list_elem_of_fmap. by exists g'. }
    assert (Hgg' : Pandas.cell_order false (CancelledFlights.rate g)
                                           (CancelledFlights.rate g')).
    { exact (StronglySorted_take_drop _ _ 15 g g'
               (sort_values_rate_sorted _) Hg Hdrop). }
    destruct (Hsorted g) as (_ & _ & q & Hq & _); [by apply Htop|].
    destruct (Hrows g') as (Htot & Hcan & q' & Hq' & _);
      [by apply elem_of_sort_values in Hg'|].
    exists q, q'. split; [done|]. split.
    + rewrite <- Hq'. unfold table, CancelledFlights.rate_table in Hg'.
      apply elem_of_sort_values in Hg'.
      apply list_elem_of_fmap in Hg' as (grp & -> & Hgrp). simpl in *.
      by rewrite Htot, Hcan.
    + by apply (rate_order_le g g').
Qed.

(** ** An airline without flights *)

Section EmptySelection.
Import Py Pandas.

Lemma select_airline_none (flights : list row) code :
  (forall r : row, r ∈ flights -> AIRLINE r <> code) ->
  select_airline (Some code) flights = [].
Proof.
  intros Hnone. simpl. induction flights as [|r flights IH]; [done|].
  rewrite filter_cons, decide_False by (apply Hnone; left).
  apply IH. intros r' Hr'. apply Hnone. by right.
Qed.

End EmptySelection.

(** X22.  An airline of the selector that has no flight in the frame: the
    three top-20 charts and the busiest airports chart are empty, the day
    and month charts keep their seven and twelve rows with no value in any,
    and the map is drawn without arcs or markers; nothing raises and the
    process-wide generator is untouched. *)
Theorem selection_without_flights `{NumpyRandom}
  (airports : list Airports.row) (flights : list row) (code : string)
  (np_random : RandomState) :
  (forall r : row, r ∈ flights -> AIRLINE r <> code) ->
  Overview.route_bar flights (Some code) = [] /\
  Overview.origin_treemap flights (Some code) = [] /\
  Overview.dest_treemap flights (Some code) = [] /\
  Overview.airport_bar airports flights (Some code) = [] /\
  Overview.busiest_day flights (Some code)
  = (fun day => (day, None)) <$> Overview.day_order /\
  Overview.monthly_trend flights (Some code)
  = (fun month => (month, None)) <$> Overview.month_order /\
  Overview.show_map airports flights (Some code) np_random
  = (Py.Ok {| arcs := []; airport_points := [] |}, np_random).
Proof.
  intros Hnone. apply select_airline_none in Hnone.
  unfold Overview.route_bar, Overview.origin_treemap, Overview.dest_treemap,
    Overview.airport_bar, Overview.busiest_day, Overview.monthly_trend.
  rewrite Hnone.
  repeat split; try reflexivity.
  by apply show_map_no_selection.
Qed.

(** * The properties under a hypothesis, on the example data *)

Lemma reversing_random_lawful : @LawfulRandom reversing_random.
Proof. intros rs n. simpl. apply reverse_Permutation. Qed.

Section StandInSorts.
Import Pandas.
Context {K : Type} (le : K -> K -> bool).

Lemma elem_of_zip_positions (keys : list K) (p : K * nat) :
  p ∈ zip keys (seq 0 (length keys)) -> keys !! p.2 = Some p.1.
Proof.
  intros (i & Hi)%list_elem_of_lookup_1.
  apply lookup_zip_with_Some in Hi as (k & j & -> & Hk & Hj).
  apply lookup_seq in Hj as [-> _]. done.
Qed.

Lemma lookup_positions (keys : list K) (l : list (K * nat)) :
  (forall p, p ∈ l -> keys !! p.2 = Some p.1) ->
  omap (fun i => keys !! i) l.*2 = l.*1.
Proof.
  induction l as [|[k i] l IH]; intros Hl; [done|]. csimpl.
  assert (Hi : keys !! i = Some k) by (apply (Hl (k, i)); left).
  rewrite Hi. csimpl. f_equal. apply IH. intros p Hp. apply Hl. by right.
Qed.

(** Sorting the keys with their positions, from any arrangement of the
    pairs, keeps the laws of [argsort]. *)
Lemma sorted_positions_lawful (keys : list K) (l : list (K * nat)) :
  l ≡ₚ zip keys (seq 0 (length keys)) ->
  (sort_by (on_key le) l).*2 ≡ₚ seq 0 (length keys) /\
  ((forall a b, le a b = true \/ le b a = true) ->
   (forall a b c, le a b = true -> le b c = true -> le a c = true) ->
   StronglySorted (fun a b => le a b = true)
     (omap (fun i => keys !! i) (sort_by (on_key le) l).*2)).
Proof.
  intros Hl. split.
  - rewrite sort_by_Permutation, Hl, snd_zip; [done|].
    by rewrite length_seq.
  - intros Htotal Htrans. rewrite lookup_positions.
    + apply (StronglySorted_fmap fst (on_key le)).
      * intros x y Hxy. by apply Is_true_true.
      * apply sort_by_StronglySorted.
        -- intros x y. unfold on_key. rewrite !Is_true_true. apply Htotal.
        -- intros x y z. unfold on_key. rewrite !Is_true_true.
           apply Htrans.
    + intros p Hp. apply elem_of_sort_by in Hp. rewrite Hl in Hp.
      by apply elem_of_zip_positions.
Qed.

End StandInSorts.

Lemma stable_argsort_lawful : @LawfulSort stable_argsort.
Proof.
  split; intros K le keys; simpl.
  - by apply sorted_positions_lawful.
  - by apply sorted_positions_lawful.
Qed.

Lemma reversing_argsort_lawful : @LawfulSort reversing_argsort.
Proof.
  split; intros K le keys; simpl.
  - apply sorted_positions_lawful, reverse_Permutation.
  - apply sorted_positions_lawful, reverse_Permutation.
Qed.

(** The two stand-in sorts order tied bars differently; both orders are
    orders of the model. *)
Example tied_bars_order :
  (@DelayAnalysis.avg_delay stable_argsort (tied_flights 0)).*1
  = ["Line2"; "Line3"; "Line0"; "Line1"] /\
  (@DelayAnalysis.avg_delay reversing_argsort (tied_flights 0)).*1
  = ["Line3"; "Line2"; "Line1"; "Line0"] /\
  @CancelledFlights.cancelled_bar stable_argsort (tied_flights 1)
  = [("Line0", 1); ("Line1", 1); ("Line2", 1); ("Line3", 1)]%nat /\
  @CancelledFlights.cancelled_bar reversing_argsort (tied_flights 1)
  = [("Line3", 1); ("Line2", 1); ("Line1", 1); ("Line0", 1)]%nat.
Proof. repeat split; vm_compute; reflexivity. Qed.

(** X7 on [tied_flights], all cancelled, with the sort that reverses equal
    keys. *)
Lemma cancelled_bar_witness :
  let bars := @CancelledFlights.cancelled_bar reversing_argsort
                (tied_flights 1) in
  @LawfulSort reversing_argsort /\
  NoDup bars.*1 /\
  (forall i j a b, (i < j)%nat -> bars !! i = Some a -> bars !! j = Some b ->
     (a.2 <= b.2)%nat) /\
  sum_list bars.*2 = 4%nat.
Proof.
  cbv zeta. split; [exact reversing_argsort_lawful|].
  destruct (@cancelled_bar_counts reversing_argsort reversing_argsort_lawful
              (tied_flights 1)) as (Hnd & _ & Hsorted & Hsum).
  split; [exact Hnd|]. split; [exact Hsorted|].
  rewrite Hsum. vm_compute. reflexivity.
Defined.

(** X18 on [tied_flights], none cancelled, with the sort that reverses equal
    keys. *)
Lemma average_delay_witness :
  let bars := @DelayAnalysis.avg_delay reversing_argsort (tied_flights 0) in
  @LawfulSort reversing_argsort /\
  NoDup bars.*1 /\
  (forall i j a b, (i < j)%nat -> bars !! i = Some a -> bars !! j = Some b ->
     match a.2, b.2 with
     | Some x, Some y => (y <= x)%Q
     | None, Some _ => False
     | _, None => True
     end).
Proof.
  cbv zeta. split; [exact reversing_argsort_lawful|].
  destruct (@average_delay_bars reversing_argsort reversing_argsort_lawful
              (tied_flights 0)) as (Hnd & _ & _ & Hsorted).
  split; [exact Hnd|exact Hsorted].
Defined.

(** X4 on [morning_flights] with the airline AA selected. *)
Lemma airline_share_witness :
  let flights := Overview.enrichment example_airlines example_airports
                   (read_csv morning_flights) in
  "AA" <> EmptyString /\
  exists b, b ∈ Overview.airline_share example_airlines flights (Some "AA") /\
            Overview.share_airline b = "American Airlines Inc." /\
            Overview.share_highlight b = Some "Selected".
Proof.
  simpl.
  assert (Hcode : "AA" <> EmptyString) by done.
  split; [exact Hcode|].
  destruct (airline_share_highlights_selection example_airlines
              example_airports (read_csv morning_flights) "AA" Hcode)
    as (_ & _ & _ & _ & Hbar).
  assert (Hr : exists r : row,
            r ∈ Overview.enrichment example_airlines example_airports
                  (read_csv morning_flights) /\ AIRLINE r = "AA").
  { rewrite overview_enrichment. eexists. split.
    - apply list_elem_of_fmap_2. unfold read_csv, morning_flights.
      rewrite fmap_cons. left.
    - reflexivity. }
  destruct Hr as (r & Hr & Hair).
  apply (Hbar "American Airlines Inc." r); [|exact Hr|exact Hair].
  vm_compute. reflexivity.
Defined.

(** X9 with the reversing generator: on [morning_flights] every flight has
    both airports in [example_airports] and all five are sampled; on
    [two_flights] one of two is left and the call raises. *)
Lemma geo_sample_size_witness :
  @LawfulRandom reversing_random /\
  (exists sample,
     @Overview.show_map_sample reversing_random example_airports
       (overview_row example_airlines example_airports
          <$> read_csv morning_flights) None 7%nat
     = (Py.Ok sample, 7%nat) /\ length sample = 5%nat) /\
  @CancelledFlights.cancel_map_sample reversing_random example_airports
    (cancelled_row example_airlines example_airports <$> read_csv two_flights)
    7%nat
  = (Py.Raise Py.ValueError, 7%nat).
Proof.
  split; [exact reversing_random_lawful|]. split.
  - destruct (@geo_sample_size_with_permutation reversing_random
                reversing_random_lawful example_airports
                (overview_row example_airlines example_airports
                   <$> read_csv morning_flights) None 7%nat)
      as [[Hok _] _].
    destruct Hok as (sample & Hsample & Hlen & _); [vm_compute; lia|].
    exists sample. split; [exact Hsample|]. rewrite Hlen. reflexivity.
  - destruct (@geo_sample_size_with_permutation reversing_random
                reversing_random_lawful example_airports
                (cancelled_row example_airlines example_airports
                   <$> read_csv two_flights) None 7%nat)
      as [_ [_ Hraise]].
    apply Hraise. vm_compute. lia.
Defined.

(** X10 with the reversing generator, on [morning_flights] at 5 o'clock: two
    flights have a delay in the range, both are shown, and the generator
    has moved on. *)
Lemma delay_violin_witness :
  @LawfulRandom reversing_random /\
  exists shown,
    @DelayAnalysis.delay_violin reversing_random
      (delay_row example_airlines <$> read_csv morning_flights) 5 7%nat
    = (Py.Ok shown, 8%nat) /\
    length shown = 2%nat.
Proof.
  split; [exact reversing_random_lawful|].
  destruct (@delay_violin_sample reversing_random reversing_random_lawful
              (delay_row example_airlines <$> read_csv morning_flights) 5
              7%nat)
    as (shown & Hshown & Hlen & _).
  exists shown. split; [exact Hshown|]. rewrite Hlen. reflexivity.
Defined.

(** X13 on [morning_flights]. *)
Lemma on_time_pies_witness :
  let flights := delay_row example_airlines <$> read_csv morning_flights in
  DelayAnalysis.enrichment example_airlines (read_csv morning_flights)
  = Py.Ok flights /\
  sum_list_with
    (fun hour => sum_list (DelayAnalysis.on_time_vs_delayed flights hour).*2)
    DelayAnalysis.hour_slider
  = length (filter (fun r : row =>
                      CANCELLED r = 0 /\
                      0 <= hour_of (SCHEDULED_DEPARTURE r) <= 23)
                   flights).
Proof.
  simpl.
  assert (Henr : DelayAnalysis.enrichment example_airlines
                   (read_csv morning_flights)
                 = Py.Ok (delay_row example_airlines
                            <$> read_csv morning_flights)).
  { vm_compute. reflexivity. }
  split; [exact Henr|].
  exact (proj2 (proj2 (on_time_pies_partition example_airlines _ _ Henr))).
Defined.

(** X20 on [morning_flights], enriched as the cancellations page does. *)
Lemma rate_tables_witness :
  let flights := cancelled_row example_airlines example_airports
                   <$> read_csv morning_flights in
  (forall r : row, r ∈ flights -> cancelled_flag r) /\
  rate_table_counts DAY_NAME flights
    (CancelledFlights.cancel_day_bar flights) /\
  rate_table_counts CancelledFlights.airline_day flights
    (CancelledFlights.cancel_heat flights).
Proof.
  simpl.
  assert (Hflag : forall r : row,
            r ∈ cancelled_row example_airlines example_airports
                  <$> read_csv morning_flights -> cancelled_flag r).
  { apply Forall_forall. apply (bool_decide_unpack _). vm_compute. exact I. }
  split; [exact Hflag|].
  exact (rate_tables_count _ Hflag).
Defined.

(** X21 on [morning_flights], enriched as the cancellations page does: two
    routes, both shown. *)
Lemma cancel_rate_bar_witness :
  let flights := cancelled_row example_airlines example_airports
                   <$> read_csv morning_flights in
  (forall r : row, r ∈ flights -> cancelled_flag r) /\
  @LawfulSort reversing_argsort /\
  length (@CancelledFlights.cancel_rate_bar reversing_argsort flights)
  = 2%nat /\
  forall g, g ∈ @CancelledFlights.cancel_rate_bar reversing_argsort flights ->
            rate_row_counts ROUTE flights g.
Proof.
  cbv zeta.
  assert (Hflag : forall r : row,
            r ∈ cancelled_row example_airlines example_airports
                  <$> read_csv morning_flights -> cancelled_flag r).
  { apply Forall_forall. apply (bool_decide_unpack _). vm_compute. exact I. }
  split; [exact Hflag|]. split; [exact reversing_argsort_lawful|].
  destruct (@cancel_rate_bar_top_15 reversing_argsort
              reversing_argsort_lawful _ Hflag) as (Hlen & _ & Hrows & _).
  split; [|exact Hrows].
  rewrite Hlen. vm_compute. reflexivity.
Defined.

(** X22 on [morning_flights] with a code that no flight carries. *)
Lemma selection_without_flights_witness :
  let flights := overview_row example_airlines example_airports
                   <$> read_csv morning_flights in
  (forall r : row, r ∈ flights -> AIRLINE r <> "ZZ") /\
  Overview.route_bar flights (Some "ZZ") = [] /\
  @Overview.show_map identity_random example_airports flights (Some "ZZ") tt
  = (Py.Ok {| arcs := []; airport_points := [] |}, tt).
Proof.
  cbv zeta.
  assert (Hnone : forall r : row,
            r ∈ overview_row example_airlines example_airports
                  <$> read_csv morning_flights -> AIRLINE r <> "ZZ").
  { apply Forall_forall. apply (bool_decide_unpack _). vm_compute. exact I. }
  split; [exact Hnone|].
  destruct (@selection_without_flights identity_random example_airports _
              "ZZ" tt Hnone) as (Hroutes & _ & _ & _ & _ & _ & Hmap).
  split; [exact Hroutes|exact Hmap].
Defined.
